(** * ionic-super-tabs: the tab synchronisation core, embedded in Rocq

    The development follows the sources of the package:

    - [Utils]: [src/core/src/utils.ts] (easing curve, offset clamping,
      default configuration);
    - [Container]: the [super-tabs-container] component (geometry, gesture
      commit, lazy loading);
    - [Toolbar]: the part of [super-tabs-toolbar] the root component drives;
    - [Tabs]: the root [super-tabs] component (selection, change events,
      child discovery).

    JavaScript numbers are modelled by [JsNum.jsnum]: exact rationals
    extended with the two infinities and NaN.  Finite arithmetic is exact
    (no binary rounding) and the sign of zero is not tracked; everything
    else (division by zero, NaN propagation, [Math.round], [Math.max],
    [Math.min], strict equality) follows the language.  Where a statement
    over [jsnum] could hang on a rounding of the last binary digit, it
    compares the values the code computes with one another, or keeps a
    stated distance from the points where a rounding decides.  Where the
    rounding itself is the matter, the functions concerned are given a
    second time in [F64], over the binary64 numbers of the kernel, with the
    operations of the language. *)

From Stdlib Require Import ZArith QArith Qround Qabs Qminmax Lqa Lia.
From Stdlib Require Import List Bool String.
From Corelib Require PrimFloat SpecFloat FloatOps FloatAxioms.
Import ListNotations.

(* ================================================================== *)
(** ** JavaScript numbers *)
(* ================================================================== *)

Module JsNum.

Local Open Scope Q_scope.

Inductive jsnum : Type :=
| Fin (q : Q)
| PInf
| NInf
| NaN.

(** Three-way comparison; [None] as soon as one operand is NaN. *)
Definition jcmp (a b : jsnum) : option comparison :=
  match a, b with
  | NaN, _ | _, NaN => None
  | Fin p, Fin q => Some (p ?= q)
  | PInf, PInf | NInf, NInf => Some Eq
  | PInf, _ | _, NInf => Some Gt
  | _, PInf | NInf, _ => Some Lt
  end.

(** [a === b] on numbers. *)
Definition jeq (a b : jsnum) : bool :=
  match jcmp a b with Some Eq => true | _ => false end.

(** [a < b], [a <= b], [a > b], [a >= b]. *)
Definition jlt (a b : jsnum) : bool :=
  match jcmp a b with Some Lt => true | _ => false end.

Definition jle (a b : jsnum) : bool :=
  match jcmp a b with Some Lt | Some Eq => true | _ => false end.

Definition jgt (a b : jsnum) : bool := jlt b a.

Definition jge (a b : jsnum) : bool := jle b a.

(** [Math.max(a, b)] and [Math.min(a, b)]. *)
Definition jmax (a b : jsnum) : jsnum :=
  match jcmp a b with
  | None => NaN
  | Some Lt => b
  | Some _ => a
  end.

Definition jmin (a b : jsnum) : jsnum :=
  match jcmp a b with
  | None => NaN
  | Some Gt => b
  | Some _ => a
  end.

Definition jneg (a : jsnum) : jsnum :=
  match a with
  | Fin q => Fin (- q)
  | PInf => NInf
  | NInf => PInf
  | NaN => NaN
  end.

(** [a + b] and [a - b]. *)
Definition jadd (a b : jsnum) : jsnum :=
  match a, b with
  | NaN, _ | _, NaN => NaN
  | Fin p, Fin q => Fin (p + q)
  | PInf, NInf | NInf, PInf => NaN
  | PInf, _ | _, PInf => PInf
  | NInf, _ | _, NInf => NInf
  end.

Definition jsub (a b : jsnum) : jsnum := jadd a (jneg b).

(** The infinity (or NaN) of a given sign. *)
Definition inf_of (s : comparison) : jsnum :=
  match s with Gt => PInf | Lt => NInf | Eq => NaN end.

Definition sign_mul (s t : comparison) : comparison :=
  match s, t with
  | Eq, _ | _, Eq => Eq
  | Gt, Gt | Lt, Lt => Gt
  | _, _ => Lt
  end.

(** Sign of a number that is not NaN ([Eq] for zero). *)
Definition jsign (a : jsnum) : comparison :=
  match a with
  | Fin q => q ?= 0
  | PInf => Gt
  | NInf => Lt
  | NaN => Eq
  end.

(** [a * b]: an infinity times zero is NaN. *)
Definition jmul (a b : jsnum) : jsnum :=
  match a, b with
  | NaN, _ | _, NaN => NaN
  | Fin p, Fin q => Fin (p * q)
  | _, _ => inf_of (sign_mul (jsign a) (jsign b))
  end.

(** [a / b]: a finite non-zero number over zero is an infinity, [0 / 0] and
    an infinity over an infinity are NaN.  Zero counts as positive zero. *)
Definition jdiv (a b : jsnum) : jsnum :=
  match a, b with
  | NaN, _ | _, NaN => NaN
  | Fin p, Fin q => if Qeq_bool q 0 then inf_of (p ?= 0) else Fin (p / q)
  | Fin _, _ => Fin 0
  | _, Fin q => inf_of (sign_mul (jsign a) (if Qle_bool 0 q then Gt else Lt))
  | _, _ => NaN
  end.

(** [Math.round] on a finite number: the nearest integer, halves towards
    plus infinity. *)
Definition Qround (q : Q) : Z := Qfloor (q + 0.5).

Definition jround (a : jsnum) : jsnum :=
  match a with
  | Fin q => Fin (inject_Z (Qround q))
  | _ => a
  end.

Definition is_finite (a : jsnum) : bool :=
  match a with Fin _ => true | _ => false end.

(** Integers as JavaScript numbers. *)
Definition of_Z (z : Z) : jsnum := Fin (inject_Z z).

(** Equality of denotation: the same special value, or finite numbers that
    are equal as rationals. *)
Definition equiv (a b : jsnum) : Prop :=
  match a, b with
  | Fin p, Fin q => p == q
  | PInf, PInf | NInf, NInf | NaN, NaN => True
  | _, _ => False
  end.

End JsNum.

Import JsNum.

(* ================================================================== *)
(** ** utils.ts *)
(* ================================================================== *)

Module Utils.

Local Open Scope Q_scope.

Inductive SideMenu : Type := SideLeft | SideRight | SideBoth.

(** Modelled from the spec: the [SuperTabsConfig] interface lives in
    [interface.ts], which is not part of the sources at hand.  The fields are
    the recognised options of the configuration snapshot (data model, Config)
    with the types [DEFAULT_CONFIG] and the components give them; the two
    options [DEFAULT_CONFIG] leaves out are optional. *)
Record SuperTabsConfig : Type := {
  dragThreshold : Q;
  allowElementScroll : bool;
  maxDragAngle : Q;
  sideMenu : option SideMenu;
  sideMenuThreshold : Q;
  transitionDuration : Q;
  shortSwipeDuration : Q;
  debug : bool;
  avoidElements : bool;
  lazyLoad : bool;
  unloadWhenInvisible : bool;
  nativeSmoothScroll : option bool
}.

Definition DEFAULT_CONFIG : SuperTabsConfig := {|
  dragThreshold := 20;
  allowElementScroll := false;
  maxDragAngle := 40;
  sideMenu := None;
  sideMenuThreshold := 50;
  transitionDuration := 150;
  shortSwipeDuration := 300;
  debug := false;
  avoidElements := false;
  lazyLoad := false;
  unloadWhenInvisible := false;
  nativeSmoothScroll := None
|}.

Record STCoord : Type := { x : Q; y : Q }.

(** [easeInOutCubic], as written in the source. *)
Definition easeInOutCubic (t : Q) : Q :=
  if Qlt_le_dec t 0.5
  then 4 * t * t * t
  else (t - 1) * (2 * t - 2) * (2 * t - 2) + 1.

(** The cubic ease-in-out curve as the design text writes it:
    [f(t) = t < 0.5 ? 4t^3 : 1 - (-2t+2)^3 / 2]. *)
Definition easeInOutCubic_spec (t : Q) : Q :=
  if Qlt_le_dec t 0.5
  then 4 * t ^ 3
  else 1 - (- (2) * t + 2) ^ 3 / 2.

(** The two DOM readings of a scrollable element that the code uses. *)
Record ScrollableEl : Type := { el_scrollWidth : Q; el_scrollLeft : Q }.

(** [getNormalizedScrollX(el, width, delta)]. *)
Definition getNormalizedScrollX (el : ScrollableEl) (width delta : jsnum) : jsnum :=
  jmax (Fin 0)
       (jmin (jsub (Fin (el_scrollWidth el)) width)
             (jadd (Fin (el_scrollLeft el)) delta)).

End Utils.

Import Utils.

(* ================================================================== *)
(** ** super-tabs-container *)
(* ================================================================== *)

Module Container.

Local Open Scope Q_scope.

(** A [super-tab] child, as far as the container touches it. *)
Record SuperTab : Type := { loaded : bool; visible : bool }.

(** The component instance.  [scrollLeft] is the DOM reading
    [this.el.scrollLeft]; the other fields are the fields of the class.
    [width], [scrollWidth] and the thresholds are only ever assigned finite
    values, hence rationals. *)
Record Container : Type := {
  config : option SuperTabsConfig;
  swipeEnabled : bool;
  autoScrollTop : bool;
  tabs : list SuperTab;
  initialCoords : option STCoord;
  lastPosX : option Q;
  isDragging : bool;
  initialTimestamp : option Q;
  _activeTabIndex : option jsnum;
  _selectedTabIndex : option jsnum;
  leftThreshold : Q;
  rightThreshold : Q;
  scrollWidth : Q;
  ready : bool;
  width : Q;
  scrollLeft : Q
}.

(** The instance right after construction (field initialisers). *)
Definition initial : Container := {|
  config := None;
  swipeEnabled := true;
  autoScrollTop := false;
  tabs := [];
  initialCoords := None;
  lastPosX := None;
  isDragging := false;
  initialTimestamp := None;
  _activeTabIndex := None;
  _selectedTabIndex := None;
  leftThreshold := 0;
  rightThreshold := 0;
  scrollWidth := 0;
  ready := false;
  width := 0;
  scrollLeft := 0
|}.

Definition set_config (v : option SuperTabsConfig) (c : Container) : Container :=
  {| config := v; swipeEnabled := swipeEnabled c; autoScrollTop := autoScrollTop c;
     tabs := tabs c; initialCoords := initialCoords c; lastPosX := lastPosX c;
     isDragging := isDragging c; initialTimestamp := initialTimestamp c;
     _activeTabIndex := _activeTabIndex c; _selectedTabIndex := _selectedTabIndex c;
     leftThreshold := leftThreshold c; rightThreshold := rightThreshold c;
     scrollWidth := scrollWidth c; ready := ready c; width := width c;
     scrollLeft := scrollLeft c |}.

Definition set_tabs (v : list SuperTab) (c : Container) : Container :=
  {| config := config c; swipeEnabled := swipeEnabled c; autoScrollTop := autoScrollTop c;
     tabs := v; initialCoords := initialCoords c; lastPosX := lastPosX c;
     isDragging := isDragging c; initialTimestamp := initialTimestamp c;
     _activeTabIndex := _activeTabIndex c; _selectedTabIndex := _selectedTabIndex c;
     leftThreshold := leftThreshold c; rightThreshold := rightThreshold c;
     scrollWidth := scrollWidth c; ready := ready c; width := width c;
     scrollLeft := scrollLeft c |}.

Definition set_activeTabIndex (v : option jsnum) (c : Container) : Container :=
  {| config := config c; swipeEnabled := swipeEnabled c; autoScrollTop := autoScrollTop c;
     tabs := tabs c; initialCoords := initialCoords c; lastPosX := lastPosX c;
     isDragging := isDragging c; initialTimestamp := initialTimestamp c;
     _activeTabIndex := v; _selectedTabIndex := _selectedTabIndex c;
     leftThreshold := leftThreshold c; rightThreshold := rightThreshold c;
     scrollWidth := scrollWidth c; ready := ready c; width := width c;
     scrollLeft := scrollLeft c |}.

Definition set_selectedTabIndex (v : option jsnum) (c : Container) : Container :=
  {| config := config c; swipeEnabled := swipeEnabled c; autoScrollTop := autoScrollTop c;
     tabs := tabs c; initialCoords := initialCoords c; lastPosX := lastPosX c;
     isDragging := isDragging c; initialTimestamp := initialTimestamp c;
     _activeTabIndex := _activeTabIndex c; _selectedTabIndex := v;
     leftThreshold := leftThreshold c; rightThreshold := rightThreshold c;
     scrollWidth := scrollWidth c; ready := ready c; width := width c;
     scrollLeft := scrollLeft c |}.

Definition set_width (v : Q) (c : Container) : Container :=
  {| config := config c; swipeEnabled := swipeEnabled c; autoScrollTop := autoScrollTop c;
     tabs := tabs c; initialCoords := initialCoords c; lastPosX := lastPosX c;
     isDragging := isDragging c; initialTimestamp := initialTimestamp c;
     _activeTabIndex := _activeTabIndex c; _selectedTabIndex := _selectedTabIndex c;
     leftThreshold := leftThreshold c; rightThreshold := rightThreshold c;
     scrollWidth := scrollWidth c; ready := ready c; width := v;
     scrollLeft := scrollLeft c |}.

Definition set_scrollWidth (v : Q) (c : Container) : Container :=
  {| config := config c; swipeEnabled := swipeEnabled c; autoScrollTop := autoScrollTop c;
     tabs := tabs c; initialCoords := initialCoords c; lastPosX := lastPosX c;
     isDragging := isDragging c; initialTimestamp := initialTimestamp c;
     _activeTabIndex := _activeTabIndex c; _selectedTabIndex := _selectedTabIndex c;
     leftThreshold := leftThreshold c; rightThreshold := rightThreshold c;
     scrollWidth := v; ready := ready c; width := width c;
     scrollLeft := scrollLeft c |}.

(** End of a gesture: [isDragging = false], [initialCoords] and [lastPosX]
    cleared. *)
Definition clear_gesture (c : Container) : Container :=
  {| config := config c; swipeEnabled := swipeEnabled c; autoScrollTop := autoScrollTop c;
     tabs := tabs c; initialCoords := None; lastPosX := None;
     isDragging := false; initialTimestamp := initialTimestamp c;
     _activeTabIndex := _activeTabIndex c; _selectedTabIndex := _selectedTabIndex c;
     leftThreshold := leftThreshold c; rightThreshold := rightThreshold c;
     scrollWidth := scrollWidth c; ready := ready c; width := width c;
     scrollLeft := scrollLeft c |}.

(** What a method does to the outside: the two custom events, and the scroll
    requests handed to the DOM or to [scrollEl]. *)
Inductive Output : Type :=
| ActiveTabIndexChange (index : jsnum)
| SelectedTabIndexChange (index : jsnum)
| ElScroll (scrollX : jsnum)
| ScrollEl (scrollX : jsnum) (native : option bool) (duration : Q)
| ScrollTabToTop (tab : jsnum).

(** Methods run in a state monad over the instance, collect their outputs in
    order, and may stop with a [TypeError] ([None]): dereferencing
    [this.config!] or [this.initialCoords!] while it is undefined. *)
Definition M (A : Type) : Type := Container -> option (A * Container * list Output).

Definition ret {A : Type} (a : A) : M A := fun c => Some (a, c, []).

Definition bind {A B : Type} (m : M A) (f : A -> M B) : M B :=
  fun c =>
    match m c with
    | None => None
    | Some (a, c1, o1) =>
        match f a c1 with
        | None => None
        | Some (b, c2, o2) => Some (b, c2, o1 ++ o2)
        end
    end.

Notation "x <- m ;; k" := (bind m (fun x => k))
  (at level 61, m at next level, right associativity).
Notation "m ;;; k" := (bind m (fun _ => k))
  (at level 61, right associativity).

Definition get : M Container := fun c => Some (c, c, []).

Definition modify (f : Container -> Container) : M unit := fun c => Some (tt, f c, []).

Definition out (o : Output) : M unit := fun c => Some (tt, c, [o]).

(** [this.config!.field] *)
Definition theConfig : M SuperTabsConfig :=
  fun c => match config c with Some cfg => Some (cfg, c, []) | None => None end.

(** [this.initialCoords!.x] *)
Definition theInitialCoords : M STCoord :=
  fun c => match initialCoords c with Some p => Some (p, c, []) | None => None end.

(** An optional number read as a number: [undefined] becomes NaN in
    arithmetic. *)
Definition num_of (v : option Q) : jsnum :=
  match v with Some q => Fin q | None => NaN end.

(** [a === b] where [b] may be [undefined]. *)
Definition strict_eq (a : jsnum) (b : option jsnum) : bool :=
  match b with Some v => jeq a v | None => false end.

(** *** Geometry *)

(** [updateWidth]: [boundingWidth] is [getBoundingClientRect().width]. *)
Definition updateWidth (boundingWidth : Q) (c : Container) : Container :=
  set_width (inject_Z (Qround (boundingWidth * 10000)) / 10000) c.

Definition positionToIndex (c : Container) (scrollX : jsnum) : jsnum :=
  let tabWidth := Fin (width c) in
  jdiv scrollX tabWidth.

Definition indexToPosition (c : Container) (tabIndex : jsnum) : jsnum :=
  jdiv (jround (jmul (jmul tabIndex (Fin (width c))) (Fin 10000))) (Fin 10000).

(** The [scrollX] local of [calcSelectedTab]. *)
Definition calcSelectedTab_scrollX (c : Container) : jsnum :=
  jmax (Fin 0) (jmin (jsub (Fin (scrollWidth c)) (Fin (width c))) (Fin (scrollLeft c))).

Definition calcSelectedTab (c : Container) : jsnum :=
  positionToIndex c (calcSelectedTab_scrollX c).

(** The [scrollX] local of [normalizeSelectedTab]. *)
Definition normalizeSelectedTab_scrollX (c : Container) (index : jsnum) : jsnum :=
  jmax (Fin 0)
       (jmin (jsub (Fin (scrollWidth c)) (Fin (width c))) (indexToPosition c index)).

Definition normalizeSelectedTab (c : Container) (index : jsnum) : jsnum :=
  jround (jdiv (normalizeSelectedTab_scrollX c index) (Fin (width c))).

(** *** Lazy loading *)

(** The [for (const tab of tabs)] loop of [lazyLoadTabs], [index] counting
    up from its current value. *)
Fixpoint lazyLoadLoop (unload : bool) (min max : jsnum) (index : Z)
    (ts : list SuperTab) : list SuperTab :=
  match ts with
  | [] => []
  | tab :: rest =>
      let vis := jge (of_Z index) min && jle (of_Z index) max in
      let ld := vis || (if unload then false else loaded tab) in
      {| loaded := ld; visible := vis |}
        :: lazyLoadLoop unload min max (index + 1) rest
  end.

Definition lazyLoadTabs (c : Container) : Container :=
  match _activeTabIndex c with
  | None => c
  | Some activeTab =>
      match config c with
      | None => c
      | Some cfg =>
          if negb (lazyLoad cfg)
          then set_tabs (map (fun _ => {| loaded := true; visible := true |}) (tabs c)) c
          else
            let min := jsub activeTab (Fin 1) in
            let max := jadd activeTab (Fin 1) in
            set_tabs (lazyLoadLoop (unloadWhenInvisible cfg) min max 0 (tabs c)) c
      end
  end.

(** *** Moving and committing *)

Definition moveContainer (scrollX : jsnum) (animate : bool) : M unit :=
  if animate
  then cfg <- theConfig ;;
       out (ScrollEl scrollX (nativeSmoothScroll cfg) (transitionDuration cfg))
  else out (ElScroll scrollX).

Definition moveContainerByIndex (index : jsnum) (animate : bool) : M unit :=
  c <- get ;;
  let scrollX := indexToPosition c index in
  if jeq scrollX (Fin 0) && jgt index (Fin 0)
  then ret tt
  else moveContainer scrollX animate.

(** [scrollToTop]: the scroll itself happens later, in a [queue.read]
    callback, and only if the active tab exists. *)
Definition scrollToTop : M unit :=
  c <- get ;;
  match _activeTabIndex c with
  | None => ret tt
  | Some a => out (ScrollTabToTop a)
  end.

Definition updateActiveTabIndex (index : jsnum) (emit : bool) : M unit :=
  modify (set_activeTabIndex (Some index)) ;;;
  (if emit then out (ActiveTabIndexChange index) else ret tt) ;;;
  cfg <- theConfig ;;
  if lazyLoad cfg then modify lazyLoadTabs else ret tt.

Definition updateSelectedTabIndex (index : jsnum) : M unit :=
  c <- get ;;
  if strict_eq index (_selectedTabIndex c)
  then ret tt
  else modify (set_selectedTabIndex (Some index)) ;;;
       out (SelectedTabIndexChange index).

Definition setActiveTabIndex (index : jsnum) (moveContainer animate : bool) : M unit :=
  c <- get ;;
  if strict_eq index (_activeTabIndex c) && negb (autoScrollTop c)
  then ret tt
  else
    (if strict_eq index (_activeTabIndex c) then scrollToTop else ret tt) ;;;
    (if moveContainer then moveContainerByIndex index animate else ret tt) ;;;
    updateActiveTabIndex index false.

(** The index [onTouchEnd] commits: its locals from [deltaTime] down to the
    normalised [selectedTabIndex].  [cfg] is [this.config!], [ic] is
    [this.initialCoords!], [coords] is [pointerCoord(ev)] and [now] is
    [getTs()]. *)
Definition touchEndTarget (c : Container) (cfg : SuperTabsConfig)
    (ic coords : STCoord) (now : Q) : jsnum :=
  let deltaTime := jsub (Fin now) (num_of (initialTimestamp c)) in
  let shortSwipe :=
    jgt (Fin (shortSwipeDuration cfg)) (Fin 0)
    && jle deltaTime (Fin (shortSwipeDuration cfg)) in
  let shortSwipeDelta := jsub (Fin (x coords)) (Fin (x ic)) in
  let selectedTabIndex := calcSelectedTab c in
  let expectedTabIndex := jround selectedTabIndex in
  let selectedTabIndex :=
    if shortSwipe && strict_eq expectedTabIndex (_activeTabIndex c)
    then jadd selectedTabIndex (if jgt shortSwipeDelta (Fin 0) then Fin (-1) else Fin 1)
    else selectedTabIndex in
  normalizeSelectedTab c selectedTabIndex.

(** [onTouchEnd]. *)
Definition onTouchEnd (coords : STCoord) (now : Q) : M unit :=
  c <- get ;;
  if negb (swipeEnabled c) || negb (isDragging c)
  then ret tt
  else
    cfg <- theConfig ;;
    ic <- theInitialCoords ;;
    let selectedTabIndex := touchEndTarget c cfg ic coords now in
    updateActiveTabIndex selectedTabIndex true ;;;
    moveContainerByIndex selectedTabIndex true ;;;
    modify clear_gesture.

(** [this.config.sideMenuThreshold || 0] stored into the thresholds the
    [sideMenu] option names. *)
Definition set_thresholds (cfg : SuperTabsConfig) (c : Container) : Container :=
  let t := sideMenuThreshold cfg in
  let l := match sideMenu cfg with
           | Some SideBoth | Some SideLeft => t
           | _ => leftThreshold c
           end in
  let r := match sideMenu cfg with
           | Some SideBoth | Some SideRight => t
           | _ => rightThreshold c
           end in
  {| config := config c; swipeEnabled := swipeEnabled c; autoScrollTop := autoScrollTop c;
     tabs := tabs c; initialCoords := initialCoords c; lastPosX := lastPosX c;
     isDragging := isDragging c; initialTimestamp := initialTimestamp c;
     _activeTabIndex := _activeTabIndex c; _selectedTabIndex := _selectedTabIndex c;
     leftThreshold := l; rightThreshold := r;
     scrollWidth := scrollWidth c; ready := ready c; width := width c;
     scrollLeft := scrollLeft c |}.

Definition set_ready (c : Container) : Container :=
  {| config := config c; swipeEnabled := swipeEnabled c; autoScrollTop := autoScrollTop c;
     tabs := tabs c; initialCoords := initialCoords c; lastPosX := lastPosX c;
     isDragging := isDragging c; initialTimestamp := initialTimestamp c;
     _activeTabIndex := _activeTabIndex c; _selectedTabIndex := _selectedTabIndex c;
     leftThreshold := leftThreshold c; rightThreshold := rightThreshold c;
     scrollWidth := scrollWidth c; ready := true; width := width c;
     scrollLeft := scrollLeft c |}.

(** [indexTabs]: [domTabs] are the [super-tab] children found in the DOM.
    The result is [false] when the width is still zero and the work is put
    off to the next animation frame. *)
Definition indexTabs (domTabs : list SuperTab) : M bool :=
  c <- get ;;
  if Qeq_bool (width c) 0
  then ret false
  else
    modify (set_scrollWidth (width c * inject_Z (Z.of_nat (List.length domTabs)))) ;;;
    modify (set_tabs domTabs) ;;;
    (match ready c, _activeTabIndex c with
     | true, Some a => moveContainerByIndex a true
     | _, _ => ret tt
     end) ;;;
    modify lazyLoadTabs ;;;
    (match config c with
     | Some cfg => modify (set_thresholds cfg)
     | None => ret tt
     end) ;;;
    (match _activeTabIndex c with
     | Some a => moveContainerByIndex a false ;;; modify set_ready
     | None => ret tt
     end) ;;;
    ret true.

End Container.

(* ================================================================== *)
(** ** super-tabs-toolbar *)
(* ================================================================== *)

Module Toolbar.

Local Open Scope Q_scope.

(** The toolbar as the root component drives it: the buttons with their
    [active] flag, the button last marked active and the active index.  The
    indicator geometry ([alignIndicator]) is rendering on the DOM; it raises
    no component event and is left out. *)
Record Toolbar : Type := {
  config : option SuperTabsConfig;
  buttons : list bool;
  activeButton : option nat;
  activeTabIndex : jsnum
}.

(** [this.buttons[index]]: the position of the button, when there is one. *)
Definition button_at (t : Toolbar) (index : jsnum) : option nat :=
  match index with
  | Fin q =>
      if Qeq_bool q (inject_Z (Qfloor q)) && (0 <=? Qfloor q)%Z
         && (Z.to_nat (Qfloor q) <? List.length (buttons t))%nat
      then Some (Z.to_nat (Qfloor q))
      else None
  | _ => None
  end.

Fixpoint set_nth (n : nat) (v : bool) (l : list bool) : list bool :=
  match l, n with
  | [], _ => []
  | _ :: r, O => v :: r
  | b :: r, S m => b :: set_nth m v r
  end.

Definition markButtonActive (button : option nat) (t : Toolbar) : Toolbar :=
  match button with
  | None => t
  | Some b =>
      let bs := match activeButton t with
                | Some a => set_nth a false (buttons t)
                | None => buttons t
                end in
      {| config := config t; buttons := set_nth b true bs;
         activeButton := Some b; activeTabIndex := activeTabIndex t |}
  end.

Definition setActiveTab (index : jsnum) (align animate : bool) (t : Toolbar) : Toolbar :=
  let index :=
    jmax (Fin 0)
         (jmin (jround index)
               (jsub (of_Z (Z.of_nat (List.length (buttons t)))) (Fin 1))) in
  let t1 := {| config := config t; buttons := buttons t;
               activeButton := activeButton t; activeTabIndex := index |} in
  markButtonActive (button_at t1 index) t1.

Definition set_config (v : option SuperTabsConfig) (t : Toolbar) : Toolbar :=
  {| config := v; buttons := buttons t; activeButton := activeButton t;
     activeTabIndex := activeTabIndex t |}.

End Toolbar.

(* ================================================================== *)
(** ** super-tabs (root component) *)
(* ================================================================== *)

Module Tabs.

Local Open Scope Z_scope.

Definition maxInitRetries : Z := 1000.

(** Payload of the [tabChange] event, as [emitTabChangeEvent] builds it. *)
Record SuperTabChangeEventDetail : Type := { changed : bool; index : jsnum }.

(** A call of [this.debug]: the message, and whether [debugLog] printed it
    (it prints only when the [debug] option is set). *)
Record DebugCall : Type := { message : string; printed : bool }.

(** The component instance.  [container] and [toolbar] are the discovered
    children ([None] while undefined); [initResolved] tells whether
    [initPromise] has been resolved; the two [listens] flags tell whether
    [setupEventListeners] registered the handlers for the child's events.
    [tabChange] is the sequence of payloads emitted so far, [log] the
    sequence of debug calls, [outputs] what the container handed to the DOM
    on the root's behalf. *)
Record SuperTabs : Type := {
  activeTabIndex : jsnum;
  container : option Container.Container;
  toolbar : option Toolbar.Toolbar;
  _config : SuperTabsConfig;
  initAttempts : Z;
  initResolved : bool;
  listensContainer : bool;
  listensToolbar : bool;
  tabChange : list SuperTabChangeEventDetail;
  log : list DebugCall;
  outputs : list Container.Output
}.

Definition initial : SuperTabs := {|
  activeTabIndex := Fin 0;
  container := None;
  toolbar := None;
  _config := DEFAULT_CONFIG;
  initAttempts := 0;
  initResolved := false;
  listensContainer := false;
  listensToolbar := false;
  tabChange := [];
  log := [];
  outputs := []
|}.

Definition set_activeTabIndex (v : jsnum) (s : SuperTabs) : SuperTabs :=
  {| activeTabIndex := v; container := container s; toolbar := toolbar s;
     _config := _config s; initAttempts := initAttempts s;
     initResolved := initResolved s; listensContainer := listensContainer s;
     listensToolbar := listensToolbar s; tabChange := tabChange s; log := log s;
     outputs := outputs s |}.

Definition set_container (v : option Container.Container) (s : SuperTabs) : SuperTabs :=
  {| activeTabIndex := activeTabIndex s; container := v; toolbar := toolbar s;
     _config := _config s; initAttempts := initAttempts s;
     initResolved := initResolved s; listensContainer := listensContainer s;
     listensToolbar := listensToolbar s; tabChange := tabChange s; log := log s;
     outputs := outputs s |}.

Definition set_toolbar (v : option Toolbar.Toolbar) (s : SuperTabs) : SuperTabs :=
  {| activeTabIndex := activeTabIndex s; container := container s; toolbar := v;
     _config := _config s; initAttempts := initAttempts s;
     initResolved := initResolved s; listensContainer := listensContainer s;
     listensToolbar := listensToolbar s; tabChange := tabChange s; log := log s;
     outputs := outputs s |}.

Definition set_initAttempts (v : Z) (s : SuperTabs) : SuperTabs :=
  {| activeTabIndex := activeTabIndex s; container := container s; toolbar := toolbar s;
     _config := _config s; initAttempts := v;
     initResolved := initResolved s; listensContainer := listensContainer s;
     listensToolbar := listensToolbar s; tabChange := tabChange s; log := log s;
     outputs := outputs s |}.

Definition set_initResolved (s : SuperTabs) : SuperTabs :=
  {| activeTabIndex := activeTabIndex s; container := container s; toolbar := toolbar s;
     _config := _config s; initAttempts := initAttempts s;
     initResolved := true; listensContainer := listensContainer s;
     listensToolbar := listensToolbar s; tabChange := tabChange s; log := log s;
     outputs := outputs s |}.

Definition set_listens (c t : bool) (s : SuperTabs) : SuperTabs :=
  {| activeTabIndex := activeTabIndex s; container := container s; toolbar := toolbar s;
     _config := _config s; initAttempts := initAttempts s;
     initResolved := initResolved s; listensContainer := c;
     listensToolbar := t; tabChange := tabChange s; log := log s;
     outputs := outputs s |}.

Definition emit_tabChange (d : SuperTabChangeEventDetail) (s : SuperTabs) : SuperTabs :=
  {| activeTabIndex := activeTabIndex s; container := container s; toolbar := toolbar s;
     _config := _config s; initAttempts := initAttempts s;
     initResolved := initResolved s; listensContainer := listensContainer s;
     listensToolbar := listensToolbar s; tabChange := tabChange s ++ [d]; log := log s;
     outputs := outputs s |}.

Definition add_outputs (o : list Container.Output) (s : SuperTabs) : SuperTabs :=
  {| activeTabIndex := activeTabIndex s; container := container s; toolbar := toolbar s;
     _config := _config s; initAttempts := initAttempts s;
     initResolved := initResolved s; listensContainer := listensContainer s;
     listensToolbar := listensToolbar s; tabChange := tabChange s; log := log s;
     outputs := outputs s ++ o |}.

(** [this.debug(msg, ...)], through [debugLog(this._config, 'tabs', vals)]. *)
Definition debug (msg : string) (s : SuperTabs) : SuperTabs :=
  {| activeTabIndex := activeTabIndex s; container := container s; toolbar := toolbar s;
     _config := _config s; initAttempts := initAttempts s;
     initResolved := initResolved s; listensContainer := listensContainer s;
     listensToolbar := listensToolbar s; tabChange := tabChange s;
     log := log s ++ [{| message := msg; printed := Utils.debug (_config s) |}];
     outputs := outputs s |}.

Definition propagateConfig (s : SuperTabs) : SuperTabs :=
  let s1 := set_container
              (option_map (Container.set_config (Some (_config s))) (container s)) s in
  set_toolbar (option_map (Toolbar.set_config (Some (_config s))) (toolbar s1)) s1.

(** [indexChildren]: [foundContainer] and [foundToolbar] are the results of
    the two [querySelector] calls. *)
Definition indexChildren (foundContainer : option Container.Container)
    (foundToolbar : option Toolbar.Toolbar) (s : SuperTabs) : SuperTabs :=
  let s0 := debug "indexChildren" s in
  let s1 := match foundContainer with
            | Some c => set_container (Some c) s0
            | None => s0
            end in
  let s2 := match foundToolbar with
            | Some t => set_toolbar (Some t) s1
            | None => s1
            end in
  propagateConfig s2.

(** [emitTabChangeEvent(newIndex, oldIndex?)]. *)
Definition emitTabChangeEvent (newIndex : jsnum) (oldIndex : option jsnum)
    (s : SuperTabs) : SuperTabs :=
  if jlt newIndex (Fin 0)
  then s
  else
    let oldIndex :=
      match oldIndex with
      | Some o => if jlt o (Fin 0) then activeTabIndex s else o
      | None => activeTabIndex s
      end in
    emit_tabChange {| changed := negb (jeq newIndex oldIndex); index := newIndex |} s.

(** [onContainerActiveTabChange], the handler of [activeTabIndexChange]. *)
Definition onContainerActiveTabChange (index : jsnum) (s : SuperTabs) : SuperTabs :=
  let s0 := debug "onContainerActiveTabChange" s in
  let s1 := emitTabChangeEvent index None s0 in
  let s2 := set_activeTabIndex index s1 in
  set_toolbar (option_map (Toolbar.setActiveTab index true true) (toolbar s2)) s2.

(** Delivery of what a container method produced: the custom events go to
    the registered handlers, in order; every output is recorded.
    [onContainerSelectedTabChange] only re-aligns the toolbar indicator. *)
Definition deliver_one (s : SuperTabs) (o : Container.Output) : SuperTabs :=
  let s1 := add_outputs [o] s in
  match o with
  | Container.ActiveTabIndexChange i =>
      if listensContainer s1 then onContainerActiveTabChange i s1 else s1
  | Container.SelectedTabIndexChange _ =>
      if listensContainer s1 then debug "onContainerSelectedTabChange called with: " s1
      else s1
  | _ => s1
  end.

Definition deliver (o : list Container.Output) (s : SuperTabs) : SuperTabs :=
  fold_left deliver_one o s.

(** [selectTab], from the point where [await this.initPromise] has let it
    through.  [None] is a rejected promise (a [TypeError] in the
    container). *)
Definition selectTab (index : jsnum) (animate emit : bool) (s : SuperTabs)
    : option SuperTabs :=
  let s := debug "selectTab" s in
  let lastIndex := activeTabIndex s in
  let afterContainer :=
    match container s with
    | Some c =>
        match Container.setActiveTabIndex index true animate c with
        | Some (_, c', o) => Some (deliver o (set_container (Some c') s))
        | None => None
        end
    | None => Some s
    end in
  match afterContainer with
  | None => None
  | Some s1 =>
      let s2 := set_toolbar
                  (option_map (Toolbar.setActiveTab index true animate) (toolbar s1)) s1 in
      let s3 := if emit then emitTabChangeEvent index (Some lastIndex) s2 else s2 in
      Some (set_activeTabIndex lastIndex s3)
  end.

(** [setupEventListeners]. *)
Definition setupEventListeners (s : SuperTabs) : SuperTabs :=
  let s1 := match container s with
            | Some _ => set_listens true (listensToolbar s) s
            | None => debug "setupEventListeners: container does not exist" s
            end in
  match toolbar s1 with
  | Some _ => set_listens (listensContainer s1) true s1
  | None => debug "setupEventListeners: toolbar does not exist" s1
  end.

(** What [initComponent] does once it no longer waits for the container. *)
Definition finishInit (s : SuperTabs) : SuperTabs :=
  let s1 :=
    if jgt (activeTabIndex s) (Fin 0)
    then
      let s' :=
        match container s with
        | Some c =>
            match Container.moveContainerByIndex (activeTabIndex s) false c with
            | Some (_, c', o) => deliver o (set_container (Some c') s)
            | None => s
            end
        | None => s
        end in
      set_toolbar
        (option_map (Toolbar.setActiveTab (activeTabIndex s') true false) (toolbar s')) s'
    else s in
  set_initResolved (setupEventListeners (propagateConfig s1)).

(** One run of [initComponent].  The boolean tells whether it asked for
    another animation frame (and returned) instead of finishing. *)
Definition initComponent (s : SuperTabs) : SuperTabs * bool :=
  match container s with
  | None =>
      let s1 := set_initAttempts (initAttempts s + 1) s in
      if initAttempts s1 <=? maxInitRetries
      then (s1, true)
      else (finishInit (debug "container still doesn't exists after 1000 frames" s1), false)
  | Some _ => (finishInit s, false)
  end.

(** The chain of animation frames started by [componentDidLoad]:
    [initComponent] runs, and runs again on the next frame as long as it asks
    to.  [between k] is whatever else happens to the component between frame
    [k] and the next one (a slot change may discover the container).  The
    result carries the number of re-schedulings; [None] means the chain is
    still going when [fuel] frames have been spent. *)
Fixpoint initFrames (between : nat -> SuperTabs -> SuperTabs) (fuel : nat)
    (frame : nat) (s : SuperTabs) : option (SuperTabs * nat) :=
  match fuel with
  | O => None
  | S fuel' =>
      let (s1, again) := initComponent s in
      if again
      then match initFrames between fuel' (S frame) (between frame s1) with
           | Some (s2, n) => Some (s2, S n)
           | None => None
           end
      else Some (s1, O)
  end.

End Tabs.

(* ================================================================== *)
(** ** Vocabulary of the statements, and sample instances *)
(* ================================================================== *)

(** [v] is a finite number of the closed interval [[lo, hi]]. *)
Definition finite_within (lo hi : Q) (v : jsnum) : Prop :=
  exists r : Q, v = Fin r /\ (lo <= r)%Q /\ (r <= hi)%Q.

(** A run of calls of [updateSelectedTabIndex], one per element. *)
Fixpoint updateSelectedTabIndex_all (calls : list jsnum) : Container.M unit :=
  match calls with
  | [] => Container.ret tt
  | index :: rest =>
      Container.bind (Container.updateSelectedTabIndex index)
        (fun _ => updateSelectedTabIndex_all rest)
  end.

(** The values of the [selectedTabIndexChange] events among some outputs. *)
Definition selectedTabIndexChanges (o : list Container.Output) : list jsnum :=
  flat_map (fun e => match e with
                     | Container.SelectedTabIndexChange i => [i]
                     | _ => []
                     end) o.

(** [a] is the value [b], which may be [undefined]: the same special value
    (a NaN is the value NaN, whatever [===] says), or finite numbers equal
    as rationals. *)
Definition same_value (a : jsnum) (b : option jsnum) : Prop :=
  match b with Some v => equiv a v | None => False end.

(** No value of [l] is the value just before it, [prev] standing before the
    first. *)
Fixpoint no_repeat (prev : option jsnum) (l : list jsnum) : Prop :=
  match l with
  | [] => True
  | v :: rest => ~ same_value v prev /\ no_repeat (Some v) rest
  end.

Definition is_NaN (a : jsnum) : bool :=
  match a with NaN => true | _ => false end.


(** [i] clamped to the tab indices [[0, tabCount - 1]]. *)
Definition clamp_index (tabCount i : Z) : Z := Z.max 0 (Z.min (tabCount - 1) i).

(** Is the output an [activeTabIndexChange] event? *)
Definition is_activeTabIndexChange (o : Container.Output) : bool :=
  match o with
  | Container.ActiveTabIndexChange _ => true
  | _ => false
  end.

(** The container the root component knows, if any, has been given a
    configuration.  [indexChildren] and [initComponent] see to it through
    [propagateConfig]. *)
Definition container_configured (s : Tabs.SuperTabs) : Prop :=
  forall c : Container.Container,
    Tabs.container s = Some c -> Container.config c <> None.

Module Sample.

Local Open Scope Q_scope.

(** A container of four tabs, 300 pixels wide and configured with the
    defaults, in the middle of a drag that began at [x = 200] at time 1000;
    [scrollLeft] and the active tab are left open. *)
Definition dragging (scrollLeft : Q) (active : Z) : Container.Container := {|
  Container.config := Some DEFAULT_CONFIG;
  Container.swipeEnabled := true;
  Container.autoScrollTop := false;
  Container.tabs := repeat {| Container.loaded := false; Container.visible := false |} 4;
  Container.initialCoords := Some {| x := 200; y := 10 |};
  Container.lastPosX := Some 200;
  Container.isDragging := true;
  Container.initialTimestamp := Some 1000;
  Container._activeTabIndex := Some (of_Z active);
  Container._selectedTabIndex := None;
  Container.leftThreshold := 0;
  Container.rightThreshold := 0;
  Container.scrollWidth := 1200;
  Container.ready := true;
  Container.width := 300;
  Container.scrollLeft := scrollLeft
|}.

(** The same drag on a container whose width was measured as zero. *)
Definition unmeasured : Container.Container := {|
  Container.config := Some DEFAULT_CONFIG;
  Container.swipeEnabled := true;
  Container.autoScrollTop := false;
  Container.tabs := [];
  Container.initialCoords := Some {| x := 200; y := 10 |};
  Container.lastPosX := Some 200;
  Container.isDragging := true;
  Container.initialTimestamp := Some 1000;
  Container._activeTabIndex := Some (Fin 0);
  Container._selectedTabIndex := None;
  Container.leftThreshold := 0;
  Container.rightThreshold := 0;
  Container.scrollWidth := 0;
  Container.ready := false;
  Container.width := 0;
  Container.scrollLeft := 0
|}.

(** The defaults with the [debug] option switched on. *)
Definition debug_config : SuperTabsConfig := {|
  dragThreshold := 20;
  allowElementScroll := false;
  maxDragAngle := 40;
  sideMenu := None;
  sideMenuThreshold := 50;
  transitionDuration := 150;
  shortSwipeDuration := 300;
  debug := true;
  avoidElements := false;
  lazyLoad := false;
  unloadWhenInvisible := false;
  nativeSmoothScroll := None
|}.

(** The defaults with lazy loading switched on. *)
Definition lazy_config (unload : bool) : SuperTabsConfig := {|
  dragThreshold := 20;
  allowElementScroll := false;
  maxDragAngle := 40;
  sideMenu := None;
  sideMenuThreshold := 50;
  transitionDuration := 150;
  shortSwipeDuration := 300;
  debug := false;
  avoidElements := false;
  lazyLoad := true;
  unloadWhenInvisible := unload;
  nativeSmoothScroll := None
|}.

(** Six tabs, all loaded earlier on, tab 3 active, lazy loading on. *)
Definition lazy_six (unload : bool) : Container.Container :=
  Container.set_config (Some (lazy_config unload))
    (Container.set_tabs
       (repeat {| Container.loaded := true; Container.visible := true |} 6)
       (dragging 900 3)).

(** A toolbar of four buttons, the first one active. *)
Definition four_buttons : Toolbar.Toolbar := {|
  Toolbar.config := None;
  Toolbar.buttons := [true; false; false; false];
  Toolbar.activeButton := Some 0%nat;
  Toolbar.activeTabIndex := Fin 0
|}.

(** A container of four tabs at rest on tab 0, not yet configured. *)
Definition resting : Container.Container :=
  Container.set_config None (Container.clear_gesture (dragging 0 0)).

(** The root component once it has found both children and finished its
    initialisation; tab 0 is active. *)
Definition root : Tabs.SuperTabs :=
  fst (Tabs.initComponent
         (Tabs.indexChildren (Some resting) (Some four_buttons) Tabs.initial)).

(** A root component just created, with the [debug] option set and no
    child found yet. *)
Definition debugging : Tabs.SuperTabs := {|
  Tabs.activeTabIndex := Fin 0;
  Tabs.container := None;
  Tabs.toolbar := None;
  Tabs._config := debug_config;
  Tabs.initAttempts := 0;
  Tabs.initResolved := false;
  Tabs.listensContainer := false;
  Tabs.listensToolbar := false;
  Tabs.tabChange := [];
  Tabs.log := [];
  Tabs.outputs := []
|}.

End Sample.

(* ================================================================== *)
(** ** The offset arithmetic in double precision *)
(* ================================================================== *)

Module F64.

Import PrimFloat.

Local Open Scope float_scope.

(** A whole number as a double (exact below [2^53]). *)
Definition of_Z (z : Z) : float :=
  FloatOps.SF2Prim (SpecFloat.binary_normalize FloatOps.prec FloatOps.emax z 0 false).

(** The exact value of a finite double. *)
Definition to_Q (a : float) : option Q :=
  match FloatOps.Prim2SF a with
  | SpecFloat.S754_zero _ => Some 0%Q
  | SpecFloat.S754_finite s m e =>
      Some ((inject_Z (if s then Z.neg m else Z.pos m) * Qpower 2 e)%Q)
  | _ => None
  end.

(** [Math.max(a, b)] and [Math.min(a, b)]: NaN as soon as one argument is
    NaN; of two zeros the positive one is the larger (their sum is the
    maximum, and the opposite of the sum of their opposites the minimum). *)
Definition math_max (a b : float) : float :=
  if is_nan a || is_nan b then nan
  else if a <? b then b
  else if b <? a then a
  else if a =? 0 then a + b
  else a.

Definition math_min (a b : float) : float :=
  if is_nan a || is_nan b then nan
  else if a <? b then a
  else if b <? a then b
  else if a =? 0 then - (- a + - b)
  else a.

(** [Math.round(a)]: the nearest whole number, halves towards plus
    infinity, computed on the exact value [m * 2^e] of [a]; a double with
    [e >= 0] is whole already, and a negative [a] that rounds to zero gives
    the negative zero. *)
Definition math_round (a : float) : float :=
  match FloatOps.Prim2SF a with
  | SpecFloat.S754_finite s m e =>
      if (0 <=? e)%Z
      then a
      else
        let d := (2 ^ (- e))%Z in
        let v := if s then Z.neg m else Z.pos m in
        let r := ((2 * v + d) / (2 * d))%Z in
        if (r =? 0)%Z then (if s then neg_zero else zero) else of_Z r
  | _ => a
  end.

(** The two DOM readings of a scrollable element, as doubles. *)
Record ScrollableEl : Type := { el_scrollWidth : float; el_scrollLeft : float }.

(** [getNormalizedScrollX(el, width, delta)]. *)
Definition getNormalizedScrollX (el : ScrollableEl) (width delta : float) : float :=
  math_max 0 (math_min (el_scrollWidth el - width) (el_scrollLeft el + delta)).

(** What the container's conversions read: [this.width],
    [this.scrollWidth] and [this.el.scrollLeft]. *)
Record Geometry : Type := { width : float; scrollWidth : float; scrollLeft : float }.

Definition positionToIndex (g : Geometry) (scrollX : float) : float :=
  scrollX / width g.

Definition indexToPosition (g : Geometry) (tabIndex : float) : float :=
  math_round (tabIndex * width g * 10000) / 10000.

(** The [scrollX] local of [calcSelectedTab], and the method. *)
Definition calcSelectedTab_scrollX (g : Geometry) : float :=
  math_max 0 (math_min (scrollWidth g - width g) (scrollLeft g)).

Definition calcSelectedTab (g : Geometry) : float :=
  positionToIndex g (calcSelectedTab_scrollX g).

(** The [scrollX] local of [normalizeSelectedTab], and the method. *)
Definition normalizeSelectedTab_scrollX (g : Geometry) (index : float) : float :=
  math_max 0 (math_min (scrollWidth g - width g) (indexToPosition g index)).

Definition normalizeSelectedTab (g : Geometry) (index : float) : float :=
  math_round (normalizeSelectedTab_scrollX g index / width g).

(** The geometry [indexTabs] leaves for [tabCount] tabs of width [w]:
    [this.scrollWidth = this.width * tabs.length]. *)
Definition measured (w : float) (tabCount : Z) (scrollLeft : float) : Geometry :=
  {| width := w; scrollWidth := w * of_Z tabCount; scrollLeft := scrollLeft |}.

(** [v] is a number of the closed interval [[lo, hi]]. *)
Definition within (lo hi v : float) : Prop :=
  (lo <=? v) = true /\ (v <=? hi) = true.

End F64.

Module SampleF64.

Import PrimFloat.

Local Open Scope float_scope.

(** A tab width of 320.8 pixels: the double nearest to it. *)
Definition w320_8 : float := 3208 / 10.

(** Three tabs of that width, dragged far beyond the last one. *)
Definition three_tabs : F64.Geometry := F64.measured w320_8 3 1000.

(** The same as a scrollable element. *)
Definition three_tabs_el : F64.ScrollableEl :=
  {| F64.el_scrollWidth := w320_8 * 3; F64.el_scrollLeft := 900 |}.

(** Five tabs of that width, released half way between tabs 2 and 3. *)
Definition five_tabs : F64.Geometry := F64.measured w320_8 5 802.

End SampleF64.

(* ================================================================== *)
(** ** More of the number model *)
(* ================================================================== *)

Module JsMath.

Local Open Scope Q_scope.

(** [Math.floor], [Math.ceil] and [Math.abs]. *)
Definition jfloor (a : jsnum) : jsnum :=
  match a with
  | Fin q => Fin (inject_Z (Qfloor q))
  | _ => a
  end.

Definition jceil (a : jsnum) : jsnum :=
  match a with
  | Fin q => Fin (inject_Z (Qceiling q))
  | _ => a
  end.

Definition jabs (a : jsnum) : jsnum :=
  match a with
  | Fin q => Fin (Qabs q)
  | NaN => NaN
  | _ => PInf
  end.

(** The integer part, towards zero. *)
Definition Qtrunc (q : Q) : Z := if Qle_bool 0 q then Qfloor q else Qceiling q.

(** [a % 1]: the fractional part with the sign of [a]; NaN for an infinity. *)
Definition jrem1 (a : jsnum) : jsnum :=
  match a with
  | Fin q => Fin (q - inject_Z (Qtrunc q))
  | _ => NaN
  end.

(** A JavaScript value used as a condition: a string is truthy unless it
    is empty, [null] and [undefined] are falsy. *)
Definition truthy (v : option string) : bool :=
  match v with
  | Some EmptyString | None => false
  | Some _ => true
  end.

End JsMath.

Import JsMath.

(* ================================================================== *)
(** ** super-tabs-container: the touch handlers *)
(* ================================================================== *)

Module Gestures.

Import Container.

Local Open Scope Q_scope.

Definition set_initialTimestamp (v : option Q) (c : Container) : Container :=
  {| config := config c; swipeEnabled := swipeEnabled c; autoScrollTop := autoScrollTop c;
     tabs := tabs c; initialCoords := initialCoords c; lastPosX := lastPosX c;
     isDragging := isDragging c; initialTimestamp := v;
     _activeTabIndex := _activeTabIndex c; _selectedTabIndex := _selectedTabIndex c;
     leftThreshold := leftThreshold c; rightThreshold := rightThreshold c;
     scrollWidth := scrollWidth c; ready := ready c; width := width c;
     scrollLeft := scrollLeft c |}.

(** [initialCoords] and [lastPosX] written together. *)
Definition set_touch (ic : option STCoord) (lx : option Q) (c : Container) : Container :=
  {| config := config c; swipeEnabled := swipeEnabled c; autoScrollTop := autoScrollTop c;
     tabs := tabs c; initialCoords := ic; lastPosX := lx;
     isDragging := isDragging c; initialTimestamp := initialTimestamp c;
     _activeTabIndex := _activeTabIndex c; _selectedTabIndex := _selectedTabIndex c;
     leftThreshold := leftThreshold c; rightThreshold := rightThreshold c;
     scrollWidth := scrollWidth c; ready := ready c; width := width c;
     scrollLeft := scrollLeft c |}.

Definition set_lastPosX (lx : option Q) (c : Container) : Container :=
  set_touch (initialCoords c) lx c.

Definition set_isDragging (v : bool) (c : Container) : Container :=
  {| config := config c; swipeEnabled := swipeEnabled c; autoScrollTop := autoScrollTop c;
     tabs := tabs c; initialCoords := initialCoords c; lastPosX := lastPosX c;
     isDragging := v; initialTimestamp := initialTimestamp c;
     _activeTabIndex := _activeTabIndex c; _selectedTabIndex := _selectedTabIndex c;
     leftThreshold := leftThreshold c; rightThreshold := rightThreshold c;
     scrollWidth := scrollWidth c; ready := ready c; width := width c;
     scrollLeft := scrollLeft c |}.

(** The DOM moved the surface: a new reading of [this.el.scrollLeft]. *)
Definition set_scrollLeft (v : Q) (c : Container) : Container :=
  {| config := config c; swipeEnabled := swipeEnabled c; autoScrollTop := autoScrollTop c;
     tabs := tabs c; initialCoords := initialCoords c; lastPosX := lastPosX c;
     isDragging := isDragging c; initialTimestamp := initialTimestamp c;
     _activeTabIndex := _activeTabIndex c; _selectedTabIndex := _selectedTabIndex c;
     leftThreshold := leftThreshold c; rightThreshold := rightThreshold c;
     scrollWidth := scrollWidth c; ready := ready c; width := width c;
     scrollLeft := v |}.

(** [onTouchStart].  [attrs] lists the values of the [avoid-super-tabs]
    attribute of the event target and of its ancestors, from the target
    outwards ([None] where the node has no such attribute or no
    [getAttribute]); [coords] is [pointerCoord(ev)], [boundingWidth] the width
    [updateWidth] measures and [now] is [getTs()]. *)
Definition onTouchStart (attrs : list (option string)) (coords : STCoord)
    (boundingWidth now : Q) : M unit :=
  c <- get ;;
  if negb (swipeEnabled c)
  then ret tt
  else
    cfg <- theConfig ;;
    if avoidElements cfg && existsb truthy attrs
    then ret tt
    else
      modify (updateWidth boundingWidth) ;;;
      c1 <- get ;;
      let vw := width c1 in
      if jlt (Fin (x coords)) (Fin (leftThreshold c1))
         || jgt (Fin (x coords)) (jsub (Fin vw) (Fin (rightThreshold c1)))
      then ret tt
      else
        (if jgt (Fin (shortSwipeDuration cfg)) (Fin 0)
         then modify (set_initialTimestamp (Some now))
         else ret tt) ;;;
        modify (set_touch (Some coords) (Some (x coords))).

(** [onClick]: is the click stopped ([stopImmediatePropagation] and
    [preventDefault])? *)
Definition onClick (c : Container) : bool := isDragging c.

(** The [scrollX] local of [onTouchMove]: the offset the surface is dragged
    to, [lastX] being [this.lastPosX]. *)
Definition touchMove_scrollX (c : Container) (lastX : Q) (coords : STCoord) : jsnum :=
  let deltaX := jsub (Fin lastX) (Fin (x coords)) in
  jmax (Fin 0)
       (jmin (jsub (Fin (scrollWidth c)) (Fin (width c)))
             (jadd (Fin (scrollLeft c)) deltaX)).

(** The [index] local of [onTouchMove]: the fractional index, to two
    decimals. *)
Definition touchMove_index (c : Container) (scrollX : jsnum) : jsnum :=
  jdiv (jround (jmul (positionToIndex c scrollX) (Fin 100))) (Fin 100).

Section TouchMove.

(** [checkGesture] of [utils.ts] computes an arc tangent and cosines in
    floating point; its verdict is taken as given. *)
Variable checkGesture : STCoord -> STCoord -> SuperTabsConfig -> bool.

(** [onTouchMove]: [coords] is [pointerCoord(ev)].  Stopping the propagation
    of the event (unless [allowElementScroll]) acts on the event only. *)
Definition onTouchMove (coords : STCoord) : M unit :=
  c <- get ;;
  match swipeEnabled c, initialCoords c, lastPosX c with
  | true, Some ic, Some lastX =>
      recognised <-
        (if isDragging c
         then ret true
         else
           cfg <- theConfig ;;
           if checkGesture coords ic cfg
           then modify (set_isDragging true) ;;; ret true
           else
             (if jgt (jabs (jsub (Fin (y coords)) (Fin (y ic)))) (Fin 100)
              then modify (set_touch None None)
              else ret tt) ;;;
             ret false) ;;
      if negb recognised
      then ret tt
      else
        cfg <- theConfig ;;
        let deltaX := jsub (Fin lastX) (Fin (x coords)) in
        if jeq deltaX (Fin 0)
        then ret tt
        else
          let scrollX := touchMove_scrollX c lastX coords in
          if jeq (jfloor scrollX) (jfloor (Fin (scrollLeft c)))
          then ret tt
          else
            let index := touchMove_index c scrollX in
            updateSelectedTabIndex index ;;;
            modify (set_lastPosX (Some (x coords))) ;;;
            out (ElScroll scrollX)
  | _, _, _ => ret tt
  end.

(** What reaches the container during its life on the page. *)
Inductive TouchEvent : Type :=
| TouchStart (attrs : list (option string)) (coords : STCoord) (boundingWidth now : Q)
| TouchMove (coords : STCoord)
| TouchEnd (coords : STCoord) (now : Q)
| DomScroll (scrollLeft : Q)
| Render (boundingWidth : Q).

Definition handle (e : TouchEvent) : M unit :=
  match e with
  | TouchStart attrs coords boundingWidth now => onTouchStart attrs coords boundingWidth now
  | TouchMove coords => onTouchMove coords
  | TouchEnd coords now => onTouchEnd coords now
  | DomScroll v => modify (set_scrollLeft v)
  | Render boundingWidth => modify (updateWidth boundingWidth)
  end.

Fixpoint handle_all (es : list TouchEvent) : M unit :=
  match es with
  | [] => ret tt
  | e :: rest => handle e ;;; handle_all rest
  end.

End TouchMove.

End Gestures.

(* ================================================================== *)
(** ** More vocabulary *)
(* ================================================================== *)

(** A run of [updateActiveTabIndex], one call per index. *)
Fixpoint updateActiveTabIndex_all (emit : bool) (indices : list jsnum)
    : Container.M unit :=
  match indices with
  | [] => Container.ret tt
  | index :: rest =>
      Container.bind (Container.updateActiveTabIndex index emit)
        (fun _ => updateActiveTabIndex_all emit rest)
  end.

(** While a drag is on, the coordinates it started from are known. *)
Definition drag_has_origin (c : Container.Container) : Prop :=
  Container.isDragging c = true ->
  Container.initialCoords c <> None /\ Container.lastPosX c <> None.

(** Is the event a touch end? *)
Definition is_touchEnd (e : Gestures.TouchEvent) : bool :=
  match e with
  | Gestures.TouchEnd _ _ => true
  | _ => false
  end.

(** How many tabs are visible, how many are loaded. *)
Definition count_visible (ts : list Container.SuperTab) : nat :=
  List.length (filter Container.visible ts).

Definition count_loaded (ts : list Container.SuperTab) : nat :=
  List.length (filter Container.loaded ts).

(** What a touch move may produce on a container of [n] tabs that can be
    scrolled up to [maxScroll]: a selected index of [[0, n - 1]] with two
    decimals, and a scroll to an offset of [[0, maxScroll]]. *)
Definition preview_output (n : Z) (maxScroll : Q) (e : Container.Output) : Prop :=
  match e with
  | Container.SelectedTabIndexChange v =>
      exists z : Z, v = Fin (inject_Z z / 100) /\ (0 <= z <= (n - 1) * 100)%Z
  | Container.ElScroll s => finite_within 0 maxScroll s
  | _ => False
  end.

Module SampleTouch.

Local Open Scope Q_scope.

(** Four tabs of 300 pixels, configured with the defaults, at rest on
    tab 0. *)
Definition at_rest : Container.Container :=
  Container.clear_gesture (Sample.dragging 0 0).

(** Two verdicts for the gesture test: always a swipe, never a swipe. *)
Definition accept (a b : STCoord) (g : SuperTabsConfig) : bool := true.

Definition reject (a b : STCoord) (g : SuperTabsConfig) : bool := false.

(** A quick swipe to the left: down at [x = 200] at time 1000, two moves
    (the DOM following each scroll), up at [x = 100] at time 1150. *)
Definition swipe : list Gestures.TouchEvent :=
  [ Gestures.TouchStart [] {| x := 200; y := 10 |} 300 1000;
    Gestures.TouchMove {| x := 150; y := 12 |};
    Gestures.DomScroll 50;
    Gestures.TouchMove {| x := 100; y := 12 |};
    Gestures.DomScroll 100;
    Gestures.TouchEnd {| x := 100; y := 12 |} 1150 ].

(** The same without its end. *)
Definition drag : list Gestures.TouchEvent :=
  [ Gestures.TouchStart [] {| x := 200; y := 10 |} 300 1000;
    Gestures.TouchMove {| x := 150; y := 12 |};
    Gestures.DomScroll 50;
    Gestures.TouchMove {| x := 100; y := 12 |};
    Gestures.DomScroll 100 ].

End SampleTouch.

(* ================================================================== *)
(** ** utils.ts: the animated scroll *)
(* ================================================================== *)

Module Scroller.

Local Open Scope Q_scope.

(** [easeInOutCubic] on any number, as the source computes it. *)
Definition jease (t : jsnum) : jsnum :=
  if jlt t (Fin 0.5)
  then jmul (jmul (jmul (Fin 4) t) t) t
  else jadd (jmul (jmul (jsub t (Fin 1)) (jsub (jmul (Fin 2) t) (Fin 2)))
                  (jsub (jmul (Fin 2) t) (Fin 2)))
            (Fin 1).

Definition getScrollCoord (start dest startTime currentTime duration : jsnum) : jsnum :=
  let time := jmin (Fin 1) (jdiv (jsub currentTime startTime) duration) in
  let timeFn := jease time in
  jceil (jadd (jmul timeFn (jsub dest start)) start).

(** What is asked of the element: [el.scrollTo(x, 0)] and
    [el.scrollTo({left: x, behavior: 'smooth'})]. *)
Inductive DomCommand : Type :=
| ScrollTo (x : jsnum)
| ScrollToSmooth (left : jsnum).

(** [scroll]: one run per animation frame, [clock] giving the reading of
    [getTs()] in each.  The result is the positions written, and whether the
    animation is over ([false]: the readings ran out first). *)
Fixpoint scroll (clock : list Q) (startX : Q) (x : jsnum) (startTime duration : Q)
    : list DomCommand * bool :=
  match clock with
  | [] => ([], false)
  | currentTime :: later =>
      let scrollX :=
        if jeq (Fin startX) x
        then x
        else getScrollCoord (Fin startX) x (Fin startTime) (Fin currentTime)
               (Fin duration) in
      if jge (jsub (Fin currentTime) (Fin startTime)) (Fin duration)
      then ([ScrollTo scrollX], true)
      else let (rest, done) := scroll later startX x startTime duration in
           (ScrollTo scrollX :: rest, done)
  end.

(** [scrollEl(el, x, native, duration)].  [nativeScrollAvailable] is the
    module constant of that name, [scrollLeft] is [el.scrollLeft] when the
    first frame comes, and [clock] lists the readings of [getTs()] from that
    frame on: the first one is the start time. *)
Definition scrollEl (nativeScrollAvailable : bool) (scrollLeft : Q) (x : jsnum)
    (native : option bool) (duration : Q) (clock : list Q)
    : list DomCommand * bool :=
  if jle (Fin duration) (Fin 0)
  then match clock with
       | [] => ([], false)
       | _ :: _ => ([ScrollTo x], true)
       end
  else if match native with Some true => nativeScrollAvailable | _ => false end
  then ([ScrollToSmooth x], true)
  else match clock with
       | [] => ([], false)
       | startTime :: later => scroll later scrollLeft x startTime duration
       end.

End Scroller.

(* ================================================================== *)
(** ** super-tabs and its toolbar: the handlers that keep them in step *)
(* ================================================================== *)

Module ToolbarHandlers.

(** [onButtonClick(button)].  The button is named by its position in
    [this.buttons], which is also its [index]: [queryButtons] numbers the
    buttons in order.  The second component is the payload of the
    [buttonClick] event.  ([lastClickTs] only feeds the tap detection of the
    toolbar's own touch handlers.) *)
Definition onButtonClick (button : nat) (t : Toolbar.Toolbar) : Toolbar.Toolbar * nat :=
  (Toolbar.setActiveTab (of_Z (Z.of_nat button)) true true t, button).

End ToolbarHandlers.

Module TabsHandlers.

Import Tabs.

(** [onToolbarButtonClick], the handler of [buttonClick]; [index] is
    [ev.detail.index].  The container's [setActiveTabIndex] is started and
    not awaited; nothing it produces comes back to the root's handlers, so
    what it does to the container is recorded at once.  [None]: that call
    threw a [TypeError] (a container without configuration); the state it
    leaves the container in is not described. *)
Definition onToolbarButtonClick (index : jsnum) (s : SuperTabs) : option SuperTabs :=
  let s0 := debug "onToolbarButtonClick" s in
  let afterContainer :=
    match container s0 with
    | Some c =>
        match Container.setActiveTabIndex index true true c with
        | Some (_, c', o) => Some (deliver o (set_container (Some c') s0))
        | None => None
        end
    | None => Some s0
    end in
  match afterContainer with
  | None => None
  | Some s1 => Some (set_activeTabIndex index (emitTabChangeEvent index None s1))
  end.

(** [onSlotchange]: [foundContainer] and [foundToolbar] are what
    [indexChildren] finds in the DOM.  As long as [initPromise] is not
    resolved, [selectTab] gets no further than its first line. *)
Definition onSlotchange (foundContainer : option Container.Container)
    (foundToolbar : option Toolbar.Toolbar) (s : SuperTabs) : option SuperTabs :=
  let s1 := indexChildren foundContainer foundToolbar s in
  if initResolved s1
  then selectTab (activeTabIndex s1) true false s1
  else Some (debug "selectTab" s1).

(** What can reach the root component once it is set up: the two events of
    the container, the event of the toolbar, a call of [selectTab] and a
    slot change. *)
Inductive RootEvent : Type :=
| ActiveTabIndexChange (index : jsnum)
| SelectedTabIndexChange (index : jsnum)
| ButtonClick (index : jsnum)
| SelectTab (index : jsnum) (animate emit : bool)
| Slotchange (foundContainer : option Container.Container)
             (foundToolbar : option Toolbar.Toolbar).

Definition dispatch (e : RootEvent) (s : SuperTabs) : option SuperTabs :=
  match e with
  | ActiveTabIndexChange i => Some (deliver_one s (Container.ActiveTabIndexChange i))
  | SelectedTabIndexChange i => Some (deliver_one s (Container.SelectedTabIndexChange i))
  | ButtonClick i => if listensToolbar s then onToolbarButtonClick i s else Some s
  | SelectTab i animate emit =>
      if initResolved s then selectTab i animate emit s else Some (debug "selectTab" s)
  | Slotchange foundContainer foundToolbar => onSlotchange foundContainer foundToolbar s
  end.

Fixpoint dispatch_all (events : list RootEvent) (s : SuperTabs) : option SuperTabs :=
  match events with
  | [] => Some s
  | e :: rest =>
      match dispatch e s with
      | Some s1 => dispatch_all rest s1
      | None => None
      end
  end.

(** A tap on a button of the toolbar: the toolbar's [onButtonClick], then
    the root's handler of the event it emits. *)
Definition tap (button : nat) (s : SuperTabs) : option SuperTabs :=
  match toolbar s with
  | None => Some s
  | Some t =>
      let (t', b) := ToolbarHandlers.onButtonClick button t in
      dispatch (ButtonClick (of_Z (Z.of_nat b))) (set_toolbar (Some t') s)
  end.

(** The end of a touch on the container: the container's [onTouchEnd], then
    the root's handlers of the events it emits. *)
Definition touchEnd (coords : STCoord) (now : Q) (s : SuperTabs) : option SuperTabs :=
  match container s with
  | None => Some s
  | Some c =>
      match Container.onTouchEnd coords now c with
      | Some (_, c', o) => Some (deliver o (set_container (Some c') s))
      | None => None
      end
  end.

End TabsHandlers.

(** No [tabChange] payload of [s] carries a negative index. *)
Definition tabChange_indices_ok (s : Tabs.SuperTabs) : Prop :=
  Forall (fun d => jlt (Tabs.index d) (Fin 0) = false) (Tabs.tabChange s).

(** At most the button the toolbar calls active is marked [active]. *)
Definition at_most_activeButton (t : Toolbar.Toolbar) : Prop :=
  forall i : nat,
    nth i (Toolbar.buttons t) false = true -> Toolbar.activeButton t = Some i.

Module SampleRoot.

Local Open Scope Q_scope.

(** The initialised root of [Sample.root], its container in the middle of
    a drag that has reached [scrollLeft = 100] from tab 0. *)
Definition swiping : Tabs.SuperTabs :=
  Tabs.set_container (Some (Sample.dragging 100 0)) Sample.root.

(** A root that looks for its container in vain until a slot change brings
    it between frames 2 and 3. *)
Definition late_container (k : nat) (s : Tabs.SuperTabs) : Tabs.SuperTabs :=
  if Nat.eqb k 2 then Tabs.indexChildren (Some Sample.resting) None s else s.

End SampleRoot.

(* ================================================================== *)
(** ** super-tabs-toolbar: the indicator *)
(* ================================================================== *)

Module Indicator.

Local Open Scope Q_scope.

(** The DOM readings the toolbar takes of an element: of a button its
    [offsetLeft] and [clientWidth], of the buttons container its
    [clientWidth] and [scrollLeft]. *)
Record El : Type := { offsetLeft : Q; clientWidth : Q; scrollLeft : Q }.

(** The part of the toolbar that places the indicator.  [indicatorEl] tells
    whether the reference to the indicator element is set;
    [buttonsContainerEl] is [None] while undefined; [isDragging] is [false]
    while undefined (only its truthiness is ever read). *)
Record State : Type := {
  config : option SuperTabsConfig;
  showIndicator : bool;
  scrollable : bool;
  indicatorEl : bool;
  buttonsContainerEl : option El;
  buttons : list El;
  isDragging : bool;
  indicatorPosition : option jsnum;
  indicatorWidth : option jsnum
}.

Definition set_isDragging (v : bool) (s : State) : State :=
  {| config := config s; showIndicator := showIndicator s; scrollable := scrollable s;
     indicatorEl := indicatorEl s; buttonsContainerEl := buttonsContainerEl s;
     buttons := buttons s; isDragging := v;
     indicatorPosition := indicatorPosition s; indicatorWidth := indicatorWidth s |}.

Definition set_indicator (position width : jsnum) (s : State) : State :=
  {| config := config s; showIndicator := showIndicator s; scrollable := scrollable s;
     indicatorEl := indicatorEl s; buttonsContainerEl := buttonsContainerEl s;
     buttons := buttons s; isDragging := isDragging s;
     indicatorPosition := Some position; indicatorWidth := Some width |}.

(** What the toolbar asks of the DOM: the three style properties of the
    indicator (position, scale, and the transition duration in
    milliseconds, [None] standing for the string ['0']), and
    [scrollEl(buttonsContainerEl, x, native, duration)]. *)
Inductive Output : Type :=
| SetIndicator (positionX scaleX : jsnum) (transitionDuration : option Q)
| ScrollButtons (x : jsnum) (native : option bool) (duration : Q).

(** [this.buttons[i]]. *)
Definition button_at (s : State) (i : jsnum) : option El :=
  match i with
  | Fin q =>
      if Qeq_bool q (inject_Z (Qfloor q)) && (0 <=? Qfloor q)%Z
      then nth_error (buttons s) (Z.to_nat (Qfloor q))
      else None
  | _ => None
  end.

(** What the animation frame requested by [alignIndicator] has closed
    over. *)
Record Frame : Type := {
  position : jsnum;
  width : jsnum;
  frameAnimate : bool;
  frameDragging : bool
}.

(** [alignIndicator(index, animate)] up to its request for an animation
    frame; [animate] is [false] when the caller leaves it out. *)
Definition alignIndicator (index : jsnum) (animate : bool) (s : State)
    : State * option Frame :=
  if negb (showIndicator s) || negb (indicatorEl s)
  then (s, None)
  else
    let remainder := jrem1 index in
    let dragging := jgt remainder (Fin 0) in
    let s1 := set_isDragging dragging s in
    let floor := jfloor index in
    let ceil := jceil index in
    match button_at s1 floor with
    | None => (s1, None)
    | Some button =>
        if dragging && negb (jeq floor ceil)
        then
          match button_at s1 ceil with
          | None => (s1, None)
          | Some buttonB =>
              (s1,
               Some {| position :=
                         jadd (Fin (offsetLeft button))
                              (jmul remainder
                                    (jsub (Fin (offsetLeft buttonB))
                                          (Fin (offsetLeft button))));
                       width :=
                         jadd (Fin (clientWidth button))
                              (jmul remainder
                                    (jsub (Fin (clientWidth buttonB))
                                          (Fin (clientWidth button))));
                       frameAnimate := animate;
                       frameDragging := dragging |})
          end
        else
          (s1,
           Some {| position := Fin (offsetLeft button);
                   width := Fin (clientWidth button);
                   frameAnimate := animate;
                   frameDragging := dragging |})
    end.

(** [setSelectedTab(index, animate)]. *)
Definition setSelectedTab (index : jsnum) (animate : bool) (s : State)
    : State * option Frame :=
  alignIndicator index animate s.

(** [moveContainer(scrollX, animate)] of the toolbar.  [None] is the
    [TypeError] of [this.config!] on a toolbar without configuration. *)
Definition moveContainer (scrollX : jsnum) (animate : bool) (s : State)
    : option (list Output) :=
  match buttonsContainerEl s with
  | None => Some []
  | Some _ =>
      match config s with
      | None => None
      | Some cfg =>
          Some [ScrollButtons scrollX (nativeSmoothScroll cfg)
                  (if animate then transitionDuration cfg else 0)]
      end
  end.

(** The locals of [adjustContainerScroll], down to [pos]: [ip] and [iw]
    are the indicator's position and width, [mw] and [sp] the container's
    [clientWidth] and [scrollLeft].  [None] is the branch that returns
    without scrolling. *)
Definition scrollTarget (ip iw mw sp : jsnum) : option jsnum :=
  let centerDelta := jsub (jdiv mw (Fin 2)) (jdiv iw (Fin 2)) in
  let a := jfloor (jadd (jadd ip iw) centerDelta) in
  let b := jfloor (jsub ip centerDelta) in
  let c := jfloor (jadd mw sp) in
  if jgt a c
  then Some (jsub (jadd (jadd ip iw) centerDelta) mw)
  else if jlt b sp
  then let pos := jmax (jsub ip centerDelta) (Fin 0) in
       Some (if jgt pos ip then jadd (jsub ip mw) iw else pos)
  else None.

(** [adjustContainerScroll(animate)].  An undefined indicator position or
    width counts as NaN in the arithmetic. *)
Definition adjustContainerScroll (animate : bool) (s : State) : option (list Output) :=
  match buttonsContainerEl s with
  | None => Some []
  | Some el =>
      let ip := match indicatorPosition s with Some v => v | None => NaN end in
      let iw := match indicatorWidth s with Some v => v | None => NaN end in
      match scrollTarget ip iw (Fin (clientWidth el)) (Fin (scrollLeft el)) with
      | None => Some []
      | Some pos =>
          if negb animate
          then Some [ScrollButtons pos (Some false) 50]
          else moveContainer pos animate s
      end
  end.

(** The animation frame of [alignIndicator], run on the state of the
    toolbar at that time.  [None] is a [TypeError]: the indicator element
    gone, or no configuration where one is read. *)
Definition indicatorFrame (f : Frame) (s : State) : option (State * list Output) :=
  let s1 := set_indicator (position f) (width f) s in
  match (if scrollable s1
         then adjustContainerScroll (frameAnimate f || negb (frameDragging f)) s1
         else Some []) with
  | None => None
  | Some scrolls =>
      if negb (indicatorEl s1)
      then None
      else if isDragging s1
      then Some (s1, scrolls ++ [SetIndicator (position f) (jdiv (width f) (Fin 100))
                                   None])
      else match config s1 with
           | None => None
           | Some cfg =>
               Some (s1, scrolls ++ [SetIndicator (position f)
                                       (jdiv (width f) (Fin 100))
                                       (Some (transitionDuration cfg))])
           end
  end.

End Indicator.

Module SampleIndicator.

Local Open Scope Q_scope.

(** A scrollable toolbar of four buttons, 100, 140, 80 and 120 pixels wide,
    in a container 200 pixels wide that has not been scrolled. *)
Definition bar : Indicator.State := {|
  Indicator.config := Some DEFAULT_CONFIG;
  Indicator.showIndicator := true;
  Indicator.scrollable := true;
  Indicator.indicatorEl := true;
  Indicator.buttonsContainerEl :=
    Some {| Indicator.offsetLeft := 0; Indicator.clientWidth := 200;
            Indicator.scrollLeft := 0 |};
  Indicator.buttons :=
    [ {| Indicator.offsetLeft := 0; Indicator.clientWidth := 100;
         Indicator.scrollLeft := 0 |};
      {| Indicator.offsetLeft := 100; Indicator.clientWidth := 140;
         Indicator.scrollLeft := 0 |};
      {| Indicator.offsetLeft := 240; Indicator.clientWidth := 80;
         Indicator.scrollLeft := 0 |};
      {| Indicator.offsetLeft := 320; Indicator.clientWidth := 120;
         Indicator.scrollLeft := 0 |} ];
  Indicator.isDragging := false;
  Indicator.indicatorPosition := None;
  Indicator.indicatorWidth := None
|}.

End SampleIndicator.

(* ================================================================== *)
(** ** super-tabs: loading *)
(* ================================================================== *)

Module TabsLifecycle.

Import Tabs.

(** [componentDidLoad], up to its request for the frame that runs
    [initComponent]; [foundContainer] and [foundToolbar] are what
    [indexChildren] finds.  The container's [setActiveTabIndex] is started
    and not awaited, as in [onToolbarButtonClick]; [None] is its
    [TypeError]. *)
Definition componentDidLoad (foundContainer : option Container.Container)
    (foundToolbar : option Toolbar.Toolbar) (s : SuperTabs) : option SuperTabs :=
  let s0 := indexChildren foundContainer foundToolbar (debug "componentDidLoad" s) in
  if jgt (activeTabIndex s0) (Fin 0)
  then
    let afterContainer :=
      match container s0 with
      | Some c =>
          match Container.setActiveTabIndex (activeTabIndex s0) true false c with
          | Some (_, c', o) => Some (deliver o (set_container (Some c') s0))
          | None => None
          end
      | None => Some s0
      end in
    match afterContainer with
    | None => None
    | Some s1 =>
        Some (set_toolbar
                (option_map (Toolbar.setActiveTab (activeTabIndex s1) true false)
                   (toolbar s1)) s1)
    end
  else Some s0.

End TabsLifecycle.

(* ================================================================== *)
(** ** super-tabs-toolbar: taps and drags *)
(* ================================================================== *)

Module ToolbarTouch.

Local Open Scope Q_scope.

(** The buttons container as the drag reads it. *)
Record ButtonsContainer : Type := { el : ScrollableEl; clientWidth : Q }.

(** The toolbar with what its pointer handlers keep: [bar] is the part the
    root drives (buttons, active button, index and configuration);
    [indicatorEl] tells whether the reference to the indicator element is
    set. *)
Record State : Type := {
  bar : Toolbar.Toolbar;
  showIndicator : bool;
  indicatorEl : bool;
  scrollable : bool;
  width : Q;
  leftThreshold : Q;
  rightThreshold : Q;
  touchStartTs : Q;
  lastClickTs : Q;
  initialCoords : option STCoord;
  lastPosX : option Q;
  isDragging : bool;
  buttonsContainerEl : option ButtonsContainer
}.

(** [touchStartTs], [initialCoords] and [lastPosX] written together. *)
Definition set_touchStart (ts : Q) (ic : option STCoord) (lx : option Q) (s : State)
    : State :=
  {| bar := bar s; showIndicator := showIndicator s; indicatorEl := indicatorEl s;
     scrollable := scrollable s; width := width s;
     leftThreshold := leftThreshold s; rightThreshold := rightThreshold s;
     touchStartTs := ts; lastClickTs := lastClickTs s;
     initialCoords := ic; lastPosX := lx; isDragging := isDragging s;
     buttonsContainerEl := buttonsContainerEl s |}.

(** [isDragging], [initialCoords] and [lastPosX] written together. *)
Definition set_gesture (d : bool) (ic : option STCoord) (lx : option Q) (s : State)
    : State :=
  {| bar := bar s; showIndicator := showIndicator s; indicatorEl := indicatorEl s;
     scrollable := scrollable s; width := width s;
     leftThreshold := leftThreshold s; rightThreshold := rightThreshold s;
     touchStartTs := touchStartTs s; lastClickTs := lastClickTs s;
     initialCoords := ic; lastPosX := lx; isDragging := d;
     buttonsContainerEl := buttonsContainerEl s |}.

(** What a click writes: [lastClickTs], the bar as [setActiveTab] leaves
    it, and [isDragging], which the [alignIndicator] called by
    [setActiveTab] sets to [index % 1 > 0] when the indicator is shown and
    its element known; the index has been rounded, so that is [false]. *)
Definition set_click (ts : Q) (b : Toolbar.Toolbar) (s : State) : State :=
  {| bar := b; showIndicator := showIndicator s; indicatorEl := indicatorEl s;
     scrollable := scrollable s; width := width s;
     leftThreshold := leftThreshold s; rightThreshold := rightThreshold s;
     touchStartTs := touchStartTs s; lastClickTs := ts;
     initialCoords := initialCoords s; lastPosX := lastPosX s;
     isDragging := if showIndicator s && indicatorEl s then false else isDragging s;
     buttonsContainerEl := buttonsContainerEl s |}.

(** Where an event landed: on a button, on the toolbar itself, or on some
    other element, [closest] being its nearest [super-tab-button]
    ancestor. *)
Inductive Target : Type :=
| OnButton (button : nat)
| OnToolbar
| Inside (closest : option nat).

Definition getButtonFromEv (target : Target) : option nat :=
  match target with
  | OnButton b => Some b
  | OnToolbar => None
  | Inside closest => closest
  end.

(** What the handlers give out: the [buttonClick] event,
    [ev.stopImmediatePropagation()], the request for the frame that scrolls
    the buttons by [deltaX], and [buttonsContainerEl.scroll(x, 0)]. *)
Inductive Output : Type :=
| ButtonClick (button : nat)
| StopPropagation
| RequestFrame (deltaX : Q)
| Scroll (x : jsnum).

(** [onButtonClick(button)] at time [now]. *)
Definition onButtonClick (button : nat) (now : Q) (s : State) : State * list Output :=
  let (b, payload) := ToolbarHandlers.onButtonClick button (bar s) in
  (set_click now b s, [ButtonClick payload]).

(** [onClick]: [target] is [None] for an event without target, [now] is
    [Date.now()]. *)
Definition onClick (target : option Target) (now : Q) (s : State)
    : State * list Output :=
  match target with
  | None => (s, [])
  | Some tg =>
      if jle (jsub (Fin now) (Fin (touchStartTs s))) (Fin 150)
      then (s, [])
      else match getButtonFromEv tg with
           | None => (s, [])
           | Some button => onButtonClick button now s
           end
  end.

Definition onTouchStart (coords : STCoord) (now : Q) (s : State) : State :=
  if negb (scrollable s)
  then s
  else
    let vw := width s in
    if jlt (Fin (x coords)) (Fin (leftThreshold s))
       || jgt (Fin (x coords)) (jsub (Fin vw) (Fin (rightThreshold s)))
    then s
    else set_touchStart now (Some coords) (Some (x coords)) s.

(** [onTouchEnd].  An undefined [initialCoords] or configuration makes the
    comparison one with NaN. *)
Definition onTouchEnd (target : Target) (coords : STCoord) (now : Q) (s : State)
    : State * list Output :=
  let finish (r : State * list Output) :=
    (set_gesture false None None (fst r), snd r) in
  if jlt (Fin (lastClickTs s)) (Fin (touchStartTs s))
     && jle (jsub (Fin now) (Fin (touchStartTs s))) (Fin 150)
  then
    if jlt (jabs (jsub (Fin (x coords))
                       (Container.num_of (option_map x (initialCoords s)))))
           (Container.num_of (option_map dragThreshold (Toolbar.config (bar s))))
    then match getButtonFromEv target with
         | None => (s, [])
         | Some button => finish (onButtonClick button now s)
         end
    else finish (s, [])
  else finish (s, []).

Section TouchMove.

Variable checkGesture : STCoord -> STCoord -> SuperTabsConfig -> bool.

(** [onTouchMove], up to its request for a frame.  [None] is the
    [TypeError] of [checkGesture] reading a configuration that is not
    there. *)
Definition onTouchMove (coords : STCoord) (s : State) : option (State * list Output) :=
  match buttonsContainerEl s, scrollable s, initialCoords s, lastPosX s with
  | Some _, true, Some ic, Some lastX =>
      let drag (s1 : State) :=
        let deltaX := lastX - x coords in
        if Qeq_bool deltaX 0
        then Some (s1, [StopPropagation])
        else Some (set_gesture (isDragging s1) (initialCoords s1) (Some (x coords)) s1,
                   [StopPropagation; RequestFrame deltaX]) in
      if isDragging s
      then drag s
      else
        match Toolbar.config (bar s) with
        | None => None
        | Some cfg =>
            if checkGesture coords ic cfg
            then drag (set_gesture true (initialCoords s) (lastPosX s) s)
            else if jgt (jabs (jsub (Fin (y coords)) (Fin (y ic)))) (Fin 100)
            then Some (set_gesture (isDragging s) None None s, [])
            else Some (s, [])
        end
  | _, _, _, _ => Some (s, [])
  end.

(** The frame requested by [onTouchMove]. *)
Definition touchMoveFrame (deltaX : Q) (s : State) : list Output :=
  if negb (isDragging s)
  then []
  else
    match buttonsContainerEl s with
    | None => []
    | Some bc =>
        let scrollX := getNormalizedScrollX (el bc) (Fin (clientWidth bc)) (Fin deltaX) in
        if jeq scrollX (Fin (el_scrollLeft (el bc)))
        then []
        else [Scroll scrollX]
    end.

(** The pointer events of the toolbar, and the frames in between. *)
Inductive Event : Type :=
| TouchStart (coords : STCoord) (now : Q)
| TouchMove (coords : STCoord)
| Frame (deltaX : Q)
| TouchEnd (target : Target) (coords : STCoord) (now : Q)
| Click (target : option Target) (now : Q).

Definition handle (e : Event) (s : State) : option (State * list Output) :=
  match e with
  | TouchStart coords now => Some (onTouchStart coords now s, [])
  | TouchMove coords => onTouchMove coords s
  | Frame deltaX => Some (s, touchMoveFrame deltaX s)
  | TouchEnd target coords now => Some (onTouchEnd target coords now s)
  | Click target now => Some (onClick target now s)
  end.

Fixpoint handle_all (events : list Event) (s : State) : option (State * list Output) :=
  match events with
  | [] => Some (s, [])
  | e :: rest =>
      match handle e s with
      | None => None
      | Some (s1, o1) =>
          match handle_all rest s1 with
          | None => None
          | Some (s2, o2) => Some (s2, o1 ++ o2)
          end
      end
  end.

End TouchMove.

(** The buttons given out as [buttonClick] events. *)
Definition buttonClicks (o : list Output) : list nat :=
  flat_map (fun e => match e with ButtonClick b => [b] | _ => [] end) o.

(** The buttons clicked on, among some events. *)
Definition clickedButtons (events : list Event) : list nat :=
  flat_map (fun e => match e with
                     | Click (Some tg) _ =>
                         match getButtonFromEv tg with Some b => [b] | None => [] end
                     | _ => []
                     end) events.

End ToolbarTouch.

Module SampleToolbar.

Local Open Scope Q_scope.

(** A scrollable toolbar of four buttons, 300 pixels wide, configured with
    the defaults, that has seen no touch and no click yet. *)
Definition scrolling : ToolbarTouch.State := {|
  ToolbarTouch.bar := Toolbar.set_config (Some DEFAULT_CONFIG) Sample.four_buttons;
  ToolbarTouch.showIndicator := true;
  ToolbarTouch.indicatorEl := true;
  ToolbarTouch.scrollable := true;
  ToolbarTouch.width := 300;
  ToolbarTouch.leftThreshold := 0;
  ToolbarTouch.rightThreshold := 0;
  ToolbarTouch.touchStartTs := 0;
  ToolbarTouch.lastClickTs := 0;
  ToolbarTouch.initialCoords := None;
  ToolbarTouch.lastPosX := None;
  ToolbarTouch.isDragging := false;
  ToolbarTouch.buttonsContainerEl :=
    Some {| ToolbarTouch.el := {| el_scrollWidth := 440; el_scrollLeft := 0 |};
            ToolbarTouch.clientWidth := 300 |}
|}.

(** The same toolbar, not scrollable. *)
Definition fixed : ToolbarTouch.State := {|
  ToolbarTouch.bar := Toolbar.set_config (Some DEFAULT_CONFIG) Sample.four_buttons;
  ToolbarTouch.showIndicator := true;
  ToolbarTouch.indicatorEl := true;
  ToolbarTouch.scrollable := false;
  ToolbarTouch.width := 300;
  ToolbarTouch.leftThreshold := 0;
  ToolbarTouch.rightThreshold := 0;
  ToolbarTouch.touchStartTs := 0;
  ToolbarTouch.lastClickTs := 0;
  ToolbarTouch.initialCoords := None;
  ToolbarTouch.lastPosX := None;
  ToolbarTouch.isDragging := false;
  ToolbarTouch.buttonsContainerEl :=
    Some {| ToolbarTouch.el := {| el_scrollWidth := 300; el_scrollLeft := 0 |};
            ToolbarTouch.clientWidth := 300 |}
|}.

End SampleToolbar.

(** The click events that come more than 150 ms after time [ts]. *)
Definition late_clicks (ts : Q) (events : list ToolbarTouch.Event)
    : list ToolbarTouch.Event :=
  filter (fun e => match e with
                   | ToolbarTouch.Click _ now => negb (Qle_bool (now - ts) 150)
                   | _ => false
                   end) events.

(** Is the event a touch start? *)
Definition is_touchStart (e : Gestures.TouchEvent) : bool :=
  match e with
  | Gestures.TouchStart _ _ _ _ => true
  | _ => false
  end.

Module SampleSideMenu.

Local Open Scope Q_scope.

(** The defaults, with a side menu on the left. *)
Definition side_config : SuperTabsConfig := {|
  dragThreshold := 20;
  allowElementScroll := false;
  maxDragAngle := 40;
  sideMenu := Some SideLeft;
  sideMenuThreshold := 50;
  transitionDuration := 150;
  shortSwipeDuration := 300;
  debug := false;
  avoidElements := false;
  lazyLoad := false;
  unloadWhenInvisible := false;
  nativeSmoothScroll := None
|}.

(** The container of [SampleTouch.at_rest] under that configuration, its
    thresholds set as [indexTabs] sets them. *)
Definition with_side_menu : Container.Container :=
  Container.set_thresholds side_config
    (Container.set_config (Some side_config) SampleTouch.at_rest).

(** A swipe to the left that starts 30 pixels from the left edge. *)
Definition edge_swipe : list Gestures.TouchEvent :=
  [ Gestures.TouchMove {| x := 10; y := 12 |};
    Gestures.DomScroll 20;
    Gestures.TouchEnd {| x := 10; y := 12 |} 1150 ].

End SampleSideMenu.

(* ================================================================== *)
(** * Properties *)
(* ================================================================== *)

Local Open Scope Q_scope.

(** ** Rounding and comparison on finite numbers *)

Lemma Qfloor_unique (q : Q) (z : Z) :
  inject_Z z <= q -> q < inject_Z (z + 1) -> Qfloor q = z.
Proof.
  intros Hlo Hhi.
  pose proof (Qfloor_le q) as Hf.
  pose proof (Qlt_floor q) as Hc.
  assert (Qfloor q < z + 1)%Z as H1
    by (rewrite Zlt_Qlt; eapply Qle_lt_trans; eassumption).
  assert (z < Qfloor q + 1)%Z as H2
    by (rewrite Zlt_Qlt; eapply Qle_lt_trans; eassumption).
  lia.
Qed.

Lemma Qround_inject_Z (z : Z) : Qround (inject_Z z) = z.
Proof.
  unfold Qround. apply Qfloor_unique.
  - lra.
  - rewrite inject_Z_plus. change (inject_Z 1) with 1. lra.
Qed.

Lemma Qround_eq_Z (q : Q) (z : Z) : q == inject_Z z -> Qround q = z.
Proof.
  intros H. unfold Qround. rewrite H. apply Qround_inject_Z.
Qed.

Lemma Qeq_bool_false (p q : Q) : ~ p == q -> Qeq_bool p q = false.
Proof.
  intros H. destruct (Qeq_bool p q) eqn:E; [|reflexivity].
  apply Qeq_bool_iff in E. contradiction.
Qed.

Lemma Qeq_bool_true (p q : Q) : p == q -> Qeq_bool p q = true.
Proof. apply Qeq_bool_iff. Qed.

Lemma jle_fin (p q : Q) : jle (Fin p) (Fin q) = true <-> p <= q.
Proof.
  unfold jle; simpl. destruct (Qcompare_spec p q); split; intros; try lra;
    try reflexivity; try discriminate.
Qed.

Lemma jlt_fin (p q : Q) : jlt (Fin p) (Fin q) = true <-> p < q.
Proof.
  unfold jlt; simpl. destruct (Qcompare_spec p q); split; intros; try lra;
    try reflexivity; try discriminate.
Qed.

Lemma jeq_fin (p q : Q) : jeq (Fin p) (Fin q) = true <-> p == q.
Proof.
  unfold jeq; simpl. destruct (Qcompare_spec p q); split; intros; try lra;
    try reflexivity; try discriminate.
Qed.

(** [Math.max(0, Math.min(hi, v))] on finite numbers is finite and is the
    clamp of [v] to [[0, hi]] (to [0] when [hi] is negative). *)
Lemma clamp_fin (hi v : Q) :
  exists r : Q,
    jmax (Fin 0) (jmin (Fin hi) (Fin v)) = Fin r /\ r == Qmax 0 (Qmin hi v).
Proof.
  unfold jmax, jmin; simpl.
  destruct (Qcompare_spec hi v) as [E|E|E]; simpl.
  - destruct (Qcompare_spec 0 hi) as [F|F|F]; eexists; (split; [reflexivity|]).
    + rewrite Q.min_l by lra. rewrite Q.max_l by lra. reflexivity.
    + rewrite Q.min_l by lra. rewrite Q.max_r by lra. reflexivity.
    + rewrite Q.min_l by lra. rewrite Q.max_l by lra. reflexivity.
  - destruct (Qcompare_spec 0 hi) as [F|F|F]; eexists; (split; [reflexivity|]).
    + rewrite Q.min_l by lra. rewrite Q.max_l by lra. reflexivity.
    + rewrite Q.min_l by lra. rewrite Q.max_r by lra. reflexivity.
    + rewrite Q.min_l by lra. rewrite Q.max_l by lra. reflexivity.
  - destruct (Qcompare_spec 0 v) as [F|F|F]; eexists; (split; [reflexivity|]).
    + rewrite Q.min_r by lra. rewrite Q.max_l by lra. reflexivity.
    + rewrite Q.min_r by lra. rewrite Q.max_r by lra. reflexivity.
    + rewrite Q.min_r by lra. rewrite Q.max_l by lra. reflexivity.
Qed.

Lemma clamp_bounds (hi v : Q) :
  0 <= hi -> 0 <= Qmax 0 (Qmin hi v) /\ Qmax 0 (Qmin hi v) <= hi.
Proof.
  intros H. split.
  - apply Q.le_max_l.
  - apply Q.max_lub; [assumption | apply Q.le_min_l].
Qed.

(** ** The easing curve *)

(** C8.  For every [t] in [[0, 1]] the implemented [easeInOutCubic] equals,
    in exact arithmetic, the cubic ease-in-out curve of the design text,
    [t < 0.5 ? 4t^3 : 1 - (-2t+2)^3 / 2]. *)
Theorem easeInOutCubic_matches_spec (t : Q) :
  0 <= t -> t <= 1 -> easeInOutCubic t == easeInOutCubic_spec t.
Proof.
  intros _ _. unfold easeInOutCubic, easeInOutCubic_spec.
  destruct (Qlt_le_dec t 0.5); simpl; field.
Qed.

Lemma easeInOutCubic_matches_spec_witness :
  0 <= 3 # 4 /\ 3 # 4 <= 1 /\ easeInOutCubic (3 # 4) == easeInOutCubic_spec (3 # 4).
Proof.
  split; [|split].
  - discriminate.
  - discriminate.
  - apply (easeInOutCubic_matches_spec (3 # 4)); discriminate.
Defined.

(** ** Offsets and indices *)

Lemma indexToPosition_fin (c : Container.Container) (i : Q) :
  Container.indexToPosition c (Fin i)
  = Fin (inject_Z (Qround (i * Container.width c * 10000)) / 10000).
Proof. reflexivity. Qed.

Lemma positionToIndex_fin (c : Container.Container) (p : Q) :
  ~ Container.width c == 0 ->
  Container.positionToIndex c (Fin p) = Fin (p / Container.width c).
Proof.
  intros H. unfold Container.positionToIndex; simpl.
  rewrite Qeq_bool_false by assumption. reflexivity.
Qed.

Lemma tab_span_nonneg (tabCount : Z) (tabWidth : Q) :
  (1 <= tabCount)%Z -> 0 <= tabWidth -> 0 <= (inject_Z tabCount - 1) * tabWidth.
Proof.
  intros Hn Hw. apply Qmult_le_0_compat; [|assumption].
  rewrite Zle_Qle in Hn. change (inject_Z 1) with 1 in Hn. lra.
Qed.

(** The clamp shared by [getNormalizedScrollX], [calcSelectedTab] and
    [normalizeSelectedTab], on finite operands. *)
Lemma clamp_in_range (tabCount : Z) (tabWidth scrollableWidth v : Q) :
  (1 <= tabCount)%Z -> 0 <= tabWidth ->
  scrollableWidth == inject_Z tabCount * tabWidth ->
  exists r : Q,
    jmax (Fin 0) (jmin (jsub (Fin scrollableWidth) (Fin tabWidth)) (Fin v)) = Fin r
    /\ 0 <= r /\ r <= (inject_Z tabCount - 1) * tabWidth.
Proof.
  intros Hn Hw Hs.
  pose proof (tab_span_nonneg tabCount tabWidth Hn Hw) as Hspan.
  destruct (clamp_fin (scrollableWidth + - tabWidth) v) as [r [Hr Hq]].
  exists r. split; [exact Hr|].
  assert (0 <= scrollableWidth + - tabWidth) as Hhi by (rewrite Hs; lra).
  destruct (clamp_bounds (scrollableWidth + - tabWidth) v Hhi) as [B1 B2].
  rewrite Hq. split; [exact B1|]. rewrite Hs in B2 at 2. lra.
Qed.

(** ** Comparisons of doubles *)

Lemma SFcompare_refl (f : SpecFloat.spec_float) :
  f <> SpecFloat.S754_nan -> SpecFloat.SFcompare f f = Some Eq.
Proof.
  destruct f as [s|s| |s m e]; intros H; try reflexivity.
  - destruct s; reflexivity.
  - exfalso. apply H. reflexivity.
  - cbn. rewrite Z.compare_refl, Pos.compare_cont_refl. destruct s; reflexivity.
Qed.

Lemma SFcompare_antisym (f1 f2 : SpecFloat.spec_float) :
  SpecFloat.SFcompare f2 f1 = option_map CompOpp (SpecFloat.SFcompare f1 f2).
Proof.
  destruct f1 as [s1|s1| |s1 m1 e1], f2 as [s2|s2| |s2 m2 e2]; cbn;
    try reflexivity; try (destruct s1; reflexivity); try (destruct s2; reflexivity);
    try (destruct s1, s2; reflexivity).
  rewrite (Z.compare_antisym e1 e2).
  destruct s1, s2; cbn; try reflexivity;
    destruct (e1 ?= e2)%Z; cbn; try reflexivity;
    rewrite (Pos.compare_cont_antisym m1 m2 Eq); cbn; reflexivity.
Qed.

Lemma SFcompare_zero_l (s s' : bool) (f : SpecFloat.spec_float) :
  SpecFloat.SFcompare (SpecFloat.S754_zero s) f
  = SpecFloat.SFcompare (SpecFloat.S754_zero s') f.
Proof. destruct f; reflexivity. Qed.

Lemma SFcompare_zero_r (s s' : bool) (f : SpecFloat.spec_float) :
  SpecFloat.SFcompare f (SpecFloat.S754_zero s)
  = SpecFloat.SFcompare f (SpecFloat.S754_zero s').
Proof. destruct f; reflexivity. Qed.

Lemma SFcompare_eq_zero (s : bool) (f : SpecFloat.spec_float) :
  SpecFloat.SFcompare (SpecFloat.S754_zero s) f = Some Eq ->
  exists s' : bool, f = SpecFloat.S754_zero s'.
Proof.
  destruct f as [s2|s2| |s2 m2 e2]; cbn; intros H; try discriminate H.
  - exists s2. reflexivity.
  - destruct s2; discriminate H.
  - destruct s2; discriminate H.
Qed.

Lemma f64_is_nan (a : PrimFloat.float) :
  PrimFloat.is_nan a = false <-> FloatOps.Prim2SF a <> SpecFloat.S754_nan.
Proof.
  unfold PrimFloat.is_nan. rewrite FloatAxioms.eqb_spec. unfold SpecFloat.SFeqb.
  split.
  - intros H E. rewrite E in H. discriminate H.
  - intros H. rewrite (SFcompare_refl _ H). reflexivity.
Qed.

Lemma f64_lt_le (a b : PrimFloat.float) :
  PrimFloat.ltb a b = true -> PrimFloat.leb a b = true.
Proof.
  rewrite FloatAxioms.ltb_spec, FloatAxioms.leb_spec.
  unfold SpecFloat.SFltb, SpecFloat.SFleb.
  destruct (SpecFloat.SFcompare _ _) as [[| |]|]; intros H;
    try discriminate H; reflexivity.
Qed.

Lemma f64_le_refl (a : PrimFloat.float) :
  PrimFloat.is_nan a = false -> PrimFloat.leb a a = true.
Proof.
  intros H. apply f64_is_nan in H.
  rewrite FloatAxioms.leb_spec. unfold SpecFloat.SFleb.
  rewrite (SFcompare_refl _ H). reflexivity.
Qed.

Lemma f64_le_not_nan (a b : PrimFloat.float) :
  PrimFloat.leb a b = true ->
  PrimFloat.is_nan a = false /\ PrimFloat.is_nan b = false.
Proof.
  rewrite FloatAxioms.leb_spec. unfold SpecFloat.SFleb. intros H.
  split; apply f64_is_nan; intros E; rewrite E in H;
    [|destruct (FloatOps.Prim2SF a)]; discriminate H.
Qed.

(** Two numbers neither of which is below the other are equal. *)
Lemma f64_tie (a b : PrimFloat.float) :
  PrimFloat.is_nan a = false -> PrimFloat.is_nan b = false ->
  PrimFloat.ltb a b = false -> PrimFloat.ltb b a = false ->
  SpecFloat.SFcompare (FloatOps.Prim2SF a) (FloatOps.Prim2SF b) = Some Eq.
Proof.
  intros Ha Hb. apply f64_is_nan in Ha. apply f64_is_nan in Hb.
  rewrite !FloatAxioms.ltb_spec. unfold SpecFloat.SFltb.
  rewrite (SFcompare_antisym (FloatOps.Prim2SF a) (FloatOps.Prim2SF b)).
  destruct (SpecFloat.SFcompare (FloatOps.Prim2SF a) (FloatOps.Prim2SF b))
    as [[| |]|] eqn:E; cbn; intros H1 H2; try discriminate; try reflexivity.
  exfalso. destruct (FloatOps.Prim2SF a), (FloatOps.Prim2SF b);
    cbn in E; try discriminate E; contradiction.
Qed.

Lemma f64_zero : FloatOps.Prim2SF PrimFloat.zero = SpecFloat.S754_zero false.
Proof. reflexivity. Qed.

Lemma f64_eq_zero (a : PrimFloat.float) :
  PrimFloat.eqb a PrimFloat.zero = true ->
  exists s : bool, FloatOps.Prim2SF a = SpecFloat.S754_zero s.
Proof.
  rewrite FloatAxioms.eqb_spec, f64_zero. unfold SpecFloat.SFeqb.
  destruct (SpecFloat.SFcompare (FloatOps.Prim2SF a) (SpecFloat.S754_zero false))
    as [[| |]|] eqn:E; intros H; try discriminate H.
  rewrite SFcompare_antisym in E.
  destruct (SpecFloat.SFcompare (SpecFloat.S754_zero false) (FloatOps.Prim2SF a))
    as [[| |]|] eqn:E'; try discriminate E.
  exact (SFcompare_eq_zero _ _ E').
Qed.

(** The sum of two zeros, and its opposite, are zeros. *)
Lemma f64_zero_sum (a b : PrimFloat.float) (s1 s2 : bool) :
  FloatOps.Prim2SF a = SpecFloat.S754_zero s1 ->
  FloatOps.Prim2SF b = SpecFloat.S754_zero s2 ->
  exists s : bool, FloatOps.Prim2SF (PrimFloat.add a b) = SpecFloat.S754_zero s.
Proof.
  intros Ha Hb. rewrite FloatAxioms.add_spec, Ha, Hb.
  destruct s1, s2; eexists; reflexivity.
Qed.

Lemma f64_zero_opp (a : PrimFloat.float) (s1 : bool) :
  FloatOps.Prim2SF a = SpecFloat.S754_zero s1 ->
  FloatOps.Prim2SF (PrimFloat.opp a) = SpecFloat.S754_zero (negb s1).
Proof. intros Ha. rewrite FloatAxioms.opp_spec, Ha. reflexivity. Qed.

(** A zero compares as [0] does. *)
Lemma f64_zero_le_l (z a b : PrimFloat.float) (s1 s2 : bool) :
  FloatOps.Prim2SF z = SpecFloat.S754_zero s1 ->
  FloatOps.Prim2SF a = SpecFloat.S754_zero s2 ->
  PrimFloat.leb a b = true -> PrimFloat.leb z b = true.
Proof.
  rewrite !FloatAxioms.leb_spec. intros -> ->. unfold SpecFloat.SFleb.
  rewrite (SFcompare_zero_l s1 s2). intros H; exact H.
Qed.

Lemma f64_zero_le_r (z a b : PrimFloat.float) (s1 s2 : bool) :
  FloatOps.Prim2SF z = SpecFloat.S754_zero s1 ->
  FloatOps.Prim2SF b = SpecFloat.S754_zero s2 ->
  PrimFloat.leb a b = true -> PrimFloat.leb a z = true.
Proof.
  rewrite !FloatAxioms.leb_spec. intros -> ->. unfold SpecFloat.SFleb.
  rewrite (SFcompare_zero_r s1 s2). intros H; exact H.
Qed.

Lemma f64_zero_not_nan (z : PrimFloat.float) (s : bool) :
  FloatOps.Prim2SF z = SpecFloat.S754_zero s -> PrimFloat.is_nan z = false.
Proof. intros H. apply f64_is_nan. rewrite H. discriminate. Qed.

(** What [Math.min] and [Math.max] return, for numbers: one of the two
    arguments, or a zero when both are zeros. *)
Lemma math_min_cases (a b : PrimFloat.float) :
  PrimFloat.is_nan a = false -> PrimFloat.is_nan b = false ->
  (F64.math_min a b = a /\ PrimFloat.leb a b = true)
  \/ (F64.math_min a b = b /\ PrimFloat.leb b a = true)
  \/ (exists s s1 s2 : bool,
        FloatOps.Prim2SF (F64.math_min a b) = SpecFloat.S754_zero s
        /\ FloatOps.Prim2SF a = SpecFloat.S754_zero s1
        /\ FloatOps.Prim2SF b = SpecFloat.S754_zero s2).
Proof.
  intros Ha Hb. unfold F64.math_min. rewrite Ha, Hb. cbn [orb].
  destruct (PrimFloat.ltb a b) eqn:E1; [left; split; [reflexivity | apply f64_lt_le, E1]|].
  destruct (PrimFloat.ltb b a) eqn:E2;
    [right; left; split; [reflexivity | apply f64_lt_le, E2]|].
  pose proof (f64_tie a b Ha Hb E1 E2) as Htie.
  destruct (PrimFloat.eqb a _) eqn:E0.
  - right; right. destruct (f64_eq_zero a E0) as [s1 H1].
    rewrite H1 in Htie. destruct (SFcompare_eq_zero _ _ Htie) as [s2 H2].
    destruct (f64_zero_sum (PrimFloat.opp a) (PrimFloat.opp b) _ _
                (f64_zero_opp a s1 H1) (f64_zero_opp b s2 H2)) as [s Hs].
    exists (negb s), s1, s2. split; [apply f64_zero_opp; exact Hs|]. split; assumption.
  - left. split; [reflexivity|].
    rewrite FloatAxioms.leb_spec. unfold SpecFloat.SFleb. rewrite Htie. reflexivity.
Qed.

Lemma math_max_cases (a b : PrimFloat.float) :
  PrimFloat.is_nan a = false -> PrimFloat.is_nan b = false ->
  (F64.math_max a b = a /\ PrimFloat.leb b a = true)
  \/ (F64.math_max a b = b /\ PrimFloat.leb a b = true)
  \/ (exists s s1 s2 : bool,
        FloatOps.Prim2SF (F64.math_max a b) = SpecFloat.S754_zero s
        /\ FloatOps.Prim2SF a = SpecFloat.S754_zero s1
        /\ FloatOps.Prim2SF b = SpecFloat.S754_zero s2).
Proof.
  intros Ha Hb. unfold F64.math_max. rewrite Ha, Hb. cbn [orb].
  destruct (PrimFloat.ltb a b) eqn:E1;
    [right; left; split; [reflexivity | apply f64_lt_le, E1]|].
  destruct (PrimFloat.ltb b a) eqn:E2; [left; split; [reflexivity | apply f64_lt_le, E2]|].
  pose proof (f64_tie a b Ha Hb E1 E2) as Htie.
  destruct (PrimFloat.eqb a _) eqn:E0.
  - right; right. destruct (f64_eq_zero a E0) as [s1 H1].
    rewrite H1 in Htie. destruct (SFcompare_eq_zero _ _ Htie) as [s2 H2].
    destruct (f64_zero_sum a b _ _ H1 H2) as [s Hs].
    exists s, s1, s2. split; [exact Hs|]. split; assumption.
  - left. split; [reflexivity|].
    rewrite FloatAxioms.leb_spec. unfold SpecFloat.SFleb.
    rewrite SFcompare_antisym, Htie. reflexivity.
Qed.

(** The clamp [Math.max(0, Math.min(hi, v))] of a number [v], for a bound
    [hi] that is not negative: a number between [0] and [hi]. *)
Lemma f64_clamp_range (hi v : PrimFloat.float) :
  PrimFloat.leb PrimFloat.zero hi = true ->
  PrimFloat.is_nan v = false ->
  PrimFloat.leb PrimFloat.zero (F64.math_max PrimFloat.zero (F64.math_min hi v)) = true
  /\ PrimFloat.leb (F64.math_max PrimFloat.zero (F64.math_min hi v)) hi = true.
Proof.
  intros Hhi Hv.
  destruct (f64_le_not_nan _ _ Hhi) as [H0 Hhin].
  set (m := F64.math_min hi v).
  assert (PrimFloat.is_nan m = false /\ PrimFloat.leb m hi = true) as [Hm Hmle].
  { unfold m.
    destruct (math_min_cases hi v Hhin Hv) as [[-> _]|[[-> L]|[s [s1 [s2 [Hs [H1 H2]]]]]]].
    - split; [exact Hhin | apply f64_le_refl; exact Hhin].
    - split; [exact Hv | exact L].
    - split; [exact (f64_zero_not_nan _ _ Hs)|].
      apply (f64_zero_le_l _ hi hi s s1 Hs H1). apply f64_le_refl; exact Hhin. }
  destruct (math_max_cases PrimFloat.zero m H0 Hm)
    as [[-> _]|[[-> L]|[s [s1 [s2 [Hs [H1 H2]]]]]]].
  - split; [reflexivity | exact Hhi].
  - split; [exact L | exact Hmle].
  - split.
    + apply (f64_zero_le_r _ PrimFloat.zero PrimFloat.zero s s1 Hs H1). reflexivity.
    + apply (f64_zero_le_l _ PrimFloat.zero hi s s1 Hs H1). exact Hhi.
Qed.

(** The clamp on finite operands, measured against its own bound. *)
Lemma clamp_within_maximum (tabCount : Z) (tabWidth scrollableWidth v : Q) :
  (1 <= tabCount)%Z -> 0 <= tabWidth ->
  scrollableWidth == inject_Z tabCount * tabWidth ->
  finite_within 0 (scrollableWidth - tabWidth)
    (jmax (Fin 0) (jmin (jsub (Fin scrollableWidth) (Fin tabWidth)) (Fin v))).
Proof.
  intros Hn Hw Hs.
  pose proof (tab_span_nonneg tabCount tabWidth Hn Hw) as Hspan.
  destruct (clamp_fin (scrollableWidth + - tabWidth) v) as [r [Hr Hq]].
  exists r. split; [exact Hr|].
  assert (0 <= scrollableWidth + - tabWidth) as Hhi by (rewrite Hs; lra).
  destruct (clamp_bounds (scrollableWidth + - tabWidth) v Hhi) as [B1 B2].
  rewrite Hq. split; [exact B1 | exact B2].
Qed.

(** C5, as the code has it.  [getNormalizedScrollX] (the offset is
    [scrollLeft + delta]), [calcSelectedTab] (the offset is [scrollLeft]) and
    [normalizeSelectedTab] (the offset is the position of [index]) clamp with
    [Math.max(0, Math.min(scrollWidth - width, offset))].  With
    [tabCount >= 1], [tabWidth >= 0] and a scrollable width of
    [tabCount * tabWidth], the result is a finite number between [0] and
    the maximum [scrollWidth - width], for every finite offset, negative or
    beyond the maximum.  The same holds in double precision, for every
    offset that is a number and a maximum that as computed is not
    negative: the result is a number between [0] and that maximum. *)
Theorem normalized_offset_within_maximum
    (tabCount : Z) (tabWidth delta index : Q)
    (el : ScrollableEl) (c : Container.Container)
    (el64 : F64.ScrollableEl) (width64 delta64 index64 : PrimFloat.float)
    (g : F64.Geometry) :
  (1 <= tabCount)%Z ->
  0 <= tabWidth ->
  el_scrollWidth el == inject_Z tabCount * tabWidth ->
  Container.width c == tabWidth ->
  Container.scrollWidth c == inject_Z tabCount * tabWidth ->
  PrimFloat.leb PrimFloat.zero
    (PrimFloat.sub (F64.el_scrollWidth el64) width64) = true ->
  PrimFloat.is_nan (PrimFloat.add (F64.el_scrollLeft el64) delta64) = false ->
  PrimFloat.leb PrimFloat.zero (PrimFloat.sub (F64.scrollWidth g) (F64.width g)) = true ->
  PrimFloat.is_nan (F64.scrollLeft g) = false ->
  PrimFloat.is_nan (F64.indexToPosition g index64) = false ->
  (finite_within 0 (el_scrollWidth el - tabWidth)
     (getNormalizedScrollX el (Fin tabWidth) (Fin delta))
   /\ finite_within 0 (Container.scrollWidth c - Container.width c)
        (Container.calcSelectedTab_scrollX c)
   /\ finite_within 0 (Container.scrollWidth c - Container.width c)
        (Container.normalizeSelectedTab_scrollX c (Fin index)))
  /\ (F64.within PrimFloat.zero (PrimFloat.sub (F64.el_scrollWidth el64) width64)
        (F64.getNormalizedScrollX el64 width64 delta64)
      /\ F64.within PrimFloat.zero (PrimFloat.sub (F64.scrollWidth g) (F64.width g))
           (F64.calcSelectedTab_scrollX g)
      /\ F64.within PrimFloat.zero (PrimFloat.sub (F64.scrollWidth g) (F64.width g))
           (F64.normalizeSelectedTab_scrollX g index64)).
Proof.
  intros Hn Hw Hel Hcw Hcs Hel64 Hx Hg Hsl Hpos.
  assert (0 <= Container.width c) as Hw' by (rewrite Hcw; exact Hw).
  assert (Container.scrollWidth c == inject_Z tabCount * Container.width c) as Hcs'
    by (rewrite Hcw; exact Hcs).
  split; [split; [|split] | unfold F64.within; split; [|split]].
  - unfold getNormalizedScrollX.
    change (jadd (Fin (el_scrollLeft el)) (Fin delta))
      with (Fin (el_scrollLeft el + delta)).
    apply (clamp_within_maximum tabCount); assumption.
  - unfold Container.calcSelectedTab_scrollX.
    apply (clamp_within_maximum tabCount); assumption.
  - unfold Container.normalizeSelectedTab_scrollX.
    rewrite indexToPosition_fin.
    apply (clamp_within_maximum tabCount); assumption.
  - exact (f64_clamp_range _ _ Hel64 Hx).
  - exact (f64_clamp_range _ _ Hg Hsl).
  - exact (f64_clamp_range _ _ Hg Hpos).
Qed.

(** Four tabs of 300 pixels, an element scrolled to 250 and pulled back by
    500, a container dragged to 2000, and the position of tab 7; in double
    precision three tabs of 320.8 pixels, an element scrolled to 900 and
    pushed by another 100, a container dragged to 1000, and the position of
    tab 5. *)
Lemma normalized_offset_within_maximum_witness :
  (1 <= 4)%Z
  /\ 0 <= 300
  /\ el_scrollWidth {| el_scrollWidth := 1200; el_scrollLeft := 250 |} == inject_Z 4 * 300
  /\ Container.width (Sample.dragging 2000 0) == 300
  /\ Container.scrollWidth (Sample.dragging 2000 0) == inject_Z 4 * 300
  /\ PrimFloat.leb PrimFloat.zero
       (PrimFloat.sub (F64.el_scrollWidth SampleF64.three_tabs_el) SampleF64.w320_8)
     = true
  /\ PrimFloat.is_nan
       (PrimFloat.add (F64.el_scrollLeft SampleF64.three_tabs_el) (F64.of_Z 100)) = false
  /\ PrimFloat.leb PrimFloat.zero
       (PrimFloat.sub (F64.scrollWidth SampleF64.three_tabs)
          (F64.width SampleF64.three_tabs)) = true
  /\ PrimFloat.is_nan (F64.scrollLeft SampleF64.three_tabs) = false
  /\ PrimFloat.is_nan (F64.indexToPosition SampleF64.three_tabs (F64.of_Z 5)) = false
  /\ (finite_within 0
        (el_scrollWidth {| el_scrollWidth := 1200; el_scrollLeft := 250 |} - 300)
        (getNormalizedScrollX {| el_scrollWidth := 1200; el_scrollLeft := 250 |}
           (Fin 300) (Fin (-500)))
      /\ finite_within 0
           (Container.scrollWidth (Sample.dragging 2000 0)
            - Container.width (Sample.dragging 2000 0))
           (Container.calcSelectedTab_scrollX (Sample.dragging 2000 0))
      /\ finite_within 0
           (Container.scrollWidth (Sample.dragging 2000 0)
            - Container.width (Sample.dragging 2000 0))
           (Container.normalizeSelectedTab_scrollX (Sample.dragging 2000 0) (Fin 7)))
  /\ (F64.within PrimFloat.zero
        (PrimFloat.sub (F64.el_scrollWidth SampleF64.three_tabs_el) SampleF64.w320_8)
        (F64.getNormalizedScrollX SampleF64.three_tabs_el SampleF64.w320_8
           (F64.of_Z 100))
      /\ F64.within PrimFloat.zero
           (PrimFloat.sub (F64.scrollWidth SampleF64.three_tabs)
              (F64.width SampleF64.three_tabs))
           (F64.calcSelectedTab_scrollX SampleF64.three_tabs)
      /\ F64.within PrimFloat.zero
           (PrimFloat.sub (F64.scrollWidth SampleF64.three_tabs)
              (F64.width SampleF64.three_tabs))
           (F64.normalizeSelectedTab_scrollX SampleF64.three_tabs (F64.of_Z 5))).
Proof.
  split; [lia|]. split; [discriminate|].
  split; [reflexivity|]. split; [reflexivity|]. split; [reflexivity|].
  split; [vm_compute; reflexivity|]. split; [vm_compute; reflexivity|].
  split; [vm_compute; reflexivity|]. split; [vm_compute; reflexivity|].
  split; [vm_compute; reflexivity|].
  apply (normalized_offset_within_maximum 4 300 (-500) 7
           {| el_scrollWidth := 1200; el_scrollLeft := 250 |} (Sample.dragging 2000 0)
           SampleF64.three_tabs_el SampleF64.w320_8 (F64.of_Z 100) (F64.of_Z 5)
           SampleF64.three_tabs);
    first [lia | discriminate | reflexivity | vm_compute; reflexivity].
Defined.

(** C5 as claimed fails in double precision.  With three tabs of 320.8
    pixels and [scrollWidth = width * 3], an offset beyond the maximum is
    clamped to [scrollWidth - width], which is 641.6000000000001: above
    [(3 - 1) * 320.8 = 641.6], the upper end of the claimed interval, in all
    three functions.  The comparison is made in double precision and on
    the exact values of the doubles. *)
Lemma normalized_offset_exceeds_tab_span :
  exists w r : Q,
    F64.to_Q SampleF64.w320_8 = Some w
    /\ F64.to_Q (F64.calcSelectedTab_scrollX SampleF64.three_tabs) = Some r
    /\ F64.getNormalizedScrollX SampleF64.three_tabs_el SampleF64.w320_8 (F64.of_Z 100)
       = F64.calcSelectedTab_scrollX SampleF64.three_tabs
    /\ F64.normalizeSelectedTab_scrollX SampleF64.three_tabs (F64.of_Z 5)
       = F64.calcSelectedTab_scrollX SampleF64.three_tabs
    /\ F64.scrollWidth SampleF64.three_tabs
       = PrimFloat.mul (F64.width SampleF64.three_tabs) (F64.of_Z 3)
    /\ PrimFloat.ltb
         (PrimFloat.mul (F64.of_Z (3 - 1)) (F64.width SampleF64.three_tabs))
         (F64.calcSelectedTab_scrollX SampleF64.three_tabs) = true
    /\ 0 <= w
    /\ (inject_Z 3 - 1) * w < r.
Proof.
  eexists. eexists.
  split; [vm_compute; reflexivity|]. split; [vm_compute; reflexivity|].
  split; [vm_compute; reflexivity|]. split; [vm_compute; reflexivity|].
  split; [reflexivity|]. split; [vm_compute; reflexivity|].
  split; vm_compute; first [reflexivity | discriminate].
Qed.

(** Without a width every conversion is a division by zero.  The three
    functions below are total on numbers: they have no failing outcome, so
    the value they return is all there is to observe. *)
Lemma positionToIndex_zero_width (c : Container.Container) (p : Q) :
  Container.width c == 0 ->
  Container.positionToIndex c (Fin p) = inf_of (p ?= 0).
Proof.
  intros H. unfold Container.positionToIndex; simpl.
  rewrite Qeq_bool_true by assumption. reflexivity.
Qed.

Lemma normalizeSelectedTab_zero_width (c : Container.Container) (index : jsnum) :
  Container.width c == 0 -> Container.normalizeSelectedTab c index = NaN.
Proof.
  intros H. unfold Container.normalizeSelectedTab, Container.normalizeSelectedTab_scrollX.
  assert ((Container.width c ?= 0) = Eq) as Hc by (apply Qeq_alt; assumption).
  destruct index as [i| | |].
  - rewrite indexToPosition_fin.
    destruct (clamp_fin (Container.scrollWidth c + - Container.width c)
                (inject_Z (Qround (i * Container.width c * 10000)) / 10000))
      as [r [Hr Hq]].
    change (jsub (Fin (Container.scrollWidth c)) (Fin (Container.width c)))
      with (Fin (Container.scrollWidth c + - Container.width c)).
    rewrite Hr.
    assert (Qround (i * Container.width c * 10000) = 0%Z) as H0
      by (apply Qround_eq_Z; rewrite H; change (inject_Z 0) with 0; ring).
    rewrite H0 in Hq.
    assert (r == 0) as Hr0.
    { rewrite Hq. change (inject_Z 0 / 10000) with (0 / 10000).
      apply Q.max_l. eapply Qle_trans; [apply Q.le_min_r|]. discriminate. }
    simpl. rewrite Qeq_bool_true by assumption.
    apply Qeq_alt in Hr0. rewrite Hr0. reflexivity.
  - unfold Container.indexToPosition. simpl. rewrite Hc. reflexivity.
  - unfold Container.indexToPosition. simpl. rewrite Hc. reflexivity.
  - reflexivity.
Qed.

Lemma calcSelectedTab_zero_width (c : Container.Container) :
  Container.width c == 0 -> is_finite (Container.calcSelectedTab c) = false.
Proof.
  intros H. unfold Container.calcSelectedTab, Container.calcSelectedTab_scrollX.
  destruct (clamp_fin (Container.scrollWidth c + - Container.width c)
              (Container.scrollLeft c)) as [r [Hr Hq]].
  change (jsub (Fin (Container.scrollWidth c)) (Fin (Container.width c)))
    with (Fin (Container.scrollWidth c + - Container.width c)).
  rewrite Hr. rewrite positionToIndex_zero_width by assumption.
  destruct (r ?= 0); reflexivity.
Qed.

(** C4, as the code has it.  With a zero width the division is not guarded:
    [positionToIndex] returns NaN for the offset zero, plus infinity for a
    positive offset and minus infinity for a negative one; [calcSelectedTab]
    returns NaN or an infinity, never a finite index; [normalizeSelectedTab]
    returns NaN whatever the index. *)
Theorem zero_width_division_unguarded (c : Container.Container) :
  Container.width c == 0 ->
  (forall p : Q,
      Container.positionToIndex c (Fin p)
      = match p ?= 0 with Eq => NaN | Gt => PInf | Lt => NInf end)
  /\ is_finite (Container.calcSelectedTab c) = false
  /\ (forall index : jsnum, Container.normalizeSelectedTab c index = NaN).
Proof.
  intros H. split; [|split].
  - intros p. rewrite positionToIndex_zero_width by assumption.
    destruct (p ?= 0); reflexivity.
  - apply calcSelectedTab_zero_width. assumption.
  - intros index. apply normalizeSelectedTab_zero_width. assumption.
Qed.

Lemma zero_width_division_unguarded_witness :
  Container.width Container.initial == 0
  /\ (forall p : Q,
         Container.positionToIndex Container.initial (Fin p)
         = match p ?= 0 with Eq => NaN | Gt => PInf | Lt => NInf end)
  /\ is_finite (Container.calcSelectedTab Container.initial) = false
  /\ (forall index : jsnum,
         Container.normalizeSelectedTab Container.initial index = NaN).
Proof.
  split; [reflexivity|].
  apply (zero_width_division_unguarded Container.initial). reflexivity.
Defined.

(** C4 as claimed fails: on a container whose measured width is zero the
    conversions return NaN (or an infinity) as ordinary values, and a gesture
    commit runs to completion ([Some], no error) committing NaN as the active
    tab index and announcing it. *)
Lemma zero_width_returns_NaN :
  Container.width Sample.unmeasured == 0
  /\ Container.positionToIndex Sample.unmeasured (Fin 0) = NaN
  /\ Container.positionToIndex Sample.unmeasured (Fin 120) = PInf
  /\ Container.calcSelectedTab Sample.unmeasured = NaN
  /\ Container.normalizeSelectedTab Sample.unmeasured (Fin 1) = NaN
  /\ exists c' : Container.Container,
       Container.onTouchEnd {| x := 100; y := 10 |} 1150 Sample.unmeasured
       = Some (tt, c', [Container.ActiveTabIndexChange NaN;
                        Container.ScrollEl NaN None 150])
       /\ Container._activeTabIndex c' = Some NaN.
Proof.
  repeat (split; [reflexivity|]).
  eexists. split; reflexivity.
Qed.

(** The width the component works with is always a measured one:
    [updateWidth] is the only assignment to [width], and it stores a
    multiple of [0.0001]. *)
Lemma updateWidth_grid (boundingWidth : Q) (c : Container.Container) :
  Container.width (Container.updateWidth boundingWidth c)
  = inject_Z (Qround (boundingWidth * 10000)) / 10000.
Proof. reflexivity. Qed.

(** On a measured, non-zero width the position of an integer index is exact,
    and so is the way back. *)
Lemma roundtrip_exact (c : Container.Container) (k i : Z) :
  Container.width c == inject_Z k / 10000 ->
  ~ Container.width c == 0 ->
  exists q : Q,
    Container.positionToIndex c (Container.indexToPosition c (of_Z i)) = Fin q
    /\ q == inject_Z i.
Proof.
  intros Hk Hw. unfold of_Z. rewrite indexToPosition_fin.
  rewrite positionToIndex_fin by assumption.
  eexists. split; [reflexivity|].
  assert (Qround (inject_Z i * Container.width c * 10000) = (i * k)%Z) as Hr.
  { apply Qround_eq_Z. rewrite Hk, inject_Z_mult. field. }
  rewrite Hr, inject_Z_mult.
  assert (~ inject_Z k == 0) as Hk0.
  { intros E. apply Hw. rewrite Hk, E. reflexivity. }
  rewrite Hk. field. exact Hk0.
Qed.

(** C3.  With a positive measured width, converting an integer index of
    [[0, tabCount - 1]] to an offset and back gives the index again, to
    within [0.0001]. *)
Theorem index_offset_roundtrip
    (c : Container.Container) (boundingWidth : Q) (i : Z) :
  0 < Container.width (Container.updateWidth boundingWidth c) ->
  (0 <= i <= Z.of_nat (List.length (Container.tabs (Container.updateWidth boundingWidth c))) - 1)%Z ->
  exists q : Q,
    Container.positionToIndex (Container.updateWidth boundingWidth c)
      (Container.indexToPosition (Container.updateWidth boundingWidth c) (of_Z i))
    = Fin q
    /\ Qabs (q - inject_Z i) <= 0.0001.
Proof.
  intros Hpos _.
  destruct (roundtrip_exact (Container.updateWidth boundingWidth c)
              (Qround (boundingWidth * 10000)) i) as [q [Hq He]].
  - rewrite updateWidth_grid. reflexivity.
  - intros E. rewrite E in Hpos. discriminate.
  - exists q. split; [exact Hq|].
    assert (q - inject_Z i == 0) as H0 by (rewrite He; ring).
    rewrite H0. discriminate.
Qed.

Lemma index_offset_roundtrip_witness :
  0 < Container.width (Container.updateWidth (41142857 # 100000) (Sample.dragging 0 0))
  /\ (0 <= 3 <= Z.of_nat (List.length (Container.tabs
                 (Container.updateWidth (41142857 # 100000) (Sample.dragging 0 0)))) - 1)%Z
  /\ exists q : Q,
       Container.positionToIndex
         (Container.updateWidth (41142857 # 100000) (Sample.dragging 0 0))
         (Container.indexToPosition
            (Container.updateWidth (41142857 # 100000) (Sample.dragging 0 0)) (of_Z 3))
       = Fin q
       /\ Qabs (q - inject_Z 3) <= 0.0001.
Proof.
  split; [reflexivity|]. split; [simpl; lia|].
  apply (index_offset_roundtrip (Sample.dragging 0 0) (41142857 # 100000) 3).
  - reflexivity.
  - simpl; lia.
Defined.

(** ** Lazy loading *)

Lemma window_lower (a n : Z) :
  jge (of_Z n) (jsub (of_Z a) (Fin 1)) = (a - 1 <=? n)%Z.
Proof.
  unfold jge, jsub, of_Z.
  change (jadd (Fin (inject_Z a)) (jneg (Fin 1))) with (Fin (inject_Z a + - (1))).
  apply Bool.eq_iff_eq_true.
  rewrite jle_fin, Z.leb_le, Zle_Qle.
  unfold Z.sub. rewrite inject_Z_plus, inject_Z_opp. change (inject_Z 1) with 1.
  split; intros; lra.
Qed.

Lemma window_upper (a n : Z) :
  jle (of_Z n) (jadd (of_Z a) (Fin 1)) = (n <=? a + 1)%Z.
Proof.
  unfold of_Z.
  change (jadd (Fin (inject_Z a)) (Fin 1)) with (Fin (inject_Z a + 1)).
  apply Bool.eq_iff_eq_true.
  rewrite jle_fin, Z.leb_le, Zle_Qle.
  rewrite inject_Z_plus. change (inject_Z 1) with 1.
  split; intros; lra.
Qed.

Lemma lazyLoadLoop_nth (unload : bool) (a : Z) (ts : list Container.SuperTab) :
  forall (start : Z) (i : nat) (t : Container.SuperTab),
    nth_error ts i = Some t ->
    nth_error
      (Container.lazyLoadLoop unload (jsub (of_Z a) (Fin 1)) (jadd (of_Z a) (Fin 1))
         start ts) i
    = Some {| Container.loaded :=
                ((a - 1 <=? start + Z.of_nat i) && (start + Z.of_nat i <=? a + 1))%Z
                || (if unload then false else Container.loaded t);
              Container.visible :=
                ((a - 1 <=? start + Z.of_nat i) && (start + Z.of_nat i <=? a + 1))%Z |}.
Proof.
  induction ts as [|tab rest IH]; intros start i t Hnth.
  - destruct i; discriminate.
  - destruct i as [|i]; simpl in Hnth;
      cbn [Container.lazyLoadLoop nth_error].
    + injection Hnth as ->.
      rewrite window_lower, window_upper.
      change (Z.of_nat 0) with 0%Z. rewrite Z.add_0_r. reflexivity.
    + rewrite (IH (start + 1)%Z i t Hnth).
      replace (start + 1 + Z.of_nat i)%Z with (start + Z.pos (Pos.of_succ_nat i))%Z
        by lia.
      reflexivity.
Qed.

(** C7.  After [lazyLoadTabs] has run for the active index [a]: with
    [lazyLoad] on, tab [i] is visible exactly when [a - 1 <= i <= a + 1],
    a visible tab is loaded, and a tab outside the window is unloaded when
    [unloadWhenInvisible] is on and keeps its previous [loaded] flag
    otherwise; with [lazyLoad] off every tab ends loaded and visible. *)
Theorem lazyLoadTabs_window
    (c : Container.Container) (cfg : SuperTabsConfig) (a : Z)
    (i : nat) (t : Container.SuperTab) :
  Container.config c = Some cfg ->
  Container._activeTabIndex c = Some (of_Z a) ->
  nth_error (Container.tabs c) i = Some t ->
  exists t' : Container.SuperTab,
    nth_error (Container.tabs (Container.lazyLoadTabs c)) i = Some t'
    /\ if lazyLoad cfg
       then Container.visible t' = ((a - 1 <=? Z.of_nat i) && (Z.of_nat i <=? a + 1))%Z
            /\ (Container.visible t' = true -> Container.loaded t' = true)
            /\ (Container.visible t' = false ->
                Container.loaded t'
                = if unloadWhenInvisible cfg then false else Container.loaded t)
       else Container.loaded t' = true /\ Container.visible t' = true.
Proof.
  intros Hcfg Hact Hnth. unfold Container.lazyLoadTabs. rewrite Hact, Hcfg.
  destruct (lazyLoad cfg); cbn [negb Container.tabs Container.set_tabs].
  - rewrite (lazyLoadLoop_nth (unloadWhenInvisible cfg) a (Container.tabs c) 0 i t Hnth).
    eexists. split; [reflexivity|].
    cbn [Container.visible Container.loaded Z.add].
    split; [reflexivity|]. split; intros ->; reflexivity.
  - rewrite nth_error_map, Hnth.
    eexists. split; [reflexivity|]. split; reflexivity.
Qed.

Lemma lazyLoadTabs_window_witness :
  Container.config (Sample.lazy_six false) = Some (Sample.lazy_config false)
  /\ Container._activeTabIndex (Sample.lazy_six false) = Some (of_Z 3)
  /\ nth_error (Container.tabs (Sample.lazy_six false)) 5
     = Some {| Container.loaded := true; Container.visible := true |}
  /\ exists t' : Container.SuperTab,
       nth_error (Container.tabs (Container.lazyLoadTabs (Sample.lazy_six false))) 5
       = Some t'
       /\ if lazyLoad (Sample.lazy_config false)
          then Container.visible t' = ((3 - 1 <=? Z.of_nat 5) && (Z.of_nat 5 <=? 3 + 1))%Z
               /\ (Container.visible t' = true -> Container.loaded t' = true)
               /\ (Container.visible t' = false ->
                   Container.loaded t'
                   = if unloadWhenInvisible (Sample.lazy_config false) then false
                     else Container.loaded
                            {| Container.loaded := true; Container.visible := true |})
          else Container.loaded t' = true /\ Container.visible t' = true.
Proof.
  split; [reflexivity|]. split; [reflexivity|]. split; [reflexivity|].
  apply (lazyLoadTabs_window (Sample.lazy_six false) (Sample.lazy_config false) 3 5
           {| Container.loaded := true; Container.visible := true |});
    reflexivity.
Defined.

(** The lazy window of the design text: with tab 3 active, tabs 2, 3 and 4
    are visible and tab 5 is not; tab 5 stays loaded unless
    [unloadWhenInvisible] is set. *)
Example lazy_window_around_3 :
  map Container.visible (Container.tabs (Container.lazyLoadTabs (Sample.lazy_six false)))
  = [false; false; true; true; true; false]
  /\ map Container.loaded (Container.tabs (Container.lazyLoadTabs (Sample.lazy_six false)))
     = [true; true; true; true; true; true]
  /\ map Container.loaded (Container.tabs (Container.lazyLoadTabs (Sample.lazy_six true)))
     = [false; false; true; true; true; false].
Proof. repeat split; reflexivity. Qed.

(** ** The selected-index notification *)

Lemma updateSelectedTabIndex_step (index : jsnum) (c : Container.Container) :
  Container.updateSelectedTabIndex index c
  = Some (tt,
          (if Container.strict_eq index (Container._selectedTabIndex c)
           then c
           else Container.set_selectedTabIndex (Some index) c),
          (if Container.strict_eq index (Container._selectedTabIndex c)
           then []
           else [Container.SelectedTabIndexChange index])).
Proof.
  unfold Container.updateSelectedTabIndex, Container.bind, Container.get.
  destruct (Container.strict_eq index (Container._selectedTabIndex c)); reflexivity.
Qed.

(** On anything but a NaN, [===] is equality of value. *)
Lemma strict_eq_same_value (a : jsnum) (b : option jsnum) :
  is_NaN a = false -> (Container.strict_eq a b = true <-> same_value a b).
Proof.
  intros Ha. destruct b as [v|]; cbn [Container.strict_eq same_value];
    [|split; [discriminate | contradiction]].
  destruct a as [p| | |], v as [q| | |]; try discriminate Ha;
    unfold jeq; cbn [jcmp equiv];
    try (split; [discriminate | contradiction]);
    try (split; [intros _; exact I | reflexivity]).
  destruct (Qcompare_spec p q) as [E|E|E]; split; intros H;
    try discriminate; try reflexivity; try exact E; lra.
Qed.

Lemma updateSelectedTabIndex_all_no_repeat (calls : list jsnum) :
  Forall (fun v => is_NaN v = false) calls ->
  forall c : Container.Container,
  exists (c' : Container.Container) (o : list Container.Output),
    updateSelectedTabIndex_all calls c = Some (tt, c', o)
    /\ no_repeat (Container._selectedTabIndex c) (selectedTabIndexChanges o).
Proof.
  induction 1 as [|index rest Hindex Hrest IH]; intros c.
  - exists c, []. split; [reflexivity | exact I].
  - cbn [updateSelectedTabIndex_all]. unfold Container.bind.
    rewrite updateSelectedTabIndex_step.
    destruct (Container.strict_eq index (Container._selectedTabIndex c)) eqn:E.
    + destruct (IH c) as [c' [o [Hrun Hno]]]. rewrite Hrun.
      exists c', o. split; [reflexivity | exact Hno].
    + destruct (IH (Container.set_selectedTabIndex (Some index) c))
        as [c' [o [Hrun Hno]]].
      rewrite Hrun. exists c', (Container.SelectedTabIndexChange index :: o).
      split; [reflexivity|]. simpl. split; [|exact Hno].
      intros Hsame. apply (strict_eq_same_value index _ Hindex) in Hsame.
      congruence.
Qed.

(** C10, as the code has it.  For an [index] that is not NaN,
    [updateSelectedTabIndex(index)] does nothing (no event, state untouched)
    when [index] is the stored selected index, and otherwise stores [index]
    and emits it exactly once; hence, over any run of calls none of which is
    NaN, from any state, no [selectedTabIndexChange] value is the value
    emitted just before it, nor is the first one the index stored at the
    start. *)
Theorem selectedTabIndexChange_never_repeats
    (c : Container.Container) (index : jsnum) (calls : list jsnum) :
  is_NaN index = false ->
  Forall (fun v => is_NaN v = false) calls ->
  (same_value index (Container._selectedTabIndex c) ->
   Container.updateSelectedTabIndex index c = Some (tt, c, []))
  /\ (~ same_value index (Container._selectedTabIndex c) ->
      Container.updateSelectedTabIndex index c
      = Some (tt, Container.set_selectedTabIndex (Some index) c,
              [Container.SelectedTabIndexChange index]))
  /\ exists (c' : Container.Container) (o : list Container.Output),
       updateSelectedTabIndex_all calls c = Some (tt, c', o)
       /\ no_repeat (Container._selectedTabIndex c) (selectedTabIndexChanges o).
Proof.
  intros Hindex Hcalls.
  pose proof (strict_eq_same_value index (Container._selectedTabIndex c) Hindex) as Heq.
  split; [|split].
  - intros Hsame. apply Heq in Hsame.
    rewrite updateSelectedTabIndex_step, Hsame. reflexivity.
  - intros Hdiff. rewrite updateSelectedTabIndex_step.
    destruct (Container.strict_eq index (Container._selectedTabIndex c));
      [exfalso; apply Hdiff, Heq; reflexivity | reflexivity].
  - apply updateSelectedTabIndex_all_no_repeat. exact Hcalls.
Qed.

Lemma selectedTabIndexChange_never_repeats_witness :
  is_NaN (Fin 0.5) = false
  /\ Forall (fun v => is_NaN v = false) [Fin 0.25; Fin (1 # 4); Fin 0.5; Fin 0.50]
  /\ (same_value (Fin 0.5) (Container._selectedTabIndex Container.initial) ->
      Container.updateSelectedTabIndex (Fin 0.5) Container.initial
      = Some (tt, Container.initial, []))
  /\ (~ same_value (Fin 0.5) (Container._selectedTabIndex Container.initial) ->
      Container.updateSelectedTabIndex (Fin 0.5) Container.initial
      = Some (tt, Container.set_selectedTabIndex (Some (Fin 0.5)) Container.initial,
              [Container.SelectedTabIndexChange (Fin 0.5)]))
  /\ exists (c' : Container.Container) (o : list Container.Output),
       updateSelectedTabIndex_all [Fin 0.25; Fin (1 # 4); Fin 0.5; Fin 0.50]
         Container.initial
       = Some (tt, c', o)
       /\ no_repeat (Container._selectedTabIndex Container.initial)
            (selectedTabIndexChanges o).
Proof.
  split; [reflexivity|]. split; [repeat constructor|].
  apply (selectedTabIndexChange_never_repeats Container.initial (Fin 0.5)
           [Fin 0.25; Fin (1 # 4); Fin 0.5; Fin 0.50]).
  - reflexivity.
  - repeat constructor.
Defined.

(** C10 as claimed fails on NaN, which [===] does not hold equal to itself.
    On a container whose width is still zero the fractional index is
    [0 / 0]; two touch moves in a row report it, and both calls store it
    and emit it: the same value is notified twice in a row. *)
Lemma selectedTabIndexChange_repeats_nan :
  Container.calcSelectedTab Sample.unmeasured = NaN
  /\ same_value NaN (Some NaN)
  /\ Container.updateSelectedTabIndex NaN
       (Container.set_selectedTabIndex (Some NaN) Sample.unmeasured)
     = Some (tt, Container.set_selectedTabIndex (Some NaN) Sample.unmeasured,
             [Container.SelectedTabIndexChange NaN])
  /\ option_map (fun r => selectedTabIndexChanges (snd r))
       (updateSelectedTabIndex_all
          [Container.calcSelectedTab Sample.unmeasured;
           Container.calcSelectedTab Sample.unmeasured] Sample.unmeasured)
     = Some [NaN; NaN]
  /\ ~ no_repeat (Container._selectedTabIndex Sample.unmeasured) [NaN; NaN].
Proof.
  split; [reflexivity|]. split; [exact I|]. split; [reflexivity|].
  split; [reflexivity|].
  intros [_ [H _]]. apply H. exact I.
Qed.

(** A drag that reports 0.25, 0.25, 0.5, 0.5 and 0.25: three events. *)
Example selectedTabIndexChange_run :
  option_map (fun r => selectedTabIndexChanges (snd r))
    (updateSelectedTabIndex_all
       [Fin 0.25; Fin (1 # 4); Fin 0.5; Fin 0.50; Fin 0.25] Container.initial)
  = Some [Fin 0.25; Fin 0.5; Fin 0.25].
Proof. reflexivity. Qed.

(** ** The root component: selection and change events *)

Lemma deliver_one_quiet (s : Tabs.SuperTabs) (o : Container.Output) :
  is_activeTabIndexChange o = false ->
  Tabs.tabChange (Tabs.deliver_one s o) = Tabs.tabChange s
  /\ Tabs.activeTabIndex (Tabs.deliver_one s o) = Tabs.activeTabIndex s
  /\ Tabs.toolbar (Tabs.deliver_one s o) = Tabs.toolbar s
  /\ Tabs.container (Tabs.deliver_one s o) = Tabs.container s.
Proof.
  intros H. destruct o; try discriminate; unfold Tabs.deliver_one;
    cbn [Tabs.add_outputs Tabs.listensContainer];
    try destruct (Tabs.listensContainer s); repeat split; reflexivity.
Qed.

Lemma deliver_quiet (o : list Container.Output) :
  forall s : Tabs.SuperTabs,
    forallb (fun e => negb (is_activeTabIndexChange e)) o = true ->
    Tabs.tabChange (Tabs.deliver o s) = Tabs.tabChange s
    /\ Tabs.activeTabIndex (Tabs.deliver o s) = Tabs.activeTabIndex s
    /\ Tabs.toolbar (Tabs.deliver o s) = Tabs.toolbar s
    /\ Tabs.container (Tabs.deliver o s) = Tabs.container s.
Proof.
  induction o as [|e rest IH]; intros s H.
  - repeat split; reflexivity.
  - simpl in H. apply andb_true_iff in H. destruct H as [He Hrest].
    apply negb_true_iff in He.
    destruct (deliver_one_quiet s e He) as [A [B [C D]]].
    destruct (IH (Tabs.deliver_one s e) Hrest) as [A' [B' [C' D']]].
    unfold Tabs.deliver in *. cbn [fold_left].
    rewrite A', B', C', D'. repeat split; assumption.
Qed.

(** Unfolds a container method down to the monad and splits on every test
    it performs. *)
Ltac run_method :=
  unfold Container.setActiveTabIndex, Container.scrollToTop,
    Container.moveContainerByIndex, Container.moveContainer,
    Container.updateActiveTabIndex, Container.bind, Container.get,
    Container.theConfig, Container.theInitialCoords, Container.modify,
    Container.out, Container.ret;
  repeat (cbn beta iota zeta
            delta [Container.config Container.set_activeTabIndex
                   Container._activeTabIndex Container.autoScrollTop app];
          match goal with
          | E : ?x = _ |- context [match ?x with _ => _ end] => rewrite E
          | |- context [match ?x with _ => _ end] =>
              lazymatch x with
              | context [match _ with _ => _ end] => fail
              | _ => destruct x eqn:?
              end
          end).

(** [setActiveTabIndex] announces nothing: it calls [updateActiveTabIndex]
    with [emit = false]. *)
Lemma setActiveTabIndex_quiet
    (index : jsnum) (move animate : bool) (c c' : Container.Container)
    (u : unit) (o : list Container.Output) :
  Container.setActiveTabIndex index move animate c = Some (u, c', o) ->
  forallb (fun e => negb (is_activeTabIndexChange e)) o = true.
Proof.
  run_method; intros H; try discriminate; inversion H; reflexivity.
Qed.

(** It completes as soon as the container has a configuration. *)
Lemma setActiveTabIndex_total
    (index : jsnum) (move animate : bool) (c : Container.Container) :
  Container.config c <> None ->
  exists (c' : Container.Container) (o : list Container.Output),
    Container.setActiveTabIndex index move animate c = Some (tt, c', o).
Proof.
  run_method; intros Hcfg; try (exfalso; apply Hcfg; reflexivity);
    eexists; eexists; reflexivity.
Qed.

Lemma jlt_false_of_nonneg (q : Q) : 0 <= q -> jlt (Fin q) (Fin 0) = false.
Proof.
  intros H. destruct (jlt (Fin q) (Fin 0)) eqn:E; [|reflexivity].
  apply jlt_fin in E. lra.
Qed.

Lemma emitTabChangeEvent_same (s : Tabs.SuperTabs) (i : Z) (last : jsnum) :
  (0 <= i)%Z ->
  jeq last (of_Z i) = true ->
  Tabs.emitTabChangeEvent (of_Z i) (Some last) s
  = Tabs.emit_tabChange {| Tabs.changed := false; Tabs.index := of_Z i |} s.
Proof.
  intros Hi Heq. unfold Tabs.emitTabChangeEvent, of_Z in *.
  assert (0 <= inject_Z i) as Hq
    by (rewrite Zle_Qle in Hi; exact Hi).
  rewrite (jlt_false_of_nonneg _ Hq).
  destruct last as [q| | |]; try discriminate.
  apply jeq_fin in Heq.
  rewrite jlt_false_of_nonneg by (rewrite Heq; exact Hq).
  assert (jeq (Fin (inject_Z i)) (Fin q) = true) as Hsym
    by (apply jeq_fin; symmetry; exact Heq).
  rewrite Hsym. reflexivity.
Qed.

(** Whatever the arguments, [selectTab] ends by writing back the index it
    read at its start. *)
Lemma selectTab_activeTabIndex
    (index : jsnum) (animate emit : bool) (s s' : Tabs.SuperTabs) :
  Tabs.selectTab index animate emit s = Some s' ->
  Tabs.activeTabIndex s' = Tabs.activeTabIndex s.
Proof.
  unfold Tabs.selectTab.
  destruct (Tabs.container (Tabs.debug "selectTab" s)) as [c|].
  - destruct (Container.setActiveTabIndex index true animate c) as [[[u c'] o]|];
      [|discriminate].
    intros H. injection H as <-. reflexivity.
  - intros H. injection H as <-. reflexivity.
Qed.

(** The two handlers that also commit a tab do store the new index. *)
Lemma onContainerActiveTabChange_activeTabIndex (index : jsnum) (s : Tabs.SuperTabs) :
  Tabs.activeTabIndex (Tabs.onContainerActiveTabChange index s) = index.
Proof. reflexivity. Qed.

(** C1, on the code.  From the initialised component on tab 0,
    [selectTab(1, true, true)] moves both children to tab 1 and announces
    [{index: 1, changed: true}], yet the component's own [activeTabIndex]
    is 0 afterwards: the last statement assigns [lastIndex], not [index]. *)
Theorem selectTab_1_leaves_activeTabIndex_0 :
  Tabs.activeTabIndex Sample.root = Fin 0
  /\ exists s' : Tabs.SuperTabs,
       Tabs.selectTab (Fin 1) true true Sample.root = Some s'
       /\ Tabs.activeTabIndex s' = Fin 0
       /\ option_map Container._activeTabIndex (Tabs.container s') = Some (Some (Fin 1))
       /\ option_map Toolbar.activeTabIndex (Tabs.toolbar s') = Some (Fin 1)
       /\ Tabs.tabChange s' = [{| Tabs.changed := true; Tabs.index := Fin 1 |}].
Proof.
  split; [reflexivity|].
  eexists. split; [reflexivity|]. repeat split; reflexivity.
Qed.

(** C2.  When [i] is a non-negative integer equal to the current active
    index, [selectTab(i, animate, true)] emits exactly one [tabChange], with
    payload [{index: i, changed: false}]: this is what every completed call
    does, and the call completes whenever the container (if any) has
    received its configuration. *)
Theorem selectTab_same_index_emits_unchanged
    (s : Tabs.SuperTabs) (i : Z) (animate : bool) :
  (0 <= i)%Z ->
  jeq (Tabs.activeTabIndex s) (of_Z i) = true ->
  (forall s' : Tabs.SuperTabs,
      Tabs.selectTab (of_Z i) animate true s = Some s' ->
      Tabs.tabChange s'
      = Tabs.tabChange s ++ [{| Tabs.changed := false; Tabs.index := of_Z i |}])
  /\ (container_configured s ->
      exists s' : Tabs.SuperTabs, Tabs.selectTab (of_Z i) animate true s = Some s').
Proof.
  intros Hi Hact. split.
  - intros s'. unfold Tabs.selectTab.
    change (Tabs.container (Tabs.debug "selectTab" s)) with (Tabs.container s).
    change (Tabs.activeTabIndex (Tabs.debug "selectTab" s))
      with (Tabs.activeTabIndex s).
    destruct (Tabs.container s) as [c|].
    + destruct (Container.setActiveTabIndex (of_Z i) true animate c)
        as [[[u c'] o]|] eqn:E; [|discriminate].
      pose proof (setActiveTabIndex_quiet _ _ _ _ _ _ _ E) as Hq.
      destruct (deliver_quiet o
                  (Tabs.set_container (Some c') (Tabs.debug "selectTab" s)) Hq)
        as [A _].
      intros H. injection H as <-.
      rewrite emitTabChangeEvent_same by assumption.
      cbn [Tabs.tabChange Tabs.set_activeTabIndex Tabs.emit_tabChange Tabs.set_toolbar].
      rewrite A. reflexivity.
    + intros H. injection H as <-.
      rewrite emitTabChangeEvent_same by assumption. reflexivity.
  - intros Hcfg. unfold Tabs.selectTab.
    change (Tabs.container (Tabs.debug "selectTab" s)) with (Tabs.container s).
    destruct (Tabs.container s) as [c|] eqn:Ec.
    + destruct (setActiveTabIndex_total (of_Z i) true animate c (Hcfg c Ec))
        as [c' [o E]].
      rewrite E. eexists. reflexivity.
    + eexists. reflexivity.
Qed.

Lemma indexChildren_configured
    (foundContainer : option Container.Container)
    (foundToolbar : option Toolbar.Toolbar) (s : Tabs.SuperTabs) :
  container_configured (Tabs.indexChildren foundContainer foundToolbar s).
Proof.
  unfold container_configured, Tabs.indexChildren, Tabs.propagateConfig.
  intros c. destruct foundContainer, foundToolbar; cbn;
    destruct (Tabs.container s); cbn; intros H; try discriminate;
    injection H as <-; discriminate.
Qed.

Lemma selectTab_same_index_emits_unchanged_witness :
  (0 <= 0)%Z
  /\ jeq (Tabs.activeTabIndex Sample.root) (of_Z 0) = true
  /\ (forall s' : Tabs.SuperTabs,
         Tabs.selectTab (of_Z 0) true true Sample.root = Some s' ->
         Tabs.tabChange s'
         = Tabs.tabChange Sample.root
           ++ [{| Tabs.changed := false; Tabs.index := of_Z 0 |}])
  /\ (container_configured Sample.root ->
      exists s' : Tabs.SuperTabs,
        Tabs.selectTab (of_Z 0) true true Sample.root = Some s').
Proof.
  split; [lia|]. split; [reflexivity|].
  apply (selectTab_same_index_emits_unchanged Sample.root 0 true).
  - lia.
  - reflexivity.
Defined.

(** The sample component is configured, and the call above does complete
    with that single event. *)
Example selectTab_0_on_tab_0 :
  container_configured Sample.root
  /\ option_map Tabs.tabChange (Tabs.selectTab (of_Z 0) true true Sample.root)
     = Some [{| Tabs.changed := false; Tabs.index := of_Z 0 |}].
Proof.
  split.
  - intros c H. injection H as <-. discriminate.
  - reflexivity.
Qed.

(** ** The root component: waiting for the container *)

Lemma finishInit_resolved (s : Tabs.SuperTabs) :
  Tabs.initResolved (Tabs.finishInit s) = true.
Proof. reflexivity. Qed.

Lemma finishInit_initAttempts_no_container (s : Tabs.SuperTabs) :
  Tabs.container s = None ->
  Tabs.initAttempts (Tabs.finishInit s) = Tabs.initAttempts s
  /\ exists tail : list Tabs.DebugCall,
       Tabs.log (Tabs.finishInit s) = Tabs.log s ++ tail.
Proof.
  intros H. unfold Tabs.finishInit, Tabs.setupEventListeners, Tabs.propagateConfig.
  rewrite H.
  destruct (jgt (Tabs.activeTabIndex s) (Fin 0));
    destruct (Tabs.toolbar s) eqn:Et;
    cbn; rewrite ?H, ?Et; cbn; (split; [reflexivity|]);
    rewrite <- ?app_assoc; eexists; reflexivity.
Qed.

(** One run of [initComponent] that finds no container and has used up its
    retries does not ask for another frame: it logs and finishes. *)
Lemma initComponent_exhausted (s : Tabs.SuperTabs) :
  Tabs.container s = None ->
  (Tabs.maxInitRetries <= Tabs.initAttempts s)%Z ->
  snd (Tabs.initComponent s) = false
  /\ Tabs.initResolved (fst (Tabs.initComponent s)) = true
  /\ Tabs.initAttempts (fst (Tabs.initComponent s)) = (Tabs.initAttempts s + 1)%Z
  /\ In {| Tabs.message := "container still doesn't exists after 1000 frames";
           Tabs.printed := Utils.debug (Tabs._config s) |}
        (Tabs.log (fst (Tabs.initComponent s))).
Proof.
  intros Hc Hn. unfold Tabs.initComponent. rewrite Hc.
  cbn [Tabs.initAttempts Tabs.set_initAttempts].
  destruct (Z.leb_spec (Tabs.initAttempts s + 1) Tabs.maxInitRetries) as [L|L];
    [lia|].
  cbn [fst snd]. split; [reflexivity|]. split; [reflexivity|].
  destruct (finishInit_initAttempts_no_container
              (Tabs.debug "container still doesn't exists after 1000 frames"
                 (Tabs.set_initAttempts (Tabs.initAttempts s + 1) s)) Hc)
    as [Ha [tail Hl]].
  split; [exact Ha|].
  rewrite Hl. apply in_or_app. left. apply in_or_app. right. left. reflexivity.
Qed.

(** The chain of frames ends, after at most the retries that are left. *)
Lemma initFrames_terminates (between : nat -> Tabs.SuperTabs -> Tabs.SuperTabs) :
  (forall k t, Tabs.initAttempts (between k t) = Tabs.initAttempts t) ->
  forall (fuel frame : nat) (s : Tabs.SuperTabs),
    (0 < fuel)%nat ->
    (Tabs.maxInitRetries - Tabs.initAttempts s < Z.of_nat fuel)%Z ->
    exists (s' : Tabs.SuperTabs) (n : nat),
      Tabs.initFrames between fuel frame s = Some (s', n)
      /\ (Z.of_nat n <= Z.max 0 (Tabs.maxInitRetries - Tabs.initAttempts s))%Z
      /\ Tabs.initResolved s' = true.
Proof.
  intros Hb. induction fuel as [|fuel IH]; intros frame s Hpos Hfuel; [lia|].
  cbn [Tabs.initFrames]. unfold Tabs.initComponent.
  destruct (Tabs.container s) as [c|] eqn:Ec.
  - exists (Tabs.finishInit s), O. split; [reflexivity|]. split; [lia | reflexivity].
  - cbn [Tabs.initAttempts Tabs.set_initAttempts].
    destruct (Z.leb_spec (Tabs.initAttempts s + 1) Tabs.maxInitRetries) as [L|L].
    + destruct (IH (S frame)
                  (between frame (Tabs.set_initAttempts (Tabs.initAttempts s + 1) s)))
        as [s' [n [Hrun [Hn Hres]]]].
      * lia.
      * rewrite Hb. cbn [Tabs.initAttempts Tabs.set_initAttempts]. lia.
      * rewrite Hrun. exists s', (S n). split; [reflexivity|].
        rewrite Hb in Hn. cbn [Tabs.initAttempts Tabs.set_initAttempts] in Hn.
        split; [lia | exact Hres].
    + eexists. exists O. split; [reflexivity|]. split; [lia | reflexivity].
Qed.

(** While the container stays away and the configuration stays the same,
    every retry is used, and the last run hands the diagnostic to [debug]. *)
Lemma initFrames_exhausts (between : nat -> Tabs.SuperTabs -> Tabs.SuperTabs) :
  (forall k t, Tabs.initAttempts (between k t) = Tabs.initAttempts t) ->
  (forall k t, Tabs.container (between k t) = Tabs.container t) ->
  (forall k t, Tabs._config (between k t) = Tabs._config t) ->
  forall (fuel frame : nat) (s s' : Tabs.SuperTabs) (n : nat),
    Tabs.container s = None ->
    (0 <= Tabs.initAttempts s <= Tabs.maxInitRetries)%Z ->
    Tabs.initFrames between fuel frame s = Some (s', n) ->
    Z.of_nat n = (Tabs.maxInitRetries - Tabs.initAttempts s)%Z
    /\ Tabs.initAttempts s' = (Tabs.maxInitRetries + 1)%Z
    /\ In {| Tabs.message := "container still doesn't exists after 1000 frames";
             Tabs.printed := Utils.debug (Tabs._config s) |} (Tabs.log s').
Proof.
  intros Hb Hc Hcfg.
  induction fuel as [|fuel IH]; intros frame s s' n Hs Ha Hrun; [discriminate|].
  cbn [Tabs.initFrames] in Hrun.
  destruct (Z.eq_dec (Tabs.initAttempts s) Tabs.maxInitRetries) as [E|E].
  - destruct (initComponent_exhausted s Hs) as [H1 [_ [H3 H4]]]; [lia|].
    destruct (Tabs.initComponent s) as [s1 again]. cbn [fst snd] in *.
    subst again. injection Hrun as <- <-.
    split; [lia|]. split; [lia | exact H4].
  - unfold Tabs.initComponent in Hrun. rewrite Hs in Hrun.
    cbn [Tabs.initAttempts Tabs.set_initAttempts] in Hrun.
    destruct (Z.leb_spec (Tabs.initAttempts s + 1) Tabs.maxInitRetries) as [L|L];
      [|lia].
    destruct (Tabs.initFrames between fuel (S frame)
                (between frame (Tabs.set_initAttempts (Tabs.initAttempts s + 1) s)))
      as [[s2 m]|] eqn:Erun; [|discriminate].
    injection Hrun as <- <-.
    apply IH in Erun.
    + rewrite Hb, Hcfg in Erun.
      cbn [Tabs.initAttempts Tabs._config Tabs.set_initAttempts] in Erun.
      destruct Erun as [A [B C]]. split; [lia|]. split; [exact B | exact C].
    + rewrite Hc. exact Hs.
    + rewrite Hb. cbn [Tabs.initAttempts Tabs.set_initAttempts]. lia.
Qed.

(** C9, as the code has it.  Started by [componentDidLoad] (no attempt made
    yet), the retry loop of [initComponent] re-schedules itself at most
    [maxInitRetries] = 1000 times, whatever happens between the frames, and
    then stops: 1001 runs always suffice for the initialisation to finish
    and resolve [initPromise].  If the container is absent throughout and
    the configuration is left alone, all 1000 re-schedulings are used, and
    the run that finds the attempt count above the bound hands the
    diagnostic to [debug], which prints it exactly when the [debug] option
    of the configuration is set. *)
Theorem initComponent_retries_bounded
    (between : nat -> Tabs.SuperTabs -> Tabs.SuperTabs) (s : Tabs.SuperTabs) :
  (forall k t, Tabs.initAttempts (between k t) = Tabs.initAttempts t) ->
  Tabs.initAttempts s = 0%Z ->
  exists (s' : Tabs.SuperTabs) (n : nat),
    Tabs.initFrames between (S (Z.to_nat Tabs.maxInitRetries)) 0 s = Some (s', n)
    /\ (n <= Z.to_nat Tabs.maxInitRetries)%nat
    /\ Tabs.initResolved s' = true
    /\ ((forall k t, Tabs.container (between k t) = Tabs.container t) ->
        (forall k t, Tabs._config (between k t) = Tabs._config t) ->
        Tabs.container s = None ->
        n = Z.to_nat Tabs.maxInitRetries
        /\ Tabs.initAttempts s' = (Tabs.maxInitRetries + 1)%Z
        /\ In {| Tabs.message := "container still doesn't exists after 1000 frames";
                 Tabs.printed := Utils.debug (Tabs._config s) |} (Tabs.log s')).
Proof.
  intros Hb H0.
  destruct (initFrames_terminates between Hb (S (Z.to_nat Tabs.maxInitRetries)) 0 s)
    as [s' [n [Hrun [Hn Hres]]]].
  - lia.
  - rewrite H0. unfold Tabs.maxInitRetries. lia.
  - exists s', n. split; [exact Hrun|].
    rewrite H0 in Hn.
    split; [unfold Tabs.maxInitRetries in *; lia|]. split; [exact Hres|].
    intros Hc Hcfg Hs.
    destruct (initFrames_exhausts between Hb Hc Hcfg
                (S (Z.to_nat Tabs.maxInitRetries)) 0 s s' n Hs) as [A [B C]].
    + rewrite H0. unfold Tabs.maxInitRetries. lia.
    + exact Hrun.
    + rewrite H0 in A.
      split; [unfold Tabs.maxInitRetries in *; lia|]. split; [exact B | exact C].
Qed.

(** With the [debug] option set and nothing else going on, the diagnostic
    is printed. *)
Lemma initComponent_retries_bounded_witness :
  (forall (k : nat) (t : Tabs.SuperTabs),
      Tabs.initAttempts ((fun (_ : nat) (u : Tabs.SuperTabs) => u) k t)
      = Tabs.initAttempts t)
  /\ Tabs.initAttempts Sample.debugging = 0%Z
  /\ exists (s' : Tabs.SuperTabs) (n : nat),
       Tabs.initFrames (fun _ u => u) (S (Z.to_nat Tabs.maxInitRetries)) 0
         Sample.debugging
       = Some (s', n)
       /\ (n <= Z.to_nat Tabs.maxInitRetries)%nat
       /\ Tabs.initResolved s' = true
       /\ ((forall k t, Tabs.container ((fun (_ : nat) (u : Tabs.SuperTabs) => u) k t)
                        = Tabs.container t) ->
           (forall k t, Tabs._config ((fun (_ : nat) (u : Tabs.SuperTabs) => u) k t)
                        = Tabs._config t) ->
           Tabs.container Sample.debugging = None ->
           n = Z.to_nat Tabs.maxInitRetries
           /\ Tabs.initAttempts s' = (Tabs.maxInitRetries + 1)%Z
           /\ In {| Tabs.message := "container still doesn't exists after 1000 frames";
                    Tabs.printed := true |} (Tabs.log s')).
Proof.
  split; [intros k t; reflexivity|]. split; [reflexivity|].
  apply (initComponent_retries_bounded (fun _ u => u) Sample.debugging).
  - intros k t. reflexivity.
  - reflexivity.
Defined.

(** C9 as claimed fails under the default configuration, whose [debug]
    option is off: a component that never finds its container stops after
    the 1000 re-schedulings, its attempt count at 1001, and resolves
    [initPromise], but [debugLog] has returned before printing: every call
    of [debug] the component made went unprinted. *)
Lemma initComponent_default_logs_nothing :
  Utils.debug (Tabs._config Tabs.initial) = false
  /\ exists s' : Tabs.SuperTabs,
       Tabs.initFrames (fun _ u => u) (S (Z.to_nat Tabs.maxInitRetries)) 0 Tabs.initial
       = Some (s', Z.to_nat Tabs.maxInitRetries)
       /\ Tabs.container s' = None
       /\ Tabs.initAttempts s' = (Tabs.maxInitRetries + 1)%Z
       /\ Tabs.initResolved s' = true
       /\ Tabs.log s' <> []
       /\ Forall (fun d => Tabs.printed d = false) (Tabs.log s').
Proof.
  split; [reflexivity|].
  eexists. split; [vm_compute; reflexivity|].
  split; [reflexivity|]. split; [reflexivity|]. split; [reflexivity|].
  split; [discriminate|].
  repeat constructor.
Qed.

(** ** Where the geometry comes from *)

(** [indexTabs], once the width is known, leaves a scrollable width of as
    many tabs as the container holds; this is the geometry the statements
    on clamping and on the gesture commit start from. *)

Lemma moveContainerByIndex_state
    (index : jsnum) (animate : bool) (c c' : Container.Container)
    (u : unit) (o : list Container.Output) :
  Container.moveContainerByIndex index animate c = Some (u, c', o) -> c' = c.
Proof.
  unfold Container.moveContainerByIndex, Container.moveContainer, Container.bind,
    Container.get, Container.theConfig, Container.out, Container.ret.
  cbn beta iota.
  destruct (jeq (Container.indexToPosition c index) (Fin 0) && jgt index (Fin 0));
    destruct animate; destruct (Container.config c);
    intros H; try discriminate; inversion H; reflexivity.
Qed.

Lemma lazyLoadLoop_length (unload : bool) (lo hi : jsnum) (ts : list Container.SuperTab) :
  forall start : Z,
    List.length (Container.lazyLoadLoop unload lo hi start ts) = List.length ts.
Proof.
  induction ts as [|t rest IH]; intros start; [reflexivity|].
  cbn [Container.lazyLoadLoop List.length]. rewrite IH. reflexivity.
Qed.

Lemma lazyLoadTabs_geometry (c : Container.Container) :
  Container.width (Container.lazyLoadTabs c) = Container.width c
  /\ Container.scrollWidth (Container.lazyLoadTabs c) = Container.scrollWidth c
  /\ List.length (Container.tabs (Container.lazyLoadTabs c))
     = List.length (Container.tabs c).
Proof.
  unfold Container.lazyLoadTabs.
  destruct (Container._activeTabIndex c); [|repeat split].
  destruct (Container.config c) as [cfg|]; [|repeat split].
  destruct (lazyLoad cfg); cbn; repeat split.
  - apply lazyLoadLoop_length.
  - apply length_map.
Qed.

Lemma indexTabs_geometry
    (domTabs : list Container.SuperTab) (c c' : Container.Container)
    (o : list Container.Output) :
  Container.indexTabs domTabs c = Some (true, c', o) ->
  ~ Container.width c' == 0
  /\ Container.scrollWidth c'
     == inject_Z (Z.of_nat (List.length (Container.tabs c'))) * Container.width c'.
Proof.
  unfold Container.indexTabs.
  unfold Container.bind at 1. unfold Container.get at 1.
  destruct (Qeq_bool (Container.width c) 0) eqn:E0.
  - intros H. discriminate H.
  - unfold Container.bind, Container.modify, Container.ret. cbn beta iota.
    set (c1 := Container.set_tabs domTabs (Container.set_scrollWidth _ c)).
    assert (~ Container.width c == 0) as Hw0.
    { intros E. apply Qeq_bool_iff in E. congruence. }
    destruct (lazyLoadTabs_geometry c1) as [G1 [G2 G3]].
    destruct (Container.ready c); destruct (Container._activeTabIndex c) as [a|];
      destruct (Container.config c) as [cfg|];
      repeat match goal with
        | |- context [Container.moveContainerByIndex ?i ?b ?x] =>
            let E := fresh "E" in
            destruct (Container.moveContainerByIndex i b x) as [[[? ?] ?]|] eqn:E;
            [apply moveContainerByIndex_state in E; subst | ]
        end;
      intros H; try discriminate H; inversion H; subst; clear H;
      cbn [Container.width Container.scrollWidth Container.tabs
           Container.set_ready Container.set_thresholds];
      rewrite G1, G2, G3; cbn; (split; [exact Hw0 | ring]).
Qed.

(** ** The gesture commit *)

Lemma Qround_comp (p q : Q) : p == q -> Qround p = Qround q.
Proof. intros H. unfold Qround. rewrite H. reflexivity. Qed.

(** Rounding a ratio of integers is an integer division. *)
Lemma Qround_ratio (m k : Z) :
  (0 < k)%Z -> Qround (inject_Z m / inject_Z k) = ((2 * m + k) / (2 * k))%Z.
Proof.
  intros Hk. rewrite Zdiv_Qdiv. unfold Qround. apply Qfloor_comp.
  assert (~ inject_Z k == 0) as Hk0.
  { intros E. unfold Qeq in E. simpl in E. lia. }
  rewrite !inject_Z_plus, !inject_Z_mult. change (inject_Z 2) with 2.
  field. exact Hk0.
Qed.

Lemma Zdiv_between (m d t : Z) :
  (0 < d)%Z -> (t * d <= m < (t + 1) * d)%Z -> (m / d = t)%Z.
Proof.
  intros Hd [Hlo Hhi]. symmetry.
  apply Z.div_unique with (r := (m - d * t)%Z); [left; nia | ring].
Qed.

(** Shifting by one tab and clamping the offset to the tab span is, after
    rounding, shifting the rounded index and clamping it to the index
    range. *)
Lemma shift_then_round (n k m shift : Z) :
  (1 <= n)%Z -> (0 < k)%Z -> (0 <= m <= (n - 1) * k)%Z ->
  (shift = 1 \/ shift = -1)%Z ->
  ((2 * Z.max 0 (Z.min ((n - 1) * k) (m + shift * k)) + k) / (2 * k)
   = clamp_index n ((2 * m + k) / (2 * k) + shift))%Z.
Proof.
  intros Hn Hk Hm Hs. unfold clamp_index.
  assert (0 < 2 * k)%Z as H2k by lia.
  pose proof (Z.mul_div_le (2 * m + k) (2 * k) H2k) as Hlo.
  pose proof (Z.mul_succ_div_gt (2 * m + k) (2 * k) H2k) as Hhi.
  set (a := ((2 * m + k) / (2 * k))%Z) in *.
  apply Zdiv_between; [exact H2k|].
  destruct Hs as [-> | ->]; nia.
Qed.

Lemma grid_le (a b : Z) :
  (a <= b)%Z -> inject_Z a / 10000 <= inject_Z b / 10000.
Proof.
  intros H. rewrite Zle_Qle in H. unfold Qdiv.
  apply Qmult_le_compat_r; [exact H | discriminate].
Qed.

Lemma Qmin_grid (a b : Z) :
  Qmin (inject_Z a / 10000) (inject_Z b / 10000) == inject_Z (Z.min a b) / 10000.
Proof.
  destruct (Z.min_spec a b) as [[H E]|[H E]]; rewrite E.
  - apply Q.min_l. apply grid_le. lia.
  - apply Q.min_r. apply grid_le. lia.
Qed.

Lemma Qmax_grid (a b : Z) :
  Qmax (inject_Z a / 10000) (inject_Z b / 10000) == inject_Z (Z.max a b) / 10000.
Proof.
  destruct (Z.max_spec a b) as [[H E]|[H E]]; rewrite E.
  - apply Q.max_r. apply grid_le. lia.
  - apply Q.max_l. apply grid_le. lia.
Qed.

(** A container whose geometry is the one [updateWidth] and [indexTabs]
    leave: a positive width of [k] ten-thousandths of a pixel, and a
    scrollable width of [n] tabs. *)
Section MeasuredGeometry.

Variable c : Container.Container.
Variables n k : Z.
Hypothesis Hk : (0 < k)%Z.
Hypothesis Hwidth : Container.width c == inject_Z k / 10000.
Hypothesis Hscroll : Container.scrollWidth c == inject_Z n * Container.width c.

Lemma inject_k_nonzero : ~ inject_Z k == 0.
Proof. intros E. unfold Qeq in E. simpl in E. lia. Qed.

Lemma measured_width_nonzero : ~ Container.width c == 0.
Proof.
  intros E. rewrite Hwidth in E. apply inject_k_nonzero.
  unfold Qdiv in E. apply Qmult_integral in E. destruct E as [E|E];
    [exact E | discriminate].
Qed.

Lemma span_grid :
  Container.scrollWidth c + - Container.width c == inject_Z ((n - 1) * k) / 10000.
Proof.
  rewrite Hscroll, Hwidth, inject_Z_mult. unfold Z.sub.
  rewrite inject_Z_plus, inject_Z_opp. change (inject_Z 1) with 1. field.
Qed.

(** The clamp of an offset on the grid stays on the grid. *)
Lemma clamp_grid (q : Q) (v : Z) :
  q == inject_Z v / 10000 ->
  exists r : Q,
    jmax (Fin 0)
         (jmin (jsub (Fin (Container.scrollWidth c)) (Fin (Container.width c))) (Fin q))
    = Fin r
    /\ r == inject_Z (Z.max 0 (Z.min ((n - 1) * k) v)) / 10000.
Proof.
  intros Hq.
  destruct (clamp_fin (Container.scrollWidth c + - Container.width c) q)
    as [r [Hr Hv]].
  exists r. split; [exact Hr|].
  rewrite Hv, span_grid, Hq, Qmin_grid.
  rewrite <- Qmax_grid. apply Q.max_compat; reflexivity.
Qed.

Lemma grid_ratio (r : Q) (v : Z) :
  r == inject_Z v / 10000 -> r / Container.width c == inject_Z v / inject_Z k.
Proof.
  intros Hr. rewrite Hr, Hwidth. field. exact inject_k_nonzero.
Qed.

Lemma calcSelectedTab_grid (l : Z) :
  Container.scrollLeft c == inject_Z l / 10000 ->
  exists f : Q,
    Container.calcSelectedTab c = Fin f
    /\ f == inject_Z (Z.max 0 (Z.min ((n - 1) * k) l)) / inject_Z k.
Proof.
  intros Hl. unfold Container.calcSelectedTab, Container.calcSelectedTab_scrollX.
  destruct (clamp_grid (Container.scrollLeft c) l Hl) as [r [Hr Hv]].
  rewrite Hr, (positionToIndex_fin c r measured_width_nonzero).
  eexists. split; [reflexivity|]. apply grid_ratio. exact Hv.
Qed.

Lemma normalizeSelectedTab_grid (q : Q) (m : Z) :
  q * Container.width c * 10000 == inject_Z m ->
  Container.normalizeSelectedTab c (Fin q)
  = of_Z ((2 * Z.max 0 (Z.min ((n - 1) * k) m) + k) / (2 * k)).
Proof.
  intros Hq.
  unfold Container.normalizeSelectedTab, Container.normalizeSelectedTab_scrollX.
  rewrite indexToPosition_fin, (Qround_eq_Z _ m Hq).
  destruct (clamp_grid (inject_Z m / 10000) m (Qeq_refl _)) as [r [Hr Hv]].
  rewrite Hr. unfold jdiv, jround, of_Z.
  rewrite (Qeq_bool_false _ _ measured_width_nonzero).
  rewrite (Qround_comp _ _ (grid_ratio r _ Hv)), (Qround_ratio _ k Hk).
  reflexivity.
Qed.

End MeasuredGeometry.

Lemma jlt_fin_false (p q : Q) : q <= p -> jlt (Fin p) (Fin q) = false.
Proof.
  intros H. destruct (jlt (Fin p) (Fin q)) eqn:E; [|reflexivity].
  apply jlt_fin in E. lra.
Qed.

Lemma Qround_near (u : Q) :
  - (1 # 2) <= inject_Z (Qround u) - u /\ inject_Z (Qround u) - u <= 1 # 2.
Proof.
  unfold Qround.
  pose proof (Qfloor_le (u + 0.5)) as Hlo.
  pose proof (Qlt_floor (u + 0.5)) as Hhi.
  rewrite inject_Z_plus in Hhi. change (inject_Z 1) with 1 in Hhi.
  split; lra.
Qed.



(** The rounding of [indexToPosition] moves an offset by at most half of
    0.0001. *)
Lemma four_decimals_near (P : Q) :
  P - (1 # 20000) <= inject_Z (Qround (P * 10000)) / 10000
  /\ inject_Z (Qround (P * 10000)) / 10000 <= P + (1 # 20000).
Proof.
  destruct (Qround_near (P * 10000)) as [A B].
  unfold Qdiv. change (/ 10000) with (1 # 10000). split; lra.
Qed.




Lemma lazyLoadTabs_keeps (c : Container.Container) :
  Container.config (Container.lazyLoadTabs c) = Container.config c
  /\ Container._activeTabIndex (Container.lazyLoadTabs c) = Container._activeTabIndex c.
Proof.
  unfold Container.lazyLoadTabs.
  destruct (Container._activeTabIndex c) eqn:Ea; [|split; [reflexivity | exact Ea]].
  destruct (Container.config c) as [cfg|] eqn:Ec; [|split; [exact Ec | exact Ea]].
  destruct (lazyLoad cfg); cbn; split; assumption.
Qed.

Lemma updateActiveTabIndex_run
    (index : jsnum) (emit : bool) (c : Container.Container) (cfg : SuperTabsConfig) :
  Container.config c = Some cfg ->
  Container.updateActiveTabIndex index emit c
  = Some (tt,
          (if lazyLoad cfg
           then Container.lazyLoadTabs (Container.set_activeTabIndex (Some index) c)
           else Container.set_activeTabIndex (Some index) c),
          (if emit then [Container.ActiveTabIndexChange index] else [])).
Proof.
  intros H.
  unfold Container.updateActiveTabIndex, Container.bind, Container.modify,
    Container.theConfig, Container.out, Container.ret.
  destruct emit;
    cbn beta iota delta [Container.config Container.set_activeTabIndex app];
    rewrite H; destruct (lazyLoad cfg); reflexivity.
Qed.

Lemma moveContainerByIndex_run
    (index : jsnum) (animate : bool) (c : Container.Container) :
  Container.config c <> None ->
  exists o : list Container.Output,
    Container.moveContainerByIndex index animate c = Some (tt, c, o).
Proof.
  unfold Container.moveContainerByIndex, Container.moveContainer, Container.bind,
    Container.get, Container.theConfig, Container.out, Container.ret.
  cbn beta iota.
  destruct (jeq (Container.indexToPosition c index) (Fin 0) && jgt index (Fin 0));
    destruct animate; destruct (Container.config c);
    intros H; try (exfalso; apply H; reflexivity); eexists; reflexivity.
Qed.

(** A touch end during a drag commits [touchEndTarget]: it becomes the
    active index, is announced first, and the gesture is over. *)
Lemma onTouchEnd_commits
    (c : Container.Container) (cfg : SuperTabsConfig) (ic coords : STCoord) (now : Q) :
  Container.swipeEnabled c = true ->
  Container.isDragging c = true ->
  Container.config c = Some cfg ->
  Container.initialCoords c = Some ic ->
  exists (c' : Container.Container) (o : list Container.Output),
    Container.onTouchEnd coords now c
    = Some (tt, c',
            Container.ActiveTabIndexChange (Container.touchEndTarget c cfg ic coords now)
              :: o)
    /\ Container._activeTabIndex c'
       = Some (Container.touchEndTarget c cfg ic coords now)
    /\ Container.isDragging c' = false.
Proof.
  intros Hs Hd Hcfg Hic.
  unfold Container.onTouchEnd.
  unfold Container.bind at 1. unfold Container.get at 1.
  rewrite Hs, Hd. cbn [negb orb].
  unfold Container.bind at 1. unfold Container.theConfig at 1. rewrite Hcfg.
  unfold Container.bind at 1. unfold Container.theInitialCoords at 1. rewrite Hic.
  set (target := Container.touchEndTarget c cfg ic coords now).
  unfold Container.bind at 1.
  rewrite (updateActiveTabIndex_run target true c cfg Hcfg).
  set (c1 := if lazyLoad cfg
             then Container.lazyLoadTabs (Container.set_activeTabIndex (Some target) c)
             else Container.set_activeTabIndex (Some target) c).
  assert (Container.config c1 = Some cfg /\ Container._activeTabIndex c1 = Some target)
    as [Hc1 Ha1].
  { unfold c1. destruct (lazyLoad cfg).
    - destruct (lazyLoadTabs_keeps (Container.set_activeTabIndex (Some target) c))
        as [A B].
      rewrite A, B. split; [exact Hcfg | reflexivity].
    - split; [exact Hcfg | reflexivity]. }
  destruct (moveContainerByIndex_run target true c1) as [o Ho];
    [rewrite Hc1; discriminate|].
  unfold Container.bind at 1. rewrite Ho.
  unfold Container.modify.
  eexists. eexists. split; [reflexivity|]. split; [exact Ha1 | reflexivity].
Qed.




(** At the midpoint itself the code decides in double precision.  Five tabs
    of 320.8 pixels, released at offset 802 with tab 3 active: the
    fractional index 2.5 rounds to 3; shifted to 3.5 it is taken to the
    offset 1122.8, which divided by 320.8 is 3.4999999999999996 and rounds
    to 3: a leftward flick commits tab 3 again, not tab 4. *)
Example midpoint_release_in_binary64 :
  F64.math_round (F64.calcSelectedTab SampleF64.five_tabs) = F64.of_Z 3
  /\ F64.normalizeSelectedTab SampleF64.five_tabs
       (PrimFloat.add (F64.calcSelectedTab SampleF64.five_tabs) (F64.of_Z 1))
     = F64.of_Z 3.
Proof. vm_compute. split; reflexivity. Qed.

(** The drag scenario of the design text: released at offset 650 (index
    2.1667) half a second after the start, which is no short swipe: tab 2,
    the rounded index, is committed, and the container is sent back to
    offset 600. *)
Example long_drag_commits_rounded_index :
  Container.indexToPosition (Sample.dragging 650 2) (of_Z 2) = Fin (6000000 / 10000)
  /\ jround (jmul (Container.calcSelectedTab (Sample.dragging 650 2)) (Fin 1000))
     = of_Z 2167
  /\ exists c' : Container.Container,
       Container.onTouchEnd {| x := 150; y := 10 |} 1500 (Sample.dragging 650 2)
       = Some (tt, c', [Container.ActiveTabIndexChange (of_Z 2);
                        Container.ScrollEl (Fin (6000000 / 10000)) None 150])
       /\ Container._activeTabIndex c' = Some (of_Z 2)
       /\ Container.isDragging c' = false.
Proof.
  split; [reflexivity|]. split; [reflexivity|].
  eexists. split; [reflexivity|]. split; reflexivity.
Qed.

(* ================================================================== *)
(** * Further properties of the code *)
(* ================================================================== *)

(** ** The container: what a commit can be *)

Lemma rounded_ratio_range (n k m : Z) :
  (1 <= n)%Z -> (0 < k)%Z -> (0 <= m <= (n - 1) * k)%Z ->
  (0 <= (2 * m + k) / (2 * k) <= n - 1)%Z.
Proof.
  intros Hn Hk Hm.
  assert (0 < 2 * k)%Z as H2k by lia.
  pose proof (Z.mul_div_le (2 * m + k) (2 * k) H2k) as Hlo.
  pose proof (Z.mul_succ_div_gt (2 * m + k) (2 * k) H2k) as Hhi.
  set (a := ((2 * m + k) / (2 * k))%Z) in *.
  split; nia.
Qed.

Lemma calcSelectedTab_finite (c : Container.Container) :
  ~ Container.width c == 0 ->
  exists f : Q, Container.calcSelectedTab c = Fin f.
Proof.
  intros Hw. unfold Container.calcSelectedTab, Container.calcSelectedTab_scrollX.
  destruct (clamp_fin (Container.scrollWidth c + - Container.width c)
              (Container.scrollLeft c)) as [r [Hr _]].
  change (jsub (Fin (Container.scrollWidth c)) (Fin (Container.width c)))
    with (Fin (Container.scrollWidth c + - Container.width c)).
  rewrite Hr, (positionToIndex_fin c r Hw). eexists. reflexivity.
Qed.

(** On a measured geometry [normalizeSelectedTab] depends on its argument
    only through the position rounded to four decimals. *)
Lemma normalizeSelectedTab_measured (c : Container.Container) (n k : Z) (q : Q) :
  (0 < k)%Z ->
  Container.width c == inject_Z k / 10000 ->
  Container.scrollWidth c == inject_Z n * Container.width c ->
  Container.normalizeSelectedTab c (Fin q)
  = of_Z ((2 * Z.max 0 (Z.min ((n - 1) * k)
                           (Qround (q * Container.width c * 10000))) + k) / (2 * k)).
Proof.
  intros Hk Hw Hsw.
  unfold Container.normalizeSelectedTab, Container.normalizeSelectedTab_scrollX.
  rewrite indexToPosition_fin.
  set (m := Qround (q * Container.width c * 10000)).
  destruct (clamp_grid c n k Hw Hsw (inject_Z m / 10000) m (Qeq_refl _))
    as [r [Hr Hv]].
  rewrite Hr. unfold jdiv, jround, of_Z.
  rewrite (Qeq_bool_false _ _ (measured_width_nonzero c k Hk Hw)).
  rewrite (Qround_comp _ _ (grid_ratio c k Hk Hw r _ Hv)), (Qround_ratio _ k Hk).
  reflexivity.
Qed.

Lemma normalizeSelectedTab_range (c : Container.Container) (n k : Z) (q : Q) :
  (1 <= n)%Z -> (0 < k)%Z ->
  Container.width c == inject_Z k / 10000 ->
  Container.scrollWidth c == inject_Z n * Container.width c ->
  exists z : Z,
    Container.normalizeSelectedTab c (Fin q) = of_Z z /\ (0 <= z <= n - 1)%Z.
Proof.
  intros Hn Hk Hw Hsw.
  rewrite (normalizeSelectedTab_measured c n k q Hk Hw Hsw).
  eexists. split; [reflexivity|].
  apply rounded_ratio_range; [assumption | assumption | nia].
Qed.

Lemma touchEndTarget_range
    (c : Container.Container) (cfg : SuperTabsConfig) (ic coords : STCoord)
    (now : Q) (n k : Z) :
  (1 <= n)%Z -> (0 < k)%Z ->
  Container.width c == inject_Z k / 10000 ->
  Container.scrollWidth c == inject_Z n * Container.width c ->
  exists z : Z,
    Container.touchEndTarget c cfg ic coords now = of_Z z /\ (0 <= z <= n - 1)%Z.
Proof.
  intros Hn Hk Hw Hsw. unfold Container.touchEndTarget.
  destruct (calcSelectedTab_finite c (measured_width_nonzero c k Hk Hw)) as [f Hf].
  rewrite Hf.
  match goal with
  | |- context [if ?b then _ else _] => destruct b
  end.
  - destruct (jgt _ (Fin 0)).
    + change (jadd (Fin f) (Fin (-1))) with (Fin (f + (-1))).
      apply normalizeSelectedTab_range with (k := k); assumption.
    + change (jadd (Fin f) (Fin 1)) with (Fin (f + 1)).
      apply normalizeSelectedTab_range with (k := k); assumption.
  - apply normalizeSelectedTab_range with (k := k); assumption.
Qed.

(** X1.  Whatever the scroll offset, the timing and the direction, a touch
    end that closes a drag on a container with a positive measured width and
    a scrollable width of [tabCount >= 1] tabs commits an integer index of
    [[0, tabCount - 1]]: that index becomes the active one and is the first
    thing announced.  The drag is over afterwards, so the click that follows
    the touch end is let through. *)
Theorem touch_end_commits_valid_index
    (c : Container.Container) (cfg : SuperTabsConfig) (ic coords : STCoord)
    (now : Q) (k : Z) :
  Container.swipeEnabled c = true ->
  Container.isDragging c = true ->
  Container.config c = Some cfg ->
  Container.initialCoords c = Some ic ->
  (1 <= Z.of_nat (List.length (Container.tabs c)))%Z ->
  (0 < k)%Z ->
  Container.width c == inject_Z k / 10000 ->
  Container.scrollWidth c
  == inject_Z (Z.of_nat (List.length (Container.tabs c))) * Container.width c ->
  exists (c' : Container.Container) (o : list Container.Output) (z : Z),
    Container.onTouchEnd coords now c
    = Some (tt, c', Container.ActiveTabIndexChange (of_Z z) :: o)
    /\ (0 <= z <= Z.of_nat (List.length (Container.tabs c)) - 1)%Z
    /\ Container._activeTabIndex c' = Some (of_Z z)
    /\ Container.isDragging c' = false
    /\ Gestures.onClick c' = false.
Proof.
  intros Hs Hd Hcfg Hic Hn Hk Hw Hsw.
  destruct (onTouchEnd_commits c cfg ic coords now Hs Hd Hcfg Hic)
    as [c' [o [Hrun [Ha Hdrag]]]].
  destruct (touchEndTarget_range c cfg ic coords now _ k Hn Hk Hw Hsw) as [z [Hz Hr]].
  rewrite Hz in Hrun, Ha.
  exists c', o, z. repeat split; try assumption; apply Hr.
Qed.

Lemma touch_end_commits_valid_index_witness :
  Container.swipeEnabled (Sample.dragging (3749999 # 25000) 0) = true
  /\ Container.isDragging (Sample.dragging (3749999 # 25000) 0) = true
  /\ Container.config (Sample.dragging (3749999 # 25000) 0) = Some DEFAULT_CONFIG
  /\ Container.initialCoords (Sample.dragging (3749999 # 25000) 0)
     = Some {| x := 200; y := 10 |}
  /\ (1 <= Z.of_nat (List.length (Container.tabs (Sample.dragging (3749999 # 25000) 0))))%Z
  /\ (0 < 3000000)%Z
  /\ Container.width (Sample.dragging (3749999 # 25000) 0) == inject_Z 3000000 / 10000
  /\ Container.scrollWidth (Sample.dragging (3749999 # 25000) 0)
     == inject_Z (Z.of_nat (List.length
                              (Container.tabs (Sample.dragging (3749999 # 25000) 0))))
        * Container.width (Sample.dragging (3749999 # 25000) 0)
  /\ exists (c' : Container.Container) (o : list Container.Output) (z : Z),
       Container.onTouchEnd {| x := 100; y := 10 |} 1150
         (Sample.dragging (3749999 # 25000) 0)
       = Some (tt, c', Container.ActiveTabIndexChange (of_Z z) :: o)
       /\ (0 <= z <= Z.of_nat (List.length
                                 (Container.tabs (Sample.dragging (3749999 # 25000) 0)))
                     - 1)%Z
       /\ Container._activeTabIndex c' = Some (of_Z z)
       /\ Container.isDragging c' = false
       /\ Gestures.onClick c' = false.
Proof.
  repeat (split; [first [reflexivity | compute; discriminate]|]).
  apply (touch_end_commits_valid_index (Sample.dragging (3749999 # 25000) 0)
           DEFAULT_CONFIG {| x := 200; y := 10 |} {| x := 100; y := 10 |} 1150 3000000);
    first [reflexivity | compute; discriminate].
Defined.

Lemma clamp_then_round_integer (n k z : Z) :
  (1 <= n)%Z -> (0 < k)%Z ->
  ((2 * Z.max 0 (Z.min ((n - 1) * k) (z * k)) + k) / (2 * k) = clamp_index n z)%Z.
Proof.
  intros Hn Hk. unfold clamp_index. apply Zdiv_between; [lia|].
  destruct (Z.min_spec ((n - 1) * k) (z * k)) as [[A ->]|[A ->]];
    destruct (Z.min_spec (n - 1) z) as [[B ->]|[B ->]]; try nia;
    match goal with
    | |- context [Z.max 0 (?u * k)] =>
        destruct (Z.max_spec 0 (u * k)) as [[C ->]|[C ->]];
        destruct (Z.max_spec 0 u) as [[D ->]|[D ->]]; nia
    end.
Qed.

(** X2.  On a measured geometry [normalizeSelectedTab] sends an integer
    index to itself when it names a tab, and to the nearest end of
    [[0, tabCount - 1]] when it does not. *)
Theorem normalizeSelectedTab_clamps_integer
    (c : Container.Container) (n k z : Z) :
  (1 <= n)%Z ->
  (0 < k)%Z ->
  Container.width c == inject_Z k / 10000 ->
  Container.scrollWidth c == inject_Z n * Container.width c ->
  Container.normalizeSelectedTab c (of_Z z) = of_Z (clamp_index n z)
  /\ ((0 <= z <= n - 1)%Z -> Container.normalizeSelectedTab c (of_Z z) = of_Z z).
Proof.
  intros Hn Hk Hw Hsw.
  assert (Container.normalizeSelectedTab c (of_Z z) = of_Z (clamp_index n z)) as H.
  { unfold of_Z at 1.
    rewrite (normalizeSelectedTab_grid c n k Hk Hw Hsw (inject_Z z) (z * k)).
    - rewrite clamp_then_round_integer by assumption. reflexivity.
    - rewrite Hw, inject_Z_mult. field. }
  split; [exact H|].
  intros Hz. rewrite H. unfold clamp_index. f_equal. lia.
Qed.

Lemma normalizeSelectedTab_clamps_integer_witness :
  (1 <= 4)%Z
  /\ (0 < 3000000)%Z
  /\ Container.width (Sample.dragging 0 0) == inject_Z 3000000 / 10000
  /\ Container.scrollWidth (Sample.dragging 0 0)
     == inject_Z 4 * Container.width (Sample.dragging 0 0)
  /\ Container.normalizeSelectedTab (Sample.dragging 0 0) (of_Z 7)
     = of_Z (clamp_index 4 7)
  /\ ((0 <= 7 <= 4 - 1)%Z ->
      Container.normalizeSelectedTab (Sample.dragging 0 0) (of_Z 7) = of_Z 7).
Proof.
  split; [lia|]. split; [lia|]. split; [reflexivity|]. split; [reflexivity|].
  apply (normalizeSelectedTab_clamps_integer (Sample.dragging 0 0) 4 3000000 7);
    first [lia | reflexivity].
Defined.

Lemma jle_fin_false (p q : Q) : q < p -> jle (Fin p) (Fin q) = false.
Proof.
  intros H. destruct (jle (Fin p) (Fin q)) eqn:E; [|reflexivity].
  apply jle_fin in E. lra.
Qed.

(** X3.  A drag held for longer than [shortSwipeDuration] and released at an
    offset on the [0.0001] grid commits the rounded fractional index,
    [Math.round(calcSelectedTab())], with no shift. *)
Theorem slow_release_commits_rounded_index
    (c : Container.Container) (cfg : SuperTabsConfig) (ic coords : STCoord)
    (now t0 : Q) (k l : Z) :
  Container.swipeEnabled c = true ->
  Container.isDragging c = true ->
  Container.config c = Some cfg ->
  Container.initialCoords c = Some ic ->
  Container.initialTimestamp c = Some t0 ->
  shortSwipeDuration cfg < now - t0 ->
  (0 < k)%Z ->
  Container.width c == inject_Z k / 10000 ->
  Container.scrollWidth c
  == inject_Z (Z.of_nat (List.length (Container.tabs c))) * Container.width c ->
  Container.scrollLeft c == inject_Z l / 10000 ->
  exists (c' : Container.Container) (o : list Container.Output),
    Container.onTouchEnd coords now c
    = Some (tt, c',
            Container.ActiveTabIndexChange (jround (Container.calcSelectedTab c)) :: o)
    /\ Container._activeTabIndex c' = Some (jround (Container.calcSelectedTab c)).
Proof.
  intros Hs Hd Hcfg Hic Ht0 Hlong Hk Hw Hsw Hsl.
  destruct (onTouchEnd_commits c cfg ic coords now Hs Hd Hcfg Hic)
    as [c' [o [Hrun [Ha _]]]].
  assert (Container.touchEndTarget c cfg ic coords now
          = jround (Container.calcSelectedTab c)) as Ht.
  { unfold Container.touchEndTarget. rewrite Ht0. cbn [Container.num_of].
    change (jsub (Fin now) (Fin t0)) with (Fin (now + - t0)).
    rewrite (jle_fin_false (now + - t0) (shortSwipeDuration cfg)) by exact Hlong.
    rewrite andb_false_r. cbn [andb].
    destruct (calcSelectedTab_grid c _ k Hk Hw Hsw l Hsl) as [f [Hf Hfv]].
    rewrite Hf.
    set (n := Z.of_nat (List.length (Container.tabs c))) in *.
    set (m := Z.max 0 (Z.min ((n - 1) * k) l)) in *.
    rewrite (normalizeSelectedTab_grid c n k Hk Hw Hsw f m).
    - unfold jround, of_Z.
      rewrite (Qround_comp _ _ Hfv), (Qround_ratio m k Hk).
      replace (Z.max 0 (Z.min ((n - 1) * k) m)) with m by (unfold m; lia).
      reflexivity.
    - rewrite Hfv, Hw. field. apply inject_k_nonzero. exact Hk. }
  rewrite Ht in Hrun, Ha. exists c', o. split; assumption.
Qed.

Lemma slow_release_commits_rounded_index_witness :
  Container.swipeEnabled (Sample.dragging 650 2) = true
  /\ Container.isDragging (Sample.dragging 650 2) = true
  /\ Container.config (Sample.dragging 650 2) = Some DEFAULT_CONFIG
  /\ Container.initialCoords (Sample.dragging 650 2) = Some {| x := 200; y := 10 |}
  /\ Container.initialTimestamp (Sample.dragging 650 2) = Some 1000
  /\ shortSwipeDuration DEFAULT_CONFIG < 1500 - 1000
  /\ (0 < 3000000)%Z
  /\ Container.width (Sample.dragging 650 2) == inject_Z 3000000 / 10000
  /\ Container.scrollWidth (Sample.dragging 650 2)
     == inject_Z (Z.of_nat (List.length (Container.tabs (Sample.dragging 650 2))))
        * Container.width (Sample.dragging 650 2)
  /\ Container.scrollLeft (Sample.dragging 650 2) == inject_Z 6500000 / 10000
  /\ exists (c' : Container.Container) (o : list Container.Output),
       Container.onTouchEnd {| x := 150; y := 10 |} 1500 (Sample.dragging 650 2)
       = Some (tt, c',
               Container.ActiveTabIndexChange
                 (jround (Container.calcSelectedTab (Sample.dragging 650 2))) :: o)
       /\ Container._activeTabIndex c'
          = Some (jround (Container.calcSelectedTab (Sample.dragging 650 2))).
Proof.
  repeat (split; [first [reflexivity | compute; discriminate]|]).
  apply (slow_release_commits_rounded_index (Sample.dragging 650 2) DEFAULT_CONFIG
           {| x := 200; y := 10 |} {| x := 150; y := 10 |} 1500 1000 3000000 6500000);
    first [reflexivity | compute; discriminate].
Defined.

(** ** The container: offsets, widths and indexing *)

(** X4.  The round trip the other way: with a non-zero width, taking an
    offset to its fractional index and back returns a multiple of [0.0001]
    that is less than [0.0001] away from the offset, and the offset itself
    when that is a multiple of [0.0001]. *)
Theorem offset_index_roundtrip (c : Container.Container) (offset : Q) :
  ~ Container.width c == 0 ->
  exists (p : Q) (z : Z),
    Container.indexToPosition c (Container.positionToIndex c (Fin offset)) = Fin p
    /\ p == inject_Z z / 10000
    /\ Qabs (p - offset) < 0.0001
    /\ (forall v : Z, offset == inject_Z v / 10000 -> p == offset).
Proof.
  intros Hw. rewrite (positionToIndex_fin c offset Hw), indexToPosition_fin.
  eexists. eexists. split; [reflexivity|].
  assert (offset / Container.width c * Container.width c * 10000 == offset * 10000)
    as Hu by (field; exact Hw).
  rewrite (Qround_comp _ _ Hu).
  split; [reflexivity|].
  destruct (four_decimals_near offset) as [Hlo Hhi].
  split.
  - apply Qabs_Qlt_condition. split; lra.
  - intros v Hv.
    assert (offset * 10000 == inject_Z v) as Hg by (rewrite Hv; field).
    rewrite (Qround_eq_Z _ v Hg), Hv. reflexivity.
Qed.

Lemma offset_index_roundtrip_witness :
  ~ Container.width (Sample.dragging 0 0) == 0
  /\ exists (p : Q) (z : Z),
       Container.indexToPosition (Sample.dragging 0 0)
         (Container.positionToIndex (Sample.dragging 0 0) (Fin (3749999 # 25000)))
       = Fin p
       /\ p == inject_Z z / 10000
       /\ Qabs (p - (3749999 # 25000)) < 0.0001
       /\ (forall v : Z, (3749999 # 25000) == inject_Z v / 10000 ->
           p == (3749999 # 25000)).
Proof.
  split; [discriminate|].
  apply (offset_index_roundtrip (Sample.dragging 0 0) (3749999 # 25000)).
  discriminate.
Defined.

(** X5.  [indexTabs] does nothing but ask for another frame while the
    width is zero.  Once it goes through, the container holds as many tabs
    as the DOM has, its width is not zero and its scrollable width is exactly
    that many widths. *)
Theorem indexTabs_sets_geometry
    (domTabs : list Container.SuperTab) (c : Container.Container) :
  (Container.width c == 0 -> Container.indexTabs domTabs c = Some (false, c, []))
  /\ (forall (c' : Container.Container) (o : list Container.Output),
         Container.indexTabs domTabs c = Some (true, c', o) ->
         ~ Container.width c' == 0
         /\ List.length (Container.tabs c') = List.length domTabs
         /\ Container.scrollWidth c'
            == inject_Z (Z.of_nat (List.length (Container.tabs c')))
               * Container.width c').
Proof.
  split.
  - intros Hw. unfold Container.indexTabs, Container.bind, Container.get.
    rewrite (Qeq_bool_true _ _ Hw). reflexivity.
  - intros c' o H.
    destruct (indexTabs_geometry domTabs c c' o H) as [A B].
    split; [exact A|]. split; [|exact B].
    revert H. unfold Container.indexTabs.
    unfold Container.bind at 1. unfold Container.get at 1.
    destruct (Qeq_bool (Container.width c) 0); [intros H; discriminate H|].
    unfold Container.bind, Container.modify, Container.ret. cbn beta iota.
    set (c1 := Container.set_tabs domTabs (Container.set_scrollWidth _ c)).
    destruct (lazyLoadTabs_geometry c1) as [_ [_ G3]].
    destruct (Container.ready c); destruct (Container._activeTabIndex c) as [a|];
      destruct (Container.config c) as [cfg|];
      repeat match goal with
        | |- context [Container.moveContainerByIndex ?i ?b ?x] =>
            let E := fresh "E" in
            destruct (Container.moveContainerByIndex i b x) as [[[? ?] ?]|] eqn:E;
            [apply moveContainerByIndex_state in E; subst | ]
        end;
      intros H; try discriminate H; inversion H; subst; clear H;
      cbn [Container.tabs Container.set_ready Container.set_thresholds];
      rewrite G3; reflexivity.
Qed.

(** X6.  Selecting a tab leaves the container on that tab, and announces
    nothing; selecting the same tab again changes nothing and produces
    nothing, as long as [autoScrollTop] is off (the index is any number but
    NaN, and the container has its configuration). *)
Theorem setActiveTabIndex_twice
    (c : Container.Container) (cfg : SuperTabsConfig) (index : jsnum)
    (move animate : bool) :
  Container.config c = Some cfg ->
  Container.autoScrollTop c = false ->
  jeq index index = true ->
  exists (c1 : Container.Container) (o1 : list Container.Output),
    Container.setActiveTabIndex index move animate c = Some (tt, c1, o1)
    /\ Container.strict_eq index (Container._activeTabIndex c1) = true
    /\ forallb (fun e => negb (is_activeTabIndexChange e)) o1 = true
    /\ Container.setActiveTabIndex index move animate c1 = Some (tt, c1, []).
Proof.
  intros Hcfg Hauto Hnum.
  assert (forall c1 : Container.Container,
             Container.autoScrollTop c1 = false ->
             Container.strict_eq index (Container._activeTabIndex c1) = true ->
             Container.setActiveTabIndex index move animate c1 = Some (tt, c1, []))
    as Hagain.
  { intros c1 H1 H2. unfold Container.setActiveTabIndex, Container.bind, Container.get.
    rewrite H1, H2. reflexivity. }
  destruct (Container.strict_eq index (Container._activeTabIndex c)) eqn:Eq.
  - exists c, []. rewrite (Hagain c Hauto Eq). repeat split. exact Eq.
  - destruct (setActiveTabIndex_total index move animate c) as [c1 [o1 Hrun]];
      [rewrite Hcfg; discriminate|].
    exists c1, o1. split; [exact Hrun|].
    pose proof (setActiveTabIndex_quiet _ _ _ _ _ _ _ Hrun) as Hq.
    assert (Container.autoScrollTop c1 = false
            /\ Container._activeTabIndex c1 = Some index) as [Hauto1 Hact1].
    { revert Hrun. unfold Container.setActiveTabIndex.
      unfold Container.bind at 1. unfold Container.get at 1.
      rewrite Eq, Hauto. cbn [andb negb].
      unfold Container.bind at 1. unfold Container.ret at 1.
      unfold Container.bind at 1.
      destruct (if move then Container.moveContainerByIndex index animate
                else Container.ret tt) eqn:Em.
      2:{ intros H; discriminate H. }
      destruct p as [[u c2] o2].
      assert (c2 = c) as ->.
      { destruct move.
        - apply moveContainerByIndex_state in Em. exact Em.
        - unfold Container.ret in Em. injection Em as _ <- _. reflexivity. }
      rewrite (updateActiveTabIndex_run index false c cfg Hcfg).
      intros H. injection H as <- _.
      destruct (lazyLoad cfg).
      - destruct (lazyLoadTabs_keeps (Container.set_activeTabIndex (Some index) c))
          as [_ B].
        split; [|rewrite B; reflexivity].
        unfold Container.lazyLoadTabs.
        cbn [Container._activeTabIndex Container.set_activeTabIndex Container.config].
        rewrite Hcfg. destruct (negb (lazyLoad cfg)); exact Hauto.
      - split; [exact Hauto | reflexivity]. }
    split; [rewrite Hact1; exact Hnum|]. split; [exact Hq|].
    apply Hagain; [exact Hauto1 | rewrite Hact1; exact Hnum].
Qed.

Lemma setActiveTabIndex_twice_witness :
  Container.config (Sample.dragging 0 0) = Some DEFAULT_CONFIG
  /\ Container.autoScrollTop (Sample.dragging 0 0) = false
  /\ jeq (Fin 2) (Fin 2) = true
  /\ exists (c1 : Container.Container) (o1 : list Container.Output),
       Container.setActiveTabIndex (Fin 2) true true (Sample.dragging 0 0)
       = Some (tt, c1, o1)
       /\ Container.strict_eq (Fin 2) (Container._activeTabIndex c1) = true
       /\ forallb (fun e => negb (is_activeTabIndexChange e)) o1 = true
       /\ Container.setActiveTabIndex (Fin 2) true true c1 = Some (tt, c1, []).
Proof.
  split; [reflexivity|]. split; [reflexivity|]. split; [reflexivity|].
  apply (setActiveTabIndex_twice (Sample.dragging 0 0) DEFAULT_CONFIG (Fin 2) true true);
    reflexivity.
Defined.

(** ** Lazy loading over time *)

Lemma lazyLoadLoop_twice (unload : bool) (lo hi : jsnum) (ts : list Container.SuperTab) :
  forall start : Z,
    Container.lazyLoadLoop unload lo hi start
      (Container.lazyLoadLoop unload lo hi start ts)
    = Container.lazyLoadLoop unload lo hi start ts.
Proof.
  induction ts as [|t rest IH]; intros start; [reflexivity|].
  cbn [Container.lazyLoadLoop Container.loaded Container.visible].
  rewrite IH. f_equal. f_equal.
  destruct (jge (of_Z start) lo && jle (of_Z start) hi), unload,
    (Container.loaded t); reflexivity.
Qed.

(** X7.  [lazyLoadTabs] is idempotent: running the policy a second time,
    with nothing changed in between, leaves every tab as the first run put
    it. *)
Theorem lazyLoadTabs_idempotent (c : Container.Container) :
  Container.lazyLoadTabs (Container.lazyLoadTabs c) = Container.lazyLoadTabs c.
Proof.
  unfold Container.lazyLoadTabs at 2 3.
  destruct (Container._activeTabIndex c) as [a|] eqn:Ea.
  2:{ unfold Container.lazyLoadTabs. rewrite Ea. reflexivity. }
  destruct (Container.config c) as [cfg|] eqn:Ec.
  2:{ unfold Container.lazyLoadTabs. rewrite Ea, Ec. reflexivity. }
  unfold Container.lazyLoadTabs.
  destruct (lazyLoad cfg) eqn:El;
    cbn [negb Container._activeTabIndex Container.config Container.set_tabs
         Container.tabs];
    rewrite Ea, Ec, El; cbn [negb]; unfold Container.set_tabs;
    cbn [Container._activeTabIndex Container.config Container.tabs
         Container.swipeEnabled Container.autoScrollTop Container.initialCoords
         Container.lastPosX Container.isDragging Container.initialTimestamp
         Container._selectedTabIndex Container.leftThreshold
         Container.rightThreshold Container.scrollWidth Container.ready
         Container.width Container.scrollLeft].
  - rewrite lazyLoadLoop_twice. reflexivity.
  - rewrite map_map. reflexivity.
Qed.

Lemma lazyLoadLoop_keeps_loaded (lo hi : jsnum) (ts : list Container.SuperTab) :
  forall (start : Z) (i : nat) (t : Container.SuperTab),
    nth_error ts i = Some t ->
    exists t' : Container.SuperTab,
      nth_error (Container.lazyLoadLoop false lo hi start ts) i = Some t'
      /\ (Container.loaded t = true -> Container.loaded t' = true).
Proof.
  induction ts as [|tab rest IH]; intros start i t Hnth.
  - destruct i; discriminate.
  - destruct i as [|i]; simpl in Hnth; cbn [Container.lazyLoadLoop nth_error].
    + injection Hnth as ->. eexists. split; [reflexivity|].
      cbn [Container.loaded]. intros ->. apply orb_true_r.
    + apply IH. exact Hnth.
Qed.

Lemma lazyLoadTabs_keeps_loaded
    (c : Container.Container) (i : nat) (t : Container.SuperTab) :
  (forall cfg, Container.config c = Some cfg -> unloadWhenInvisible cfg = false) ->
  nth_error (Container.tabs c) i = Some t ->
  exists t' : Container.SuperTab,
    nth_error (Container.tabs (Container.lazyLoadTabs c)) i = Some t'
    /\ (Container.loaded t = true -> Container.loaded t' = true).
Proof.
  intros Hu Hnth. unfold Container.lazyLoadTabs.
  destruct (Container._activeTabIndex c) as [a|]; [|exists t; auto].
  destruct (Container.config c) as [cfg|] eqn:Ec; [|exists t; auto].
  rewrite (Hu cfg eq_refl).
  destruct (lazyLoad cfg); cbn [negb Container.tabs Container.set_tabs].
  - apply lazyLoadLoop_keeps_loaded. exact Hnth.
  - rewrite nth_error_map, Hnth. eexists. split; reflexivity.
Qed.

(** X8.  With [unloadWhenInvisible] off, loading is for good: a tab that is
    loaded stays loaded through any sequence of changes of the active
    index, wherever they lead. *)
Theorem loaded_tab_stays_loaded
    (c : Container.Container) (cfg : SuperTabsConfig) (emit : bool)
    (indices : list jsnum) (i : nat) (t : Container.SuperTab) :
  Container.config c = Some cfg ->
  unloadWhenInvisible cfg = false ->
  nth_error (Container.tabs c) i = Some t ->
  Container.loaded t = true ->
  exists (c' : Container.Container) (o : list Container.Output)
         (t' : Container.SuperTab),
    updateActiveTabIndex_all emit indices c = Some (tt, c', o)
    /\ nth_error (Container.tabs c') i = Some t'
    /\ Container.loaded t' = true.
Proof.
  intros Hcfg Hu. revert c t Hcfg.
  induction indices as [|index rest IH]; intros c t Hcfg Hnth Hl.
  - exists c, [], t. repeat split; assumption.
  - cbn [updateActiveTabIndex_all]. unfold Container.bind.
    rewrite (updateActiveTabIndex_run index emit c cfg Hcfg).
    set (c1 := if lazyLoad cfg
               then Container.lazyLoadTabs (Container.set_activeTabIndex (Some index) c)
               else Container.set_activeTabIndex (Some index) c).
    assert (Container.config c1 = Some cfg
            /\ exists t1, nth_error (Container.tabs c1) i = Some t1
                          /\ Container.loaded t1 = true) as [Hc1 [t1 [Hn1 Hl1]]].
    { unfold c1. destruct (lazyLoad cfg).
      - split.
        + destruct (lazyLoadTabs_keeps (Container.set_activeTabIndex (Some index) c))
            as [A _]. rewrite A. exact Hcfg.
        + destruct (lazyLoadTabs_keeps_loaded
                      (Container.set_activeTabIndex (Some index) c) i t)
            as [t1 [A B]].
          * intros cfg' E. cbn in E. rewrite Hcfg in E. injection E as <-. exact Hu.
          * exact Hnth.
          * exists t1. split; [exact A | apply B; exact Hl].
      - split; [exact Hcfg|]. exists t. split; assumption. }
    destruct (IH c1 t1 Hc1 Hn1 Hl1) as [c' [o [t' [Hrun [Hn' Hl']]]]].
    rewrite Hrun. exists c'. eexists. exists t'.
    split; [reflexivity|]. split; assumption.
Qed.

Lemma loaded_tab_stays_loaded_witness :
  Container.config (Sample.lazy_six false) = Some (Sample.lazy_config false)
  /\ unloadWhenInvisible (Sample.lazy_config false) = false
  /\ nth_error (Container.tabs (Sample.lazy_six false)) 5
     = Some {| Container.loaded := true; Container.visible := true |}
  /\ Container.loaded {| Container.loaded := true; Container.visible := true |} = true
  /\ exists (c' : Container.Container) (o : list Container.Output)
            (t' : Container.SuperTab),
       updateActiveTabIndex_all true [Fin 0; Fin 3; Fin 1] (Sample.lazy_six false)
       = Some (tt, c', o)
       /\ nth_error (Container.tabs c') 5 = Some t'
       /\ Container.loaded t' = true.
Proof.
  repeat (split; [reflexivity|]).
  apply (loaded_tab_stays_loaded (Sample.lazy_six false) (Sample.lazy_config false)
           true [Fin 0; Fin 3; Fin 1] 5
           {| Container.loaded := true; Container.visible := true |});
    reflexivity.
Defined.

Lemma lazyLoadLoop_count (unload : bool) (lo hi : jsnum) (top : Z)
    (ts : list Container.SuperTab) :
  (forall i : Z,
      jge (of_Z i) lo && jle (of_Z i) hi = true -> (top - 2 <= i <= top)%Z) ->
  forall start : Z,
    (Z.of_nat (count_visible (Container.lazyLoadLoop unload lo hi start ts))
     <= Z.max 0 (top - Z.max start (top - 2) + 1))%Z.
Proof.
  intros Hwin. unfold count_visible.
  induction ts as [|t rest IH]; intros start.
  - cbn. lia.
  - cbn [Container.lazyLoadLoop filter Container.visible].
    specialize (IH (start + 1)%Z).
    destruct (jge (of_Z start) lo && jle (of_Z start) hi) eqn:E.
    + apply Hwin in E. cbn [List.length]. lia.
    + lia.
Qed.

Lemma lazyLoadLoop_unload_loaded (lo hi : jsnum) (ts : list Container.SuperTab) :
  forall start : Z,
    filter Container.loaded (Container.lazyLoadLoop true lo hi start ts)
    = filter Container.visible (Container.lazyLoadLoop true lo hi start ts).
Proof.
  induction ts as [|t rest IH]; intros start; [reflexivity|].
  cbn [Container.lazyLoadLoop filter Container.visible Container.loaded].
  rewrite IH, orb_false_r. reflexivity.
Qed.

Lemma window_top (a : jsnum) :
  exists top : Z,
    forall i : Z,
      jge (of_Z i) (jsub a (Fin 1)) && jle (of_Z i) (jadd a (Fin 1)) = true ->
      (top - 2 <= i <= top)%Z.
Proof.
  destruct a as [q| | |].
  - exists (Qfloor (q + 1)). intros i H.
    apply andb_true_iff in H. destruct H as [H1 H2].
    unfold jge, of_Z in H1. unfold of_Z in H2.
    change (jsub (Fin q) (Fin 1)) with (Fin (q + - (1))) in H1.
    change (jadd (Fin q) (Fin 1)) with (Fin (q + 1)) in H2.
    apply jle_fin in H1. apply jle_fin in H2.
    pose proof (Qfloor_le (q + 1)) as Hlo.
    pose proof (Qlt_floor (q + 1)) as Hhi.
    rewrite inject_Z_plus in Hhi. change (inject_Z 1) with 1 in Hhi.
    split.
    + assert (inject_Z (Qfloor (q + 1) - 2) < inject_Z (i + 1)) as A.
      { unfold Z.sub. rewrite !inject_Z_plus, inject_Z_opp.
        change (inject_Z 1) with 1. change (inject_Z 2) with 2. lra. }
      rewrite <- Zlt_Qlt in A. lia.
    + apply Qfloor_resp_le in H2. rewrite Qfloor_Z in H2. exact H2.
  - exists 0%Z. intros i H. discriminate H.
  - exists 0%Z. intros i H. apply andb_true_iff in H. destruct H as [_ H].
    discriminate H.
  - exists 0%Z. intros i H. discriminate H.
Qed.

(** X9.  With [lazyLoad] on, [lazyLoadTabs] never leaves more than three
    tabs visible, whatever the active index (fractional, out of range, NaN)
    and however many tabs there are; with [unloadWhenInvisible] on as well,
    never more than three loaded. *)
Theorem lazy_window_at_most_three
    (c : Container.Container) (cfg : SuperTabsConfig) (a : jsnum) :
  Container.config c = Some cfg ->
  lazyLoad cfg = true ->
  Container._activeTabIndex c = Some a ->
  (count_visible (Container.tabs (Container.lazyLoadTabs c)) <= 3)%nat
  /\ (unloadWhenInvisible cfg = true ->
      (count_loaded (Container.tabs (Container.lazyLoadTabs c)) <= 3)%nat).
Proof.
  intros Hcfg Hlazy Hact. unfold Container.lazyLoadTabs.
  rewrite Hact, Hcfg, Hlazy. cbn [negb Container.tabs Container.set_tabs].
  destruct (window_top a) as [top Htop].
  pose proof (lazyLoadLoop_count (unloadWhenInvisible cfg) _ _ top
                (Container.tabs c) Htop 0) as Hc.
  split; [lia|].
  intros Hu. rewrite Hu in *. unfold count_loaded.
  rewrite lazyLoadLoop_unload_loaded. unfold count_visible in Hc. lia.
Qed.

Lemma lazy_window_at_most_three_witness :
  Container.config (Sample.lazy_six true) = Some (Sample.lazy_config true)
  /\ lazyLoad (Sample.lazy_config true) = true
  /\ Container._activeTabIndex (Sample.lazy_six true) = Some (of_Z 3)
  /\ (count_visible (Container.tabs (Container.lazyLoadTabs (Sample.lazy_six true)))
      <= 3)%nat
  /\ (unloadWhenInvisible (Sample.lazy_config true) = true ->
      (count_loaded (Container.tabs (Container.lazyLoadTabs (Sample.lazy_six true)))
       <= 3)%nat).
Proof.
  repeat (split; [reflexivity|]).
  apply (lazy_window_at_most_three (Sample.lazy_six true) (Sample.lazy_config true)
           (of_Z 3)); reflexivity.
Defined.

(** ** The touch handlers as a state machine *)

(** Unfolds the monad and splits on every test a handler performs,
    reusing what is already known about a tested value. *)
Ltac run_handler :=
  unfold Container.bind, Container.get, Container.theConfig,
    Container.theInitialCoords, Container.modify, Container.out, Container.ret;
  repeat (cbn beta iota zeta
            delta [Container.config Container.swipeEnabled Container.autoScrollTop
                   Container.tabs Container.initialCoords Container.lastPosX
                   Container.isDragging Container.initialTimestamp
                   Container._activeTabIndex Container._selectedTabIndex
                   Container.leftThreshold Container.rightThreshold
                   Container.scrollWidth Container.ready Container.width
                   Container.scrollLeft
                   Container.set_activeTabIndex Container.set_selectedTabIndex
                   Container.set_width Container.updateWidth
                   Container.clear_gesture
                   Gestures.set_initialTimestamp Gestures.set_touch
                   Gestures.set_lastPosX Gestures.set_isDragging
                   Gestures.set_scrollLeft app];
          match goal with
          | E : ?x = _ |- context [match ?x with _ => _ end] => rewrite E
          | |- context [match ?x with _ => _ end] =>
              lazymatch x with
              | context [match _ with _ => _ end] => fail
              | _ => destruct x eqn:?
              end
          end).

Lemma onTouchStart_step
    (attrs : list (option string)) (coords : STCoord) (boundingWidth now : Q)
    (c : Container.Container) (cfg : SuperTabsConfig) :
  Container.config c = Some cfg ->
  drag_has_origin c ->
  exists (c' : Container.Container),
    Gestures.onTouchStart attrs coords boundingWidth now c = Some (tt, c', [])
    /\ Container.config c' = Some cfg
    /\ drag_has_origin c'
    /\ Container.isDragging c' = Container.isDragging c
    /\ Container._activeTabIndex c' = Container._activeTabIndex c
    /\ Container._selectedTabIndex c' = Container._selectedTabIndex c.
Proof.
  intros Hcfg Hinv. unfold drag_has_origin in *. unfold Gestures.onTouchStart.
  run_handler; eexists; (split; [reflexivity|]);
    cbn; (split; [try assumption; reflexivity|]);
    (split; [|repeat split; reflexivity]);
    first [exact Hinv | intros _; split; discriminate].
Qed.

Lemma onTouchMove_step
    (checkGesture : STCoord -> STCoord -> SuperTabsConfig -> bool)
    (coords : STCoord) (c : Container.Container) (cfg : SuperTabsConfig) :
  Container.config c = Some cfg ->
  drag_has_origin c ->
  exists (c' : Container.Container) (o : list Container.Output),
    Gestures.onTouchMove checkGesture coords c = Some (tt, c', o)
    /\ Container.config c' = Some cfg
    /\ drag_has_origin c'
    /\ Container._activeTabIndex c' = Container._activeTabIndex c
    /\ forallb (fun e => negb (is_activeTabIndexChange e)) o = true
    /\ (Container.isDragging c = false ->
        (forall a b g, checkGesture a b g = false) ->
        o = [] /\ Container.isDragging c' = false
        /\ Container._selectedTabIndex c' = Container._selectedTabIndex c).
Proof.
  intros Hcfg Hinv. unfold drag_has_origin in *.
  unfold Gestures.onTouchMove, Container.updateSelectedTabIndex.
  run_handler;
    try solve [exfalso; cbn in *; congruence];
    eexists; eexists; (split; [reflexivity|]); cbn;
    (split; [try assumption; reflexivity|]);
    (split; [intros Hd; try solve [split; congruence];
             try solve [destruct (Hinv eq_refl); split; congruence];
             try solve [exact (Hinv Hd)];
             solve [destruct (Hinv Hd); split; congruence]|]);
    (split; [reflexivity|]); (split; [reflexivity|]);
    intros Hd Hrej;
    try discriminate Hd;
    try match goal with
        | E : checkGesture _ _ _ = true |- _ => rewrite Hrej in E; discriminate E
        end;
    repeat split; try reflexivity; try assumption.
Qed.

Lemma moveContainerByIndex_quiet
    (index : jsnum) (animate : bool) (c c' : Container.Container)
    (u : unit) (o : list Container.Output) :
  Container.moveContainerByIndex index animate c = Some (u, c', o) ->
  forallb (fun e => negb (is_activeTabIndexChange e)) o = true.
Proof.
  unfold Container.moveContainerByIndex, Container.moveContainer, Container.bind,
    Container.get, Container.theConfig, Container.out, Container.ret.
  cbn beta iota.
  destruct (jeq (Container.indexToPosition c index) (Fin 0) && jgt index (Fin 0));
    destruct animate; destruct (Container.config c);
    intros H; try discriminate; inversion H; reflexivity.
Qed.

Lemma onTouchEnd_dragging
    (c : Container.Container) (cfg : SuperTabsConfig) (ic coords : STCoord) (now : Q) :
  Container.swipeEnabled c = true ->
  Container.isDragging c = true ->
  Container.config c = Some cfg ->
  Container.initialCoords c = Some ic ->
  exists (c1 : Container.Container) (o : list Container.Output),
    Container.onTouchEnd coords now c
    = Some (tt, Container.clear_gesture c1,
            Container.ActiveTabIndexChange (Container.touchEndTarget c cfg ic coords now)
              :: o)
    /\ Container.config c1 = Some cfg
    /\ forallb (fun e => negb (is_activeTabIndexChange e)) o = true.
Proof.
  intros Hs Hd Hcfg Hic.
  unfold Container.onTouchEnd.
  unfold Container.bind at 1. unfold Container.get at 1.
  rewrite Hs, Hd. cbn [negb orb].
  unfold Container.bind at 1. unfold Container.theConfig at 1. rewrite Hcfg.
  unfold Container.bind at 1. unfold Container.theInitialCoords at 1. rewrite Hic.
  set (target := Container.touchEndTarget c cfg ic coords now).
  unfold Container.bind at 1.
  rewrite (updateActiveTabIndex_run target true c cfg Hcfg).
  set (c1 := if lazyLoad cfg
             then Container.lazyLoadTabs (Container.set_activeTabIndex (Some target) c)
             else Container.set_activeTabIndex (Some target) c).
  assert (Container.config c1 = Some cfg) as Hc1.
  { unfold c1. destruct (lazyLoad cfg); [|exact Hcfg].
    destruct (lazyLoadTabs_keeps (Container.set_activeTabIndex (Some target) c))
      as [A _].
    rewrite A. exact Hcfg. }
  destruct (moveContainerByIndex_run target true c1) as [o Ho];
    [rewrite Hc1; discriminate|].
  pose proof (moveContainerByIndex_quiet _ _ _ _ _ _ Ho) as Hq.
  unfold Container.bind at 1. rewrite Ho.
  unfold Container.modify.
  exists c1. eexists. split; [reflexivity|]. split; [exact Hc1|].
  rewrite forallb_app, Hq. reflexivity.
Qed.

Lemma onTouchEnd_step
    (coords : STCoord) (now : Q) (c : Container.Container) (cfg : SuperTabsConfig) :
  Container.config c = Some cfg ->
  drag_has_origin c ->
  exists (c' : Container.Container) (o : list Container.Output),
    Container.onTouchEnd coords now c = Some (tt, c', o)
    /\ Container.config c' = Some cfg
    /\ drag_has_origin c'
    /\ (Container.isDragging c = false -> c' = c /\ o = []).
Proof.
  intros Hcfg Hinv.
  destruct (Container.swipeEnabled c) eqn:Hs; destruct (Container.isDragging c) eqn:Hd.
  - destruct (Hinv Hd) as [Hic _].
    destruct (Container.initialCoords c) as [ic|] eqn:Eic; [|contradiction].
    destruct (onTouchEnd_dragging c cfg ic coords now Hs Hd Hcfg Eic)
      as [c1 [o [Hrun [Hc1 _]]]].
    eexists. eexists. split; [exact Hrun|]. split; [exact Hc1|].
    split; [intros H; discriminate H | intros H; discriminate H].
  - exists c, []. unfold Container.onTouchEnd, Container.bind, Container.get.
    rewrite Hs, Hd. split; [reflexivity|]. split; [exact Hcfg|].
    split; [exact Hinv|]. intros _. split; reflexivity.
  - exists c, []. unfold Container.onTouchEnd, Container.bind, Container.get.
    rewrite Hs, Hd. split; [reflexivity|]. split; [exact Hcfg|].
    split; [exact Hinv|]. intros _. split; reflexivity.
  - exists c, []. unfold Container.onTouchEnd, Container.bind, Container.get.
    rewrite Hs, Hd. split; [reflexivity|]. split; [exact Hcfg|].
    split; [exact Hinv|]. intros _. split; reflexivity.
Qed.

Lemma handle_step
    (checkGesture : STCoord -> STCoord -> SuperTabsConfig -> bool)
    (e : Gestures.TouchEvent) (c : Container.Container) (cfg : SuperTabsConfig) :
  Container.config c = Some cfg ->
  drag_has_origin c ->
  exists (c' : Container.Container) (o : list Container.Output),
    Gestures.handle checkGesture e c = Some (tt, c', o)
    /\ Container.config c' = Some cfg
    /\ drag_has_origin c'
    /\ (is_touchEnd e = false ->
        Container._activeTabIndex c' = Container._activeTabIndex c
        /\ forallb (fun e => negb (is_activeTabIndexChange e)) o = true)
    /\ (Container.isDragging c = false ->
        (forall a b g, checkGesture a b g = false) ->
        o = [] /\ Container.isDragging c' = false
        /\ Container._activeTabIndex c' = Container._activeTabIndex c
        /\ Container._selectedTabIndex c' = Container._selectedTabIndex c).
Proof.
  intros Hcfg Hinv. destruct e as [attrs coords bw now|coords|coords now|v|bw];
    cbn [Gestures.handle is_touchEnd].
  - destruct (onTouchStart_step attrs coords bw now c cfg Hcfg Hinv)
      as [c' [Hrun [A [B [C [D E]]]]]].
    exists c', []. split; [exact Hrun|]. split; [exact A|]. split; [exact B|].
    split; [intros _; split; [exact D | reflexivity]|].
    intros Hd _. split; [reflexivity|]. split; [congruence|].
    split; assumption.
  - destruct (onTouchMove_step checkGesture coords c cfg Hcfg Hinv)
      as [c' [o [Hrun [A [B [C [D E]]]]]]].
    exists c', o. split; [exact Hrun|]. split; [exact A|]. split; [exact B|].
    split; [intros _; split; assumption|].
    intros Hd Hrej. destruct (E Hd Hrej) as [E1 [E2 E3]].
    split; [exact E1|]. split; [exact E2|]. split; assumption.
  - destruct (onTouchEnd_step coords now c cfg Hcfg Hinv)
      as [c' [o [Hrun [A [B C]]]]].
    exists c', o. split; [exact Hrun|]. split; [exact A|]. split; [exact B|].
    split; [intros H; discriminate H|].
    intros Hd _. destruct (C Hd) as [-> ->]. repeat split. exact Hd.
  - exists (Gestures.set_scrollLeft v c), [].
    split; [reflexivity|]. split; [exact Hcfg|]. split; [exact Hinv|].
    split; [intros _; split; reflexivity|].
    intros Hd _. split; [reflexivity|]. split; [exact Hd|]. split; reflexivity.
  - exists (Container.updateWidth bw c), [].
    split; [reflexivity|]. split; [exact Hcfg|]. split; [exact Hinv|].
    split; [intros _; split; reflexivity|].
    intros Hd _. split; [reflexivity|]. split; [exact Hd|]. split; reflexivity.
Qed.

(** X10.  With their configuration in place the touch handlers never throw:
    any sequence of touch starts, moves and ends, interleaved with scrolls
    and re-measurements, runs to the end, whatever the gesture test answers.
    What makes it so is an invariant they keep: while [isDragging] is set,
    [initialCoords] and [lastPosX] are defined, which is what [onTouchEnd]
    dereferences. *)
Theorem touch_handlers_never_throw
    (checkGesture : STCoord -> STCoord -> SuperTabsConfig -> bool)
    (events : list Gestures.TouchEvent)
    (c : Container.Container) (cfg : SuperTabsConfig) :
  Container.config c = Some cfg ->
  drag_has_origin c ->
  exists (c' : Container.Container) (o : list Container.Output),
    Gestures.handle_all checkGesture events c = Some (tt, c', o)
    /\ Container.config c' = Some cfg
    /\ drag_has_origin c'.
Proof.
  revert c. induction events as [|e rest IH]; intros c Hcfg Hinv.
  - exists c, []. split; [reflexivity|]. split; assumption.
  - cbn [Gestures.handle_all]. unfold Container.bind.
    destruct (handle_step checkGesture e c cfg Hcfg Hinv)
      as [c1 [o1 [Hrun [A [B _]]]]].
    rewrite Hrun.
    destruct (IH c1 A B) as [c' [o [Hrest [A' B']]]].
    rewrite Hrest. exists c'. eexists. split; [reflexivity|]. split; assumption.
Qed.

(** X11.  A gesture that is never recognised does nothing: if the gesture
    test rejects every move, then from a container that is not dragging any
    sequence of events produces no event and no scroll, never starts a drag,
    and leaves the active and the selected index as they were.  A touch that
    stays under the drag threshold therefore commits nothing. *)
Theorem unrecognised_gesture_changes_nothing
    (checkGesture : STCoord -> STCoord -> SuperTabsConfig -> bool)
    (events : list Gestures.TouchEvent)
    (c : Container.Container) (cfg : SuperTabsConfig) :
  (forall a b g, checkGesture a b g = false) ->
  Container.config c = Some cfg ->
  Container.isDragging c = false ->
  exists c' : Container.Container,
    Gestures.handle_all checkGesture events c = Some (tt, c', [])
    /\ Container.isDragging c' = false
    /\ Container._activeTabIndex c' = Container._activeTabIndex c
    /\ Container._selectedTabIndex c' = Container._selectedTabIndex c.
Proof.
  intros Hrej. revert c. induction events as [|e rest IH]; intros c Hcfg Hd.
  - exists c. split; [reflexivity|]. split; [exact Hd|]. split; reflexivity.
  - cbn [Gestures.handle_all]. unfold Container.bind.
    assert (drag_has_origin c) as Hinv
      by (intros H; rewrite Hd in H; discriminate H).
    destruct (handle_step checkGesture e c cfg Hcfg Hinv)
      as [c1 [o1 [Hrun [A [_ [_ E]]]]]].
    destruct (E Hd Hrej) as [-> [Hd1 [Ha1 Hs1]]].
    rewrite Hrun.
    destruct (IH c1 A Hd1) as [c' [Hrest [Hd' [Ha' Hs']]]].
    rewrite Hrest. exists c'. split; [reflexivity|].
    split; [exact Hd'|]. split; congruence.
Qed.

(** X12.  A drag in progress never commits: over any sequence of events
    that contains no touch end, the active index of the container stays as
    it was and no [activeTabIndexChange] is emitted, however far the surface
    is dragged. *)
Theorem drag_in_progress_never_commits
    (checkGesture : STCoord -> STCoord -> SuperTabsConfig -> bool)
    (events : list Gestures.TouchEvent)
    (c : Container.Container) (cfg : SuperTabsConfig) :
  Container.config c = Some cfg ->
  drag_has_origin c ->
  forallb (fun e => negb (is_touchEnd e)) events = true ->
  exists (c' : Container.Container) (o : list Container.Output),
    Gestures.handle_all checkGesture events c = Some (tt, c', o)
    /\ Container._activeTabIndex c' = Container._activeTabIndex c
    /\ forallb (fun e => negb (is_activeTabIndexChange e)) o = true.
Proof.
  revert c. induction events as [|e rest IH]; intros c Hcfg Hinv Hne.
  - exists c, []. split; [reflexivity|]. split; reflexivity.
  - cbn [Gestures.handle_all]. unfold Container.bind.
    cbn [forallb] in Hne. apply andb_true_iff in Hne. destruct Hne as [He Hrest].
    apply negb_true_iff in He.
    destruct (handle_step checkGesture e c cfg Hcfg Hinv)
      as [c1 [o1 [Hrun [A [B [C _]]]]]].
    destruct (C He) as [Ha1 Hq1].
    rewrite Hrun.
    destruct (IH c1 A B Hrest) as [c' [o [Hr [Ha' Hq']]]].
    rewrite Hr. exists c'. eexists. split; [reflexivity|].
    split; [congruence|]. rewrite forallb_app, Hq1, Hq'. reflexivity.
Qed.

Lemma onTouchMove_outputs
    (checkGesture : STCoord -> STCoord -> SuperTabsConfig -> bool)
    (coords : STCoord) (c c' : Container.Container) (u : unit)
    (o : list Container.Output) :
  Gestures.onTouchMove checkGesture coords c = Some (u, c', o) ->
  o = []
  \/ exists lastX : Q,
       o = [Container.ElScroll (Gestures.touchMove_scrollX c lastX coords)]
       \/ o = [Container.SelectedTabIndexChange
                 (Gestures.touchMove_index c (Gestures.touchMove_scrollX c lastX coords));
               Container.ElScroll (Gestures.touchMove_scrollX c lastX coords)].
Proof.
  unfold Gestures.onTouchMove, Container.updateSelectedTabIndex.
  run_handler; intros H; try discriminate H; inversion H; subst;
    first [left; reflexivity
          | right; eexists; left; reflexivity
          | right; eexists; right; reflexivity].
Qed.

Lemma Qround_le (p q : Q) : p <= q -> (Qround p <= Qround q)%Z.
Proof.
  intros H. unfold Qround. apply Qfloor_resp_le. lra.
Qed.

Lemma touchMove_scrollX_range
    (c : Container.Container) (n : Z) (lastX : Q) (coords : STCoord) :
  (1 <= n)%Z ->
  0 < Container.width c ->
  Container.scrollWidth c == inject_Z n * Container.width c ->
  exists r : Q,
    Gestures.touchMove_scrollX c lastX coords = Fin r
    /\ 0 <= r /\ r <= (inject_Z n - 1) * Container.width c.
Proof.
  intros Hn Hw Hsw. unfold Gestures.touchMove_scrollX.
  change (jadd (Fin (Container.scrollLeft c)) (jsub (Fin lastX) (Fin (x coords))))
    with (Fin (Container.scrollLeft c + (lastX + - x coords))).
  apply clamp_in_range; [exact Hn | lra | exact Hsw].
Qed.

Lemma touchMove_index_range
    (c : Container.Container) (n : Z) (r : Q) :
  0 < Container.width c ->
  0 <= r -> r <= (inject_Z n - 1) * Container.width c ->
  exists z : Z,
    Gestures.touchMove_index c (Fin r) = Fin (inject_Z z / 100)
    /\ (0 <= z <= (n - 1) * 100)%Z.
Proof.
  intros Hw Hlo Hhi. unfold Gestures.touchMove_index.
  rewrite positionToIndex_fin by lra.
  exists (Qround (r / Container.width c * 100)). split; [reflexivity|].
  assert (0 <= r / Container.width c) as A
    by (apply Qle_shift_div_l; [exact Hw | lra]).
  assert (r / Container.width c <= inject_Z n - 1) as B
    by (apply Qle_shift_div_r; [exact Hw | exact Hhi]).
  split.
  - rewrite <- (Qround_inject_Z 0). apply Qround_le. change (inject_Z 0) with 0. lra.
  - rewrite <- (Qround_inject_Z ((n - 1) * 100)). apply Qround_le.
    rewrite inject_Z_mult. unfold Z.sub. rewrite inject_Z_plus, inject_Z_opp.
    change (inject_Z 100) with 100. change (inject_Z 1) with 1. lra.
Qed.

(** X13.  What a drag shows while it lasts stays on the tabs: on a container
    with a positive width and a scrollable width of [n >= 1] tabs, every
    touch move goes through, and whatever it produces is a selected index of
    [[0, n - 1]] with two decimals and a scroll to an offset of
    [[0, scrollWidth - width]], the bound the code clamps to; in particular
    it announces no active tab. *)
Theorem touch_move_preview_in_range
    (checkGesture : STCoord -> STCoord -> SuperTabsConfig -> bool)
    (coords : STCoord) (c : Container.Container) (cfg : SuperTabsConfig) (n : Z) :
  Container.config c = Some cfg ->
  drag_has_origin c ->
  (1 <= n)%Z ->
  0 < Container.width c ->
  Container.scrollWidth c == inject_Z n * Container.width c ->
  exists (c' : Container.Container) (o : list Container.Output),
    Gestures.onTouchMove checkGesture coords c = Some (tt, c', o)
    /\ Forall (preview_output n (Container.scrollWidth c - Container.width c)) o.
Proof.
  intros Hcfg Hinv Hn Hw Hsw.
  destruct (onTouchMove_step checkGesture coords c cfg Hcfg Hinv)
    as [c' [o [Hrun _]]].
  exists c', o. split; [exact Hrun|].
  assert ((inject_Z n - 1) * Container.width c
          == Container.scrollWidth c - Container.width c) as Hspan
    by (rewrite Hsw; ring).
  destruct (onTouchMove_outputs checkGesture coords c c' tt o Hrun)
    as [-> | [lastX [-> | ->]]].
  - constructor.
  - destruct (touchMove_scrollX_range c n lastX coords Hn Hw Hsw) as [r [Hr [A B]]].
    constructor; [|constructor].
    cbn [preview_output]. exists r. rewrite <- Hspan. repeat split; assumption.
  - destruct (touchMove_scrollX_range c n lastX coords Hn Hw Hsw) as [r [Hr [A B]]].
    constructor; [|constructor; [|constructor]].
    + cbn [preview_output]. rewrite Hr.
      apply touchMove_index_range; assumption.
    + cbn [preview_output]. exists r. rewrite <- Hspan. repeat split; assumption.
Qed.

Lemma touch_handlers_never_throw_witness :
  Container.config SampleTouch.at_rest = Some DEFAULT_CONFIG
  /\ drag_has_origin SampleTouch.at_rest
  /\ exists (c' : Container.Container) (o : list Container.Output),
       Gestures.handle_all SampleTouch.accept SampleTouch.swipe SampleTouch.at_rest
       = Some (tt, c', o)
       /\ Container.config c' = Some DEFAULT_CONFIG
       /\ drag_has_origin c'.
Proof.
  split; [reflexivity|]. split; [intros H; discriminate H|].
  apply (touch_handlers_never_throw SampleTouch.accept SampleTouch.swipe
           SampleTouch.at_rest DEFAULT_CONFIG).
  - reflexivity.
  - intros H; discriminate H.
Defined.

Lemma unrecognised_gesture_changes_nothing_witness :
  (forall a b g, SampleTouch.reject a b g = false)
  /\ Container.config SampleTouch.at_rest = Some DEFAULT_CONFIG
  /\ Container.isDragging SampleTouch.at_rest = false
  /\ exists c' : Container.Container,
       Gestures.handle_all SampleTouch.reject SampleTouch.swipe SampleTouch.at_rest
       = Some (tt, c', [])
       /\ Container.isDragging c' = false
       /\ Container._activeTabIndex c' = Container._activeTabIndex SampleTouch.at_rest
       /\ Container._selectedTabIndex c'
          = Container._selectedTabIndex SampleTouch.at_rest.
Proof.
  split; [intros a b g; reflexivity|]. split; [reflexivity|]. split; [reflexivity|].
  apply (unrecognised_gesture_changes_nothing SampleTouch.reject SampleTouch.swipe
           SampleTouch.at_rest DEFAULT_CONFIG).
  - intros a b g. reflexivity.
  - reflexivity.
  - reflexivity.
Defined.

Lemma drag_in_progress_never_commits_witness :
  Container.config SampleTouch.at_rest = Some DEFAULT_CONFIG
  /\ drag_has_origin SampleTouch.at_rest
  /\ forallb (fun e => negb (is_touchEnd e)) SampleTouch.drag = true
  /\ exists (c' : Container.Container) (o : list Container.Output),
       Gestures.handle_all SampleTouch.accept SampleTouch.drag SampleTouch.at_rest
       = Some (tt, c', o)
       /\ Container._activeTabIndex c' = Container._activeTabIndex SampleTouch.at_rest
       /\ forallb (fun e => negb (is_activeTabIndexChange e)) o = true.
Proof.
  split; [reflexivity|]. split; [intros H; discriminate H|]. split; [reflexivity|].
  apply (drag_in_progress_never_commits SampleTouch.accept SampleTouch.drag
           SampleTouch.at_rest DEFAULT_CONFIG).
  - reflexivity.
  - intros H; discriminate H.
  - reflexivity.
Defined.

Lemma touch_move_preview_in_range_witness :
  Container.config (Sample.dragging 50 0) = Some DEFAULT_CONFIG
  /\ drag_has_origin (Sample.dragging 50 0)
  /\ (1 <= 4)%Z
  /\ 0 < Container.width (Sample.dragging 50 0)
  /\ Container.scrollWidth (Sample.dragging 50 0)
     == inject_Z 4 * Container.width (Sample.dragging 50 0)
  /\ exists (c' : Container.Container) (o : list Container.Output),
       Gestures.onTouchMove SampleTouch.accept {| x := 100; y := 12 |}
         (Sample.dragging 50 0)
       = Some (tt, c', o)
       /\ Forall (preview_output 4
                   (Container.scrollWidth (Sample.dragging 50 0)
                    - Container.width (Sample.dragging 50 0))) o.
Proof.
  split; [reflexivity|]. split; [intros _; split; discriminate|].
  split; [lia|]. split; [reflexivity|]. split; [reflexivity|].
  apply (touch_move_preview_in_range SampleTouch.accept {| x := 100; y := 12 |}
           (Sample.dragging 50 0) DEFAULT_CONFIG 4).
  - reflexivity.
  - intros _; split; discriminate.
  - lia.
  - reflexivity.
  - reflexivity.
Defined.

(** The quick swipe, run: two previews while the finger moves, then the
    commit to tab 1 and the animated scroll to its offset. *)
Example swipe_run :
  option_map snd
    (Gestures.handle_all SampleTouch.accept SampleTouch.swipe SampleTouch.at_rest)
  = Some [Container.SelectedTabIndexChange (Fin (inject_Z 17 / 100));
          Container.ElScroll (Fin 50);
          Container.SelectedTabIndexChange (Fin (inject_Z 33 / 100));
          Container.ElScroll (Fin 100);
          Container.ActiveTabIndexChange (of_Z 1);
          Container.ScrollEl (Fin (inject_Z 3000000 / 10000)) None 150].
Proof. reflexivity. Qed.

(** ** The eased scroll *)


Lemma cube_monotone (a b : Q) : a <= b -> a * a * a <= b * b * b.
Proof.
  intros H.
  assert (b * b * b - a * a * a
          == (b - a) * ((b + a * (1 # 2)) * (b + a * (1 # 2)) + (3 # 4) * (a * a)))
    as E by ring.
  assert (0 <= (b + a * (1 # 2)) * (b + a * (1 # 2)) + (3 # 4) * (a * a)) as P.
  { assert (forall u : Q, 0 <= u * u) as Sq by (intros u; nra).
    pose proof (Sq (b + a * (1 # 2))) as P1.
    pose proof (Sq a) as P2. lra. }
  assert (0 <= (b - a) * ((b + a * (1 # 2)) * (b + a * (1 # 2)) + (3 # 4) * (a * a)))
    as Q0 by (apply Qmult_le_0_compat; [lra | exact P]).
  lra.
Qed.

Lemma ease_low (t : Q) : t <= 0.5 -> 4 * t * t * t <= 1 # 2.
Proof.
  intros H. pose proof (cube_monotone t 0.5 H) as C.
  assert (0.5 * 0.5 * 0.5 == 1 # 8) as E by reflexivity.
  rewrite E in C. lra.
Qed.

Lemma ease_high (t : Q) :
  0.5 <= t -> (1 # 2) <= (t - 1) * (2 * t - 2) * (2 * t - 2) + 1.
Proof.
  intros H.
  assert (0.5 - 1 <= t - 1) as H' by lra.
  pose proof (cube_monotone (0.5 - 1) (t - 1) H') as C.
  assert ((0.5 - 1) * (0.5 - 1) * (0.5 - 1) == - (1 # 8)) as E by reflexivity.
  rewrite E in C.
  assert ((t - 1) * (2 * t - 2) * (2 * t - 2) == 4 * ((t - 1) * (t - 1) * (t - 1)))
    as R by ring.
  lra.
Qed.

Lemma easeInOutCubic_monotone (s t : Q) :
  s <= t -> easeInOutCubic s <= easeInOutCubic t.
Proof.
  intros H. unfold easeInOutCubic.
  destruct (Qlt_le_dec s 0.5) as [Hs|Hs]; destruct (Qlt_le_dec t 0.5) as [Ht|Ht].
  - pose proof (cube_monotone s t H). lra.
  - pose proof (ease_low s (Qlt_le_weak _ _ Hs)). pose proof (ease_high t Ht). lra.
  - lra.
  - assert (s - 1 <= t - 1) as H' by lra.
    pose proof (cube_monotone (s - 1) (t - 1) H') as C.
    assert ((s - 1) * (2 * s - 2) * (2 * s - 2) == 4 * ((s - 1) * (s - 1) * (s - 1)))
      as Rs by ring.
    assert ((t - 1) * (2 * t - 2) * (2 * t - 2) == 4 * ((t - 1) * (t - 1) * (t - 1)))
      as Rt by ring.
    lra.
Qed.

Lemma easeInOutCubic_range (t : Q) :
  0 <= t -> t <= 1 -> 0 <= easeInOutCubic t /\ easeInOutCubic t <= 1.
Proof.
  intros H0 H1.
  assert (easeInOutCubic 0 == 0) as E0 by reflexivity.
  assert (easeInOutCubic 1 == 1) as E1 by reflexivity.
  pose proof (easeInOutCubic_monotone 0 t H0) as A.
  pose proof (easeInOutCubic_monotone t 1 H1) as B.
  rewrite E0 in A. rewrite E1 in B. split; assumption.
Qed.

(** X14.  The easing curve starts at 0, ends at 1, never decreases, and
    stays within [[0, 1]] on [[0, 1]]: an eased scroll never runs backwards
    and never overshoots. *)
Theorem easeInOutCubic_shape (s t : Q) :
  easeInOutCubic 0 == 0
  /\ easeInOutCubic 1 == 1
  /\ (s <= t -> easeInOutCubic s <= easeInOutCubic t)
  /\ (0 <= t -> t <= 1 -> 0 <= easeInOutCubic t /\ easeInOutCubic t <= 1).
Proof.
  assert (easeInOutCubic 0 == 0) as E0 by reflexivity.
  assert (easeInOutCubic 1 == 1) as E1 by reflexivity.
  split; [exact E0|]. split; [exact E1|].
  split; [apply easeInOutCubic_monotone | apply easeInOutCubic_range].
Qed.








Lemma easeInOutCubic_shape_witness :
  (1 # 4) <= (3 # 4)
  /\ 0 <= (3 # 4)
  /\ (3 # 4) <= 1
  /\ easeInOutCubic (1 # 4) <= easeInOutCubic (3 # 4)
  /\ 0 <= easeInOutCubic (3 # 4)
  /\ easeInOutCubic (3 # 4) <= 1.
Proof.
  assert ((1 # 4) <= (3 # 4)) as H1 by (compute; discriminate).
  assert (0 <= (3 # 4)) as H2 by (compute; discriminate).
  assert ((3 # 4) <= 1) as H3 by (compute; discriminate).
  destruct (easeInOutCubic_shape (1 # 4) (3 # 4)) as [_ [_ [Hmono Hrange]]].
  destruct (Hrange H2 H3) as [Hlo Hhi].
  split; [exact H1|]. split; [exact H2|]. split; [exact H3|].
  split; [exact (Hmono H1)|]. split; [exact Hlo | exact Hhi].
Defined.









(** The same animation, run: towards 822.8572, the offset of tab 2 on a
    411.4286 pixel wide container, it stops on 823. *)
Example scrollEl_run :
  Scroller.scrollEl true 0 (Fin (8228572 # 10000)) None 150
    (1000 :: [1016; 1100] ++ 1150 :: [1166])
  = ([Scroller.ScrollTo (of_Z 4); Scroller.ScrollTo (of_Z 701);
      Scroller.ScrollTo (of_Z 823)], true).
Proof. vm_compute. reflexivity. Qed.

(** ** The toolbar's active button *)

Lemma set_nth_length (n : nat) (v : bool) (l : list bool) :
  List.length (Toolbar.set_nth n v l) = List.length l.
Proof.
  revert n. induction l as [|b r IH]; intros [|m]; cbn; try reflexivity.
  rewrite IH. reflexivity.
Qed.

Lemma nth_set_nth (n i : nat) (v : bool) (l : list bool) :
  nth i (Toolbar.set_nth n v l) false
  = if (Nat.eqb i n && Nat.ltb n (List.length l))%bool then v else nth i l false.
Proof.
  revert n i. induction l as [|b r IH]; intros n i.
  - cbn. destruct n, i; cbn; try reflexivity; rewrite Bool.andb_false_r; reflexivity.
  - destruct n as [|n], i as [|i]; cbn [Toolbar.set_nth nth List.length]; try reflexivity.
    rewrite IH. change (S i =? S n)%nat with (i =? n)%nat.
    change (S n <? S (List.length r))%nat with (n <? List.length r)%nat.
    reflexivity.
Qed.

(** The index [setActiveTab] settles on, with at least one button: the
    rounded index, clamped to the buttons. *)
Lemma toolbar_clamp (q : Q) (n : nat) :
  (0 < n)%nat ->
  exists r : Q,
    jmax (Fin 0) (jmin (jround (Fin q)) (jsub (of_Z (Z.of_nat n)) (Fin 1))) = Fin r
    /\ r == inject_Z (Z.max 0 (Z.min (Qround q) (Z.of_nat n - 1))).
Proof.
  intros Hn.
  change (jsub (of_Z (Z.of_nat n)) (Fin 1)) with (Fin (inject_Z (Z.of_nat n) + - 1)).
  assert (inject_Z (Z.of_nat n) + - 1 == inject_Z (Z.of_nat n - 1)) as Hlast.
  { unfold Z.sub. rewrite inject_Z_plus. reflexivity. }
  cbn [jround]. unfold jmin, jcmp.
  destruct (inject_Z (Qround q) ?= inject_Z (Z.of_nat n) + - 1) eqn:E.
  - apply Qeq_alt in E. rewrite Hlast in E.
    assert (Qround q = Z.of_nat n - 1)%Z as Hz
      by (unfold Qeq in E; simpl in E; lia).
    unfold jmax, jcmp.
    destruct (0 ?= inject_Z (Qround q)) eqn:E0.
    + eexists; split; [reflexivity|]. apply Qeq_alt in E0.
      unfold Qeq in E0; simpl in E0. rewrite Z.max_l by lia. reflexivity.
    + eexists; split; [reflexivity|]. apply Qlt_alt in E0.
      unfold Qlt in E0; simpl in E0.
      rewrite Z.max_r, Z.min_l by lia. reflexivity.
    + eexists; split; [reflexivity|]. apply Qgt_alt in E0.
      unfold Qlt in E0; simpl in E0. lia.
  - apply Qlt_alt in E. rewrite Hlast in E.
    assert (Qround q < Z.of_nat n - 1)%Z as Hz
      by (unfold Qlt in E; simpl in E; lia).
    unfold jmax, jcmp.
    destruct (0 ?= inject_Z (Qround q)) eqn:E0.
    + eexists; split; [reflexivity|]. apply Qeq_alt in E0.
      unfold Qeq in E0; simpl in E0. rewrite Z.max_l by lia. reflexivity.
    + eexists; split; [reflexivity|]. apply Qlt_alt in E0.
      unfold Qlt in E0; simpl in E0.
      rewrite Z.max_r, Z.min_l by lia. reflexivity.
    + eexists; split; [reflexivity|]. apply Qgt_alt in E0.
      unfold Qlt in E0; simpl in E0. rewrite Z.max_l by lia. reflexivity.
  - apply Qgt_alt in E. rewrite Hlast in E.
    assert (Z.of_nat n - 1 < Qround q)%Z as Hz
      by (unfold Qlt in E; simpl in E; lia).
    unfold jmax, jcmp.
    destruct (0 ?= inject_Z (Z.of_nat n) + - 1) eqn:E0.
    + eexists; split; [reflexivity|]. apply Qeq_alt in E0. rewrite Hlast in E0.
      unfold Qeq in E0; simpl in E0. rewrite Z.max_l by lia. reflexivity.
    + eexists; split; [reflexivity|]. rewrite Hlast.
      rewrite Z.max_r, Z.min_r by lia. reflexivity.
    + eexists; split; [reflexivity|]. apply Qgt_alt in E0. rewrite Hlast in E0.
      unfold Qlt in E0; simpl in E0. lia.
Qed.

(** [this.buttons[index]] for an index that denotes a position. *)
Lemma button_at_position (t : Toolbar.Toolbar) (r : Q) (k : Z) :
  r == inject_Z k ->
  (0 <= k < Z.of_nat (List.length (Toolbar.buttons t)))%Z ->
  Toolbar.button_at t (Fin r) = Some (Z.to_nat k).
Proof.
  intros Hr Hk. unfold Toolbar.button_at.
  assert (Qfloor r = k) as Hf by (rewrite Hr; apply Qfloor_Z).
  rewrite Hf.
  assert (Qeq_bool r (inject_Z k) = true) as -> by (apply Qeq_bool_iff; exact Hr).
  assert ((0 <=? k)%Z = true) as -> by (apply Z.leb_le; lia).
  assert ((Z.to_nat k <? List.length (Toolbar.buttons t))%nat = true) as ->
    by (apply Nat.ltb_lt; lia).
  reflexivity.
Qed.

Lemma setActiveTab_marks
    (t : Toolbar.Toolbar) (q : Q) (align animate : bool) :
  Toolbar.buttons t <> [] ->
  at_most_activeButton t ->
  let k := Z.to_nat (Z.max 0 (Z.min (Qround q)
                                (Z.of_nat (List.length (Toolbar.buttons t)) - 1))) in
  let t' := Toolbar.setActiveTab (Fin q) align animate t in
  List.length (Toolbar.buttons t') = List.length (Toolbar.buttons t)
  /\ equiv (Toolbar.activeTabIndex t') (of_Z (Z.of_nat k))
  /\ Toolbar.activeButton t' = Some k
  /\ (forall i : nat, nth i (Toolbar.buttons t') false = true <-> i = k)
  /\ Toolbar.config t' = Toolbar.config t.
Proof.
  intros Hne Hinv k t'.
  assert (0 < List.length (Toolbar.buttons t))%nat as Hlen
    by (destruct (Toolbar.buttons t); [congruence | cbn; lia]).
  destruct (toolbar_clamp q (List.length (Toolbar.buttons t)) Hlen) as [r [Hidx Hr]].
  set (z := Z.max 0 (Z.min (Qround q) (Z.of_nat (List.length (Toolbar.buttons t)) - 1)))
    in *.
  assert (0 <= z < Z.of_nat (List.length (Toolbar.buttons t)))%Z as Hz by (unfold z; lia).
  assert (k < List.length (Toolbar.buttons t))%nat as Hk by (unfold k; lia).
  unfold t', Toolbar.setActiveTab. rewrite Hidx.
  rewrite (button_at_position _ r z Hr) by exact Hz.
  fold k. unfold Toolbar.markButtonActive.
  cbn [Toolbar.buttons Toolbar.activeButton Toolbar.activeTabIndex Toolbar.config].
  split; [|split; [|split; [|split]]].
  - rewrite set_nth_length. destruct (Toolbar.activeButton t);
      [apply set_nth_length | reflexivity].
  - cbn [equiv of_Z]. rewrite Hr. unfold k. rewrite Z2Nat.id by lia. reflexivity.
  - reflexivity.
  - intros i. rewrite nth_set_nth.
    assert (List.length (match Toolbar.activeButton t with
                         | Some a => Toolbar.set_nth a false (Toolbar.buttons t)
                         | None => Toolbar.buttons t
                         end) = List.length (Toolbar.buttons t)) as ->
      by (destruct (Toolbar.activeButton t); [apply set_nth_length | reflexivity]).
    assert ((k <? List.length (Toolbar.buttons t))%nat = true) as ->
      by (apply Nat.ltb_lt; exact Hk).
    rewrite Bool.andb_true_r.
    destruct (Nat.eqb_spec i k) as [->|Hik].
    + split; reflexivity.
    + split; [|intros; contradiction].
      intros Hon. exfalso.
      destruct (Toolbar.activeButton t) as [a|] eqn:Ea.
      * rewrite nth_set_nth in Hon.
        destruct (Nat.eqb_spec i a) as [->|Hia].
        -- destruct (a <? List.length (Toolbar.buttons t))%nat eqn:El;
             cbn [andb] in Hon; [discriminate|].
           apply Nat.ltb_ge in El. rewrite nth_overflow in Hon by exact El.
           discriminate.
        -- cbn [andb] in Hon. apply Hinv in Hon. congruence.
      * apply Hinv in Hon. congruence.
  - reflexivity.
Qed.

(** X17.  [setActiveTab] on a toolbar that has buttons, for any finite
    index: it settles on the rounded index clamped to the buttons, that
    button becomes the active one, and it is the only button marked
    [active] afterwards, provided no button other than the previous active
    one was marked before.  So "at most the active button is marked" is kept
    by every call, and "exactly one" holds from the first call on. *)
Theorem setActiveTab_marks_exactly_one
    (t : Toolbar.Toolbar) (q : Q) (align animate : bool) :
  Toolbar.buttons t <> [] ->
  at_most_activeButton t ->
  let k := Z.to_nat (Z.max 0 (Z.min (Qround q)
                                (Z.of_nat (List.length (Toolbar.buttons t)) - 1))) in
  let t' := Toolbar.setActiveTab (Fin q) align animate t in
  (k < List.length (Toolbar.buttons t))%nat
  /\ List.length (Toolbar.buttons t') = List.length (Toolbar.buttons t)
  /\ equiv (Toolbar.activeTabIndex t') (of_Z (Z.of_nat k))
  /\ Toolbar.activeButton t' = Some k
  /\ (forall i : nat, nth i (Toolbar.buttons t') false = true <-> i = k)
  /\ at_most_activeButton t'.
Proof.
  intros Hne Hinv k t'.
  destruct (setActiveTab_marks t q align animate Hne Hinv) as [Hl [Hi [Ha [Hb _]]]].
  fold k in Hl, Hi, Ha, Hb. fold t' in Hl, Hi, Ha, Hb.
  assert (0 < List.length (Toolbar.buttons t))%nat as Hlen
    by (destruct (Toolbar.buttons t); [congruence | cbn; lia]).
  split; [unfold k; lia|].
  split; [exact Hl|]. split; [exact Hi|]. split; [exact Ha|]. split; [exact Hb|].
  intros i Hon. apply Hb in Hon. rewrite Ha, Hon. reflexivity.
Qed.

Lemma four_buttons_at_most : at_most_activeButton Sample.four_buttons.
Proof.
  intros i. cbn.
  destruct i as [|[|[|[|i]]]]; cbn; try discriminate; try reflexivity.
  destruct i; discriminate.
Qed.

Lemma setActiveTab_marks_exactly_one_witness :
  Toolbar.buttons Sample.four_buttons <> []
  /\ at_most_activeButton Sample.four_buttons
  /\ let k := Z.to_nat (Z.max 0 (Z.min (Qround (27 # 10))
                (Z.of_nat (List.length (Toolbar.buttons Sample.four_buttons)) - 1))) in
     let t' := Toolbar.setActiveTab (Fin (27 # 10)) true true Sample.four_buttons in
     (k < List.length (Toolbar.buttons Sample.four_buttons))%nat
     /\ List.length (Toolbar.buttons t') = List.length (Toolbar.buttons Sample.four_buttons)
     /\ equiv (Toolbar.activeTabIndex t') (of_Z (Z.of_nat k))
     /\ Toolbar.activeButton t' = Some k
     /\ (forall i : nat, nth i (Toolbar.buttons t') false = true <-> i = k)
     /\ at_most_activeButton t'.
Proof.
  assert (Toolbar.buttons Sample.four_buttons <> []) as Hne by (cbn; discriminate).
  split; [exact Hne|]. split; [exact four_buttons_at_most|].
  exact (setActiveTab_marks_exactly_one Sample.four_buttons (27 # 10) true true
           Hne four_buttons_at_most).
Defined.

(** The same call, run: 2.7 rounds to button 3. *)
Example setActiveTab_run :
  Toolbar.buttons (Toolbar.setActiveTab (Fin (27 # 10)) true true Sample.four_buttons)
  = [false; false; false; true].
Proof. reflexivity. Qed.

(** ** The root component and its children *)

(** Delivering the container's events to the root touches neither the
    container nor the set-up of the root. *)
Lemma deliver_one_keeps (s : Tabs.SuperTabs) (o : Container.Output) :
  Tabs.container (Tabs.deliver_one s o) = Tabs.container s
  /\ Tabs._config (Tabs.deliver_one s o) = Tabs._config s
  /\ Tabs.listensContainer (Tabs.deliver_one s o) = Tabs.listensContainer s
  /\ Tabs.listensToolbar (Tabs.deliver_one s o) = Tabs.listensToolbar s
  /\ Tabs.initResolved (Tabs.deliver_one s o) = Tabs.initResolved s
  /\ Tabs.initAttempts (Tabs.deliver_one s o) = Tabs.initAttempts s.
Proof.
  unfold Tabs.deliver_one, Tabs.onContainerActiveTabChange, Tabs.emitTabChangeEvent.
  destruct o; cbn [Tabs.add_outputs Tabs.listensContainer];
    destruct (Tabs.listensContainer s) eqn:El;
    try (destruct (jlt index (Fin 0)));
    cbn; rewrite ?El; repeat split; reflexivity.
Qed.

Lemma deliver_keeps (o : list Container.Output) :
  forall s : Tabs.SuperTabs,
    Tabs.container (Tabs.deliver o s) = Tabs.container s
    /\ Tabs._config (Tabs.deliver o s) = Tabs._config s
    /\ Tabs.listensContainer (Tabs.deliver o s) = Tabs.listensContainer s
    /\ Tabs.listensToolbar (Tabs.deliver o s) = Tabs.listensToolbar s
    /\ Tabs.initResolved (Tabs.deliver o s) = Tabs.initResolved s
    /\ Tabs.initAttempts (Tabs.deliver o s) = Tabs.initAttempts s.
Proof.
  induction o as [|e rest IH]; intros s.
  - repeat split; reflexivity.
  - unfold Tabs.deliver in *. cbn [fold_left].
    destruct (deliver_one_keeps s e) as [A [B [C [D [E F]]]]].
    destruct (IH (Tabs.deliver_one s e)) as [A' [B' [C' [D' [E' F']]]]].
    rewrite A', B', C', D', E', F'. repeat split; assumption.
Qed.

(** What [emitTabChangeEvent] emits when the old index is left out. *)
Lemma emitTabChangeEvent_default (index : jsnum) (s : Tabs.SuperTabs) :
  Tabs.tabChange (Tabs.emitTabChangeEvent index None s)
  = Tabs.tabChange s
    ++ (if jlt index (Fin 0) then []
        else [{| Tabs.changed := negb (jeq index (Tabs.activeTabIndex s));
                 Tabs.index := index |}]).
Proof.
  unfold Tabs.emitTabChangeEvent.
  destruct (jlt index (Fin 0)); cbn; [rewrite app_nil_r|]; reflexivity.
Qed.

Lemma emitTabChangeEvent_keeps
    (index : jsnum) (old : option jsnum) (s : Tabs.SuperTabs) :
  Tabs.container (Tabs.emitTabChangeEvent index old s) = Tabs.container s
  /\ Tabs.toolbar (Tabs.emitTabChangeEvent index old s) = Tabs.toolbar s
  /\ Tabs.activeTabIndex (Tabs.emitTabChangeEvent index old s) = Tabs.activeTabIndex s
  /\ Tabs._config (Tabs.emitTabChangeEvent index old s) = Tabs._config s
  /\ Tabs.listensContainer (Tabs.emitTabChangeEvent index old s) = Tabs.listensContainer s
  /\ Tabs.listensToolbar (Tabs.emitTabChangeEvent index old s) = Tabs.listensToolbar s
  /\ Tabs.initResolved (Tabs.emitTabChangeEvent index old s) = Tabs.initResolved s.
Proof.
  unfold Tabs.emitTabChangeEvent.
  destruct (jlt index (Fin 0)); repeat split; reflexivity.
Qed.

(** No payload built by [emitTabChangeEvent] carries a negative index. *)
Lemma emitTabChangeEvent_ok
    (index : jsnum) (old : option jsnum) (s : Tabs.SuperTabs) :
  tabChange_indices_ok s ->
  tabChange_indices_ok (Tabs.emitTabChangeEvent index old s).
Proof.
  unfold tabChange_indices_ok, Tabs.emitTabChangeEvent. intros H.
  destruct (jlt index (Fin 0)) eqn:E; [exact H|].
  cbn [Tabs.tabChange Tabs.emit_tabChange].
  apply Forall_app. split; [exact H|].
  constructor; [exact E | constructor].
Qed.

Lemma deliver_one_ok (s : Tabs.SuperTabs) (o : Container.Output) :
  tabChange_indices_ok s -> tabChange_indices_ok (Tabs.deliver_one s o).
Proof.
  intros H. unfold Tabs.deliver_one.
  destruct o; cbn [Tabs.add_outputs Tabs.listensContainer];
    try destruct (Tabs.listensContainer s); try exact H.
  unfold Tabs.onContainerActiveTabChange.
  exact (emitTabChangeEvent_ok index None
           (Tabs.debug "onContainerActiveTabChange"
              (Tabs.add_outputs [Container.ActiveTabIndexChange index] s)) H).
Qed.

Lemma deliver_ok (o : list Container.Output) :
  forall s : Tabs.SuperTabs,
    tabChange_indices_ok s -> tabChange_indices_ok (Tabs.deliver o s).
Proof.
  induction o as [|e rest IH]; intros s H; [exact H|].
  unfold Tabs.deliver in *. cbn [fold_left]. apply IH, deliver_one_ok, H.
Qed.

(** [setActiveTabIndex] on a configured container: it completes, keeps the
    configuration, announces nothing, and leaves the container on the index
    (unless the index is NaN, which is [===] to nothing). *)
Lemma setActiveTabIndex_sets
    (index : jsnum) (move animate : bool) (c : Container.Container)
    (cfg : SuperTabsConfig) :
  Container.config c = Some cfg ->
  exists (c' : Container.Container) (o : list Container.Output),
    Container.setActiveTabIndex index move animate c = Some (tt, c', o)
    /\ Container.config c' = Some cfg
    /\ forallb (fun e => negb (is_activeTabIndexChange e)) o = true
    /\ (jeq index index = true ->
        Container.strict_eq index (Container._activeTabIndex c') = true).
Proof.
  intros Hcfg.
  destruct (setActiveTabIndex_total index move animate c) as [c' [o Hrun]];
    [rewrite Hcfg; discriminate|].
  exists c', o. split; [exact Hrun|].
  pose proof (setActiveTabIndex_quiet _ _ _ _ _ _ _ Hrun) as Hq.
  revert Hrun. unfold Container.setActiveTabIndex.
  unfold Container.bind at 1. unfold Container.get at 1.
  destruct (Container.strict_eq index (Container._activeTabIndex c)
            && negb (Container.autoScrollTop c)) eqn:Eearly.
  - unfold Container.ret. intros H. injection H as <- _.
    split; [exact Hcfg|]. split; [exact Hq|]. intros _.
    apply andb_true_iff in Eearly. apply Eearly.
  - unfold Container.bind at 1.
    destruct ((if Container.strict_eq index (Container._activeTabIndex c)
               then Container.scrollToTop else Container.ret tt) c)
      as [[[u1 c1] o1]|] eqn:E1; [|intros H; discriminate H].
    assert (c1 = c) as ->.
    { revert E1. unfold Container.scrollToTop, Container.bind, Container.get,
        Container.out, Container.ret.
      destruct (Container.strict_eq index (Container._activeTabIndex c));
        [destruct (Container._activeTabIndex c)|];
        intros H; injection H as _ <- _; reflexivity. }
    unfold Container.bind at 1.
    destruct ((if move then Container.moveContainerByIndex index animate
               else Container.ret tt) c) as [[[u2 c2] o2]|] eqn:E2;
      [|intros H; discriminate H].
    assert (c2 = c) as ->.
    { destruct move.
      - apply moveContainerByIndex_state in E2. exact E2.
      - unfold Container.ret in E2. injection E2 as _ <- _. reflexivity. }
    rewrite (updateActiveTabIndex_run index false c cfg Hcfg).
    intros H. injection H as <- _.
    split; [|split; [exact Hq|]].
    + destruct (lazyLoad cfg); [|exact Hcfg].
      unfold Container.lazyLoadTabs.
      cbn [Container._activeTabIndex Container.set_activeTabIndex Container.config].
      rewrite Hcfg. destruct (negb (lazyLoad cfg)); exact Hcfg.
    + intros Hnum. destruct (lazyLoad cfg); [|exact Hnum].
      destruct (lazyLoadTabs_keeps (Container.set_activeTabIndex (Some index) c))
        as [_ B].
      rewrite B. exact Hnum.
Qed.

(** [setActiveTab] of the toolbar with the index of one of its buttons. *)
Lemma setActiveTab_button
    (t : Toolbar.Toolbar) (button : nat) (align animate : bool) :
  (button < List.length (Toolbar.buttons t))%nat ->
  let t' := Toolbar.setActiveTab (of_Z (Z.of_nat button)) align animate t in
  equiv (Toolbar.activeTabIndex t') (of_Z (Z.of_nat button))
  /\ Toolbar.activeButton t' = Some button
  /\ nth button (Toolbar.buttons t') false = true
  /\ List.length (Toolbar.buttons t') = List.length (Toolbar.buttons t).
Proof.
  intros Hb t'.
  assert (0 < List.length (Toolbar.buttons t))%nat as Hlen by lia.
  destruct (toolbar_clamp (inject_Z (Z.of_nat button))
              (List.length (Toolbar.buttons t)) Hlen) as [r [Hidx Hr]].
  rewrite Qround_inject_Z in Hr.
  rewrite Z.min_l, Z.max_r in Hr by lia.
  unfold t', Toolbar.setActiveTab.
  change (of_Z (Z.of_nat button)) with (Fin (inject_Z (Z.of_nat button))).
  rewrite Hidx.
  rewrite (button_at_position _ r (Z.of_nat button) Hr) by (cbn; lia).
  rewrite Nat2Z.id. unfold Toolbar.markButtonActive.
  cbn [Toolbar.buttons Toolbar.activeButton Toolbar.activeTabIndex].
  split; [cbn [equiv]; exact Hr|]. split; [reflexivity|].
  assert (List.length (match Toolbar.activeButton t with
                       | Some a => Toolbar.set_nth a false (Toolbar.buttons t)
                       | None => Toolbar.buttons t
                       end) = List.length (Toolbar.buttons t)) as Hl
    by (destruct (Toolbar.activeButton t); [apply set_nth_length | reflexivity]).
  split.
  - rewrite nth_set_nth, Hl, Nat.eqb_refl.
    assert ((button <? List.length (Toolbar.buttons t))%nat = true) as ->
      by (apply Nat.ltb_lt; exact Hb).
    reflexivity.
  - rewrite set_nth_length. exact Hl.
Qed.

(** X18.  A tap on a toolbar button brings the three components to the same
    tab.  With the root listening to the toolbar and a configured container,
    the tap on button [b] completes; afterwards the toolbar's and the root's
    [activeTabIndex] are [b], the button is the toolbar's active button, the
    container's [_activeTabIndex] is [b], and exactly one [tabChange] went
    out, carrying [b] and whether [b] differs from the root's index before
    the tap. *)
Theorem tap_synchronises
    (s : Tabs.SuperTabs) (t : Toolbar.Toolbar) (c : Container.Container)
    (cfg : SuperTabsConfig) (button : nat) :
  Tabs.toolbar s = Some t ->
  Tabs.container s = Some c ->
  Container.config c = Some cfg ->
  Tabs.listensToolbar s = true ->
  (button < List.length (Toolbar.buttons t))%nat ->
  exists (s' : Tabs.SuperTabs) (t' : Toolbar.Toolbar) (c' : Container.Container),
    TabsHandlers.tap button s = Some s'
    /\ Tabs.toolbar s' = Some t'
    /\ Tabs.container s' = Some c'
    /\ Tabs.activeTabIndex s' = of_Z (Z.of_nat button)
    /\ equiv (Toolbar.activeTabIndex t') (of_Z (Z.of_nat button))
    /\ Toolbar.activeButton t' = Some button
    /\ Container.strict_eq (of_Z (Z.of_nat button)) (Container._activeTabIndex c') = true
    /\ Tabs.tabChange s'
       = Tabs.tabChange s
         ++ [{| Tabs.changed :=
                  negb (jeq (of_Z (Z.of_nat button)) (Tabs.activeTabIndex s));
                Tabs.index := of_Z (Z.of_nat button) |}].
Proof.
  intros Ht Hc Hcfg Hl Hb.
  set (index := of_Z (Z.of_nat button)).
  destruct (setActiveTab_button t button true true Hb) as [Hti [Hta _]].
  fold index in Hti, Hta.
  set (t' := Toolbar.setActiveTab index true true t) in *.
  destruct (setActiveTabIndex_sets index true true c cfg Hcfg)
    as [c' [o [Hrun [_ [Hq Hset]]]]].
  unfold TabsHandlers.tap. rewrite Ht.
  unfold ToolbarHandlers.onButtonClick. fold index. fold t'.
  unfold TabsHandlers.dispatch.
  cbn [Tabs.listensToolbar Tabs.set_toolbar]. rewrite Hl.
  unfold TabsHandlers.onToolbarButtonClick.
  cbn [Tabs.container Tabs.debug Tabs.set_toolbar]. rewrite Hc, Hrun.
  set (s0 := Tabs.set_container (Some c')
               (Tabs.debug "onToolbarButtonClick" (Tabs.set_toolbar (Some t') s))).
  destruct (deliver_quiet o s0 Hq) as [Dt [Da [Dtb _]]].
  destruct (deliver_keeps o s0) as [Dc _].
  destruct (emitTabChangeEvent_keeps index None (Tabs.deliver o s0))
    as [Ec [Etb _]].
  exists (Tabs.set_activeTabIndex index
            (Tabs.emitTabChangeEvent index None (Tabs.deliver o s0))), t', c'.
  split; [reflexivity|].
  split; [cbn [Tabs.toolbar Tabs.set_activeTabIndex]; rewrite Etb, Dtb; reflexivity|].
  split; [cbn [Tabs.container Tabs.set_activeTabIndex]; rewrite Ec, Dc; reflexivity|].
  split; [reflexivity|].
  split; [exact Hti|]. split; [exact Hta|].
  split; [apply Hset; unfold index, of_Z; apply jeq_fin; reflexivity|].
  cbn [Tabs.tabChange Tabs.set_activeTabIndex].
  rewrite emitTabChangeEvent_default, Dt, Da.
  assert (jlt index (Fin 0) = false) as ->.
  { apply jlt_false_of_nonneg. change 0 with (inject_Z 0).
    rewrite <- Zle_Qle. lia. }
  reflexivity.
Qed.

Lemma tap_synchronises_witness :
  Tabs.toolbar Sample.root
  = Some (Toolbar.set_config (Some DEFAULT_CONFIG) Sample.four_buttons)
  /\ Tabs.container Sample.root
     = Some (Container.set_config (Some DEFAULT_CONFIG) Sample.resting)
  /\ Container.config (Container.set_config (Some DEFAULT_CONFIG) Sample.resting)
     = Some DEFAULT_CONFIG
  /\ Tabs.listensToolbar Sample.root = true
  /\ (2 < List.length
            (Toolbar.buttons
               (Toolbar.set_config (Some DEFAULT_CONFIG) Sample.four_buttons)))%nat
  /\ exists (s' : Tabs.SuperTabs) (t' : Toolbar.Toolbar) (c' : Container.Container),
       TabsHandlers.tap 2 Sample.root = Some s'
       /\ Tabs.toolbar s' = Some t'
       /\ Tabs.container s' = Some c'
       /\ Tabs.activeTabIndex s' = of_Z (Z.of_nat 2)
       /\ equiv (Toolbar.activeTabIndex t') (of_Z (Z.of_nat 2))
       /\ Toolbar.activeButton t' = Some 2%nat
       /\ Container.strict_eq (of_Z (Z.of_nat 2)) (Container._activeTabIndex c') = true
       /\ Tabs.tabChange s'
          = Tabs.tabChange Sample.root
            ++ [{| Tabs.changed :=
                     negb (jeq (of_Z (Z.of_nat 2)) (Tabs.activeTabIndex Sample.root));
                   Tabs.index := of_Z (Z.of_nat 2) |}].
Proof.
  split; [reflexivity|]. split; [reflexivity|]. split; [reflexivity|].
  split; [reflexivity|]. split; [cbn; lia|].
  apply (tap_synchronises Sample.root
           (Toolbar.set_config (Some DEFAULT_CONFIG) Sample.four_buttons)
           (Container.set_config (Some DEFAULT_CONFIG) Sample.resting)
           DEFAULT_CONFIG 2).
  - reflexivity.
  - reflexivity.
  - reflexivity.
  - reflexivity.
  - cbn; lia.
Defined.

(** X19.  The end of a swipe brings the root and the toolbar to the tab the
    container commits.  With the root listening to the container, a touch
    end that closes a drag completes; the container's [_activeTabIndex] and
    the root's [activeTabIndex] both become the committed index, the toolbar
    is sent [setActiveTab] with it, and one [tabChange] goes out for it
    (none if the index is negative), flagged by comparison with the root's
    index before. *)
Theorem touch_end_synchronises
    (s : Tabs.SuperTabs) (c : Container.Container) (cfg : SuperTabsConfig)
    (ic coords : STCoord) (now : Q) :
  Tabs.container s = Some c ->
  Tabs.listensContainer s = true ->
  Container.swipeEnabled c = true ->
  Container.isDragging c = true ->
  Container.config c = Some cfg ->
  Container.initialCoords c = Some ic ->
  let target := Container.touchEndTarget c cfg ic coords now in
  exists (s' : Tabs.SuperTabs) (c' : Container.Container),
    TabsHandlers.touchEnd coords now s = Some s'
    /\ Tabs.container s' = Some c'
    /\ Container._activeTabIndex c' = Some target
    /\ Tabs.activeTabIndex s' = target
    /\ Tabs.toolbar s'
       = option_map (Toolbar.setActiveTab target true true) (Tabs.toolbar s)
    /\ Tabs.tabChange s'
       = Tabs.tabChange s
         ++ (if jlt target (Fin 0) then []
             else [{| Tabs.changed := negb (jeq target (Tabs.activeTabIndex s));
                      Tabs.index := target |}]).
Proof.
  intros Hc Hl Hswipe Hdrag Hcfg Hic target.
  destruct (onTouchEnd_commits c cfg ic coords now Hswipe Hdrag Hcfg Hic)
    as [c' [o [Hrun [Hact _]]]].
  destruct (onTouchEnd_dragging c cfg ic coords now Hswipe Hdrag Hcfg Hic)
    as [c1 [o1 [Hrun1 [_ Hq]]]].
  rewrite Hrun in Hrun1. injection Hrun1 as _ Ho. subst o1.
  fold target in Hrun, Hact.
  unfold TabsHandlers.touchEnd. rewrite Hc, Hrun.
  unfold Tabs.deliver. cbn [fold_left].
  set (s1 := Tabs.deliver_one (Tabs.set_container (Some c') s)
               (Container.ActiveTabIndexChange target)).
  change (fold_left Tabs.deliver_one o s1) with (Tabs.deliver o s1).
  destruct (deliver_quiet o s1 Hq) as [Dt [Da [Dtb Dc]]].
  exists (Tabs.deliver o s1), c'.
  split; [reflexivity|].
  assert (s1 = Tabs.onContainerActiveTabChange target
                 (Tabs.add_outputs [Container.ActiveTabIndexChange target]
                    (Tabs.set_container (Some c') s))) as Hs1.
  { unfold s1, Tabs.deliver_one.
    cbn [Tabs.listensContainer Tabs.add_outputs Tabs.set_container]. rewrite Hl.
    reflexivity. }
  rewrite Dt, Da, Dtb, Dc, Hs1. unfold Tabs.onContainerActiveTabChange.
  set (s0 := Tabs.debug "onContainerActiveTabChange"
               (Tabs.add_outputs [Container.ActiveTabIndexChange target]
                  (Tabs.set_container (Some c') s))).
  destruct (emitTabChangeEvent_keeps target None s0) as [Ec [Etb _]].
  cbn [Tabs.container Tabs.toolbar Tabs.activeTabIndex Tabs.tabChange
       Tabs.set_toolbar Tabs.set_activeTabIndex].
  rewrite Ec, Etb, emitTabChangeEvent_default.
  split; [reflexivity|]. split; [exact Hact|]. split; [reflexivity|].
  split; reflexivity.
Qed.

Lemma touch_end_synchronises_witness :
  Tabs.container SampleRoot.swiping = Some (Sample.dragging 100 0)
  /\ Tabs.listensContainer SampleRoot.swiping = true
  /\ Container.swipeEnabled (Sample.dragging 100 0) = true
  /\ Container.isDragging (Sample.dragging 100 0) = true
  /\ Container.config (Sample.dragging 100 0) = Some DEFAULT_CONFIG
  /\ Container.initialCoords (Sample.dragging 100 0) = Some {| x := 200; y := 10 |}
  /\ let target := Container.touchEndTarget (Sample.dragging 100 0) DEFAULT_CONFIG
                     {| x := 200; y := 10 |} {| x := 100; y := 12 |} 1150 in
     exists (s' : Tabs.SuperTabs) (c' : Container.Container),
       TabsHandlers.touchEnd {| x := 100; y := 12 |} 1150 SampleRoot.swiping = Some s'
       /\ Tabs.container s' = Some c'
       /\ Container._activeTabIndex c' = Some target
       /\ Tabs.activeTabIndex s' = target
       /\ Tabs.toolbar s'
          = option_map (Toolbar.setActiveTab target true true)
              (Tabs.toolbar SampleRoot.swiping)
       /\ Tabs.tabChange s'
          = Tabs.tabChange SampleRoot.swiping
            ++ (if jlt target (Fin 0) then []
                else [{| Tabs.changed :=
                           negb (jeq target (Tabs.activeTabIndex SampleRoot.swiping));
                         Tabs.index := target |}]).
Proof.
  split; [reflexivity|]. split; [reflexivity|]. split; [reflexivity|].
  split; [reflexivity|]. split; [reflexivity|]. split; [reflexivity|].
  apply (touch_end_synchronises SampleRoot.swiping (Sample.dragging 100 0)
           DEFAULT_CONFIG {| x := 200; y := 10 |} {| x := 100; y := 12 |} 1150);
    reflexivity.
Defined.

(** ** Initialisation, once the container is there *)

Lemma finishInit_tail (s1 : Tabs.SuperTabs) (c1 : Container.Container) :
  Tabs.container s1 = Some c1 ->
  let f := Tabs.set_initResolved (Tabs.setupEventListeners (Tabs.propagateConfig s1)) in
  Tabs.initResolved f = true
  /\ Tabs.listensContainer f = true
  /\ Tabs.initAttempts f = Tabs.initAttempts s1
  /\ Tabs.container f = Some (Container.set_config (Some (Tabs._config s1)) c1).
Proof.
  intros H. unfold Tabs.setupEventListeners, Tabs.propagateConfig.
  cbn [Tabs.container Tabs.toolbar Tabs.set_container Tabs.set_toolbar Tabs._config].
  rewrite H. cbn [option_map Tabs.toolbar Tabs.set_listens].
  destruct (Tabs.toolbar s1); cbn; repeat split; reflexivity.
Qed.

Lemma finishInit_with_container (s : Tabs.SuperTabs) (c : Container.Container) :
  Tabs.container s = Some c ->
  Tabs.initResolved (Tabs.finishInit s) = true
  /\ Tabs.listensContainer (Tabs.finishInit s) = true
  /\ Tabs.initAttempts (Tabs.finishInit s) = Tabs.initAttempts s
  /\ exists c' : Container.Container,
       Tabs.container (Tabs.finishInit s) = Some c'
       /\ Container.config c' = Some (Tabs._config s).
Proof.
  intros Hc. unfold Tabs.finishInit.
  set (s1 := if jgt (Tabs.activeTabIndex s) (Fin 0) then _ else s).
  assert (exists c1, Tabs.container s1 = Some c1
                     /\ Tabs._config s1 = Tabs._config s
                     /\ Tabs.initAttempts s1 = Tabs.initAttempts s)
    as [c1 [Hc1 [Hcfg1 Ha1]]].
  { unfold s1. destruct (jgt (Tabs.activeTabIndex s) (Fin 0)).
    - rewrite Hc.
      destruct (Container.moveContainerByIndex (Tabs.activeTabIndex s) false c)
        as [[[u c'] o]|].
      + destruct (deliver_keeps o (Tabs.set_container (Some c') s))
          as [A [B [_ [_ [_ F]]]]].
        exists c'. cbn [Tabs.container Tabs._config Tabs.initAttempts Tabs.set_toolbar].
        rewrite A, B, F. repeat split; reflexivity.
      + exists c. cbn [Tabs.container Tabs._config Tabs.initAttempts Tabs.set_toolbar].
        repeat split; [exact Hc].
    - exists c. repeat split. exact Hc. }
  destruct (finishInit_tail s1 c1 Hc1) as [A [B [C D]]].
  split; [exact A|]. split; [exact B|]. split; [rewrite C; exact Ha1|].
  eexists. split; [exact D|]. cbn. rewrite Hcfg1. reflexivity.
Qed.

Lemma finishInit_config (s : Tabs.SuperTabs) :
  Tabs._config (Tabs.finishInit s) = Tabs._config s.
Proof.
  unfold Tabs.finishInit.
  set (s1 := if jgt (Tabs.activeTabIndex s) (Fin 0) then _ else s).
  assert (Tabs._config s1 = Tabs._config s) as H1.
  { unfold s1. destruct (jgt (Tabs.activeTabIndex s) (Fin 0)); [|reflexivity].
    cbn [Tabs._config Tabs.set_toolbar].
    destruct (Tabs.container s) as [c|]; [|reflexivity].
    destruct (Container.moveContainerByIndex (Tabs.activeTabIndex s) false c)
      as [[[u c'] o]|]; [|reflexivity].
    destruct (deliver_keeps o (Tabs.set_container (Some c') s)) as [_ [B _]].
    rewrite B. reflexivity. }
  rewrite <- H1. unfold Tabs.setupEventListeners, Tabs.propagateConfig.
  cbn [Tabs.container Tabs.toolbar Tabs.set_container Tabs.set_toolbar Tabs._config].
  destruct (Tabs.container s1), (Tabs.toolbar s1); reflexivity.
Qed.

Lemma initFrames_container_appears
    (between : nat -> Tabs.SuperTabs -> Tabs.SuperTabs) (j : nat) :
  (forall k t, Tabs.initAttempts (between k t) = Tabs.initAttempts t) ->
  (forall k t, (k < j)%nat ->
     Tabs.container t = None -> Tabs.container (between k t) = None) ->
  (forall t, Tabs.container (between j t) <> None) ->
  forall (m frame fuel : nat) (s : Tabs.SuperTabs),
    (frame + m = j)%nat ->
    Tabs.container s = None ->
    (Tabs.initAttempts s + Z.of_nat m < Tabs.maxInitRetries)%Z ->
    (m + 1 < fuel)%nat ->
    exists s' : Tabs.SuperTabs,
      Tabs.initFrames between fuel frame s = Some (s', S m)
      /\ Tabs.initResolved s' = true
      /\ Tabs.listensContainer s' = true
      /\ Tabs.initAttempts s' = (Tabs.initAttempts s + Z.of_nat m + 1)%Z
      /\ exists c' : Container.Container,
           Tabs.container s' = Some c'
           /\ Container.config c' = Some (Tabs._config s').
Proof.
  intros Hatt Hnone Hfound.
  induction m as [|m IH]; intros frame fuel s Hf Hs Ha Hfuel.
  - destruct fuel as [|[|fuel]]; try lia.
    assert (frame = j) as -> by lia.
    cbn [Tabs.initFrames]. unfold Tabs.initComponent at 1. rewrite Hs.
    cbn [Tabs.initAttempts Tabs.set_initAttempts].
    destruct (Z.leb_spec (Tabs.initAttempts s + 1) Tabs.maxInitRetries) as [L|L];
      [|lia].
    set (s1 := between j (Tabs.set_initAttempts (Tabs.initAttempts s + 1) s)).
    destruct (Tabs.container s1) as [c|] eqn:Ec;
      [|exfalso; apply (Hfound (Tabs.set_initAttempts (Tabs.initAttempts s + 1) s));
        exact Ec].
    unfold Tabs.initComponent. rewrite Ec.
    destruct (finishInit_with_container s1 c Ec) as [A [B [C [c' [D E]]]]].
    exists (Tabs.finishInit s1).
    split; [reflexivity|]. split; [exact A|]. split; [exact B|].
    split.
    + rewrite C. unfold s1. rewrite Hatt.
      cbn [Tabs.initAttempts Tabs.set_initAttempts]. lia.
    + exists c'. split; [exact D|]. rewrite finishInit_config. exact E.
  - destruct fuel as [|fuel]; [lia|].
    cbn [Tabs.initFrames]. unfold Tabs.initComponent at 1. rewrite Hs.
    cbn [Tabs.initAttempts Tabs.set_initAttempts].
    destruct (Z.leb_spec (Tabs.initAttempts s + 1) Tabs.maxInitRetries) as [L|L];
      [|lia].
    set (s1 := between frame (Tabs.set_initAttempts (Tabs.initAttempts s + 1) s)).
    destruct (IH (S frame) fuel s1) as [s' [Hrun [A [B [C D]]]]].
    + lia.
    + unfold s1. apply Hnone; [lia | exact Hs].
    + unfold s1. rewrite Hatt. cbn [Tabs.initAttempts Tabs.set_initAttempts]. lia.
    + lia.
    + rewrite Hrun. exists s'.
      split; [reflexivity|]. split; [exact A|]. split; [exact B|].
      split; [|exact D].
      rewrite C. unfold s1. rewrite Hatt.
      cbn [Tabs.initAttempts Tabs.set_initAttempts]. lia.
Qed.

(** X20.  The initialisation finishes as soon as the container is there.  If
    the root starts without a container and something between frame [j] and
    the next one brings it ([j] below the 1000 retries), the chain of frames
    re-schedules itself exactly [j + 1] times and then ends: the init promise
    is resolved, the root listens to the container's events, the root holds
    a container, that container has been given the root's configuration, and
    [initAttempts] stays at [j + 1]. *)
Theorem init_completes_when_container_appears
    (between : nat -> Tabs.SuperTabs -> Tabs.SuperTabs) (j fuel : nat)
    (s : Tabs.SuperTabs) :
  Tabs.container s = None ->
  Tabs.initAttempts s = 0%Z ->
  (Z.of_nat j < Tabs.maxInitRetries)%Z ->
  (j + 1 < fuel)%nat ->
  (forall k t, Tabs.initAttempts (between k t) = Tabs.initAttempts t) ->
  (forall k t, (k < j)%nat ->
     Tabs.container t = None -> Tabs.container (between k t) = None) ->
  (forall t, Tabs.container (between j t) <> None) ->
  exists s' : Tabs.SuperTabs,
    Tabs.initFrames between fuel 0 s = Some (s', S j)
    /\ Tabs.initResolved s' = true
    /\ Tabs.listensContainer s' = true
    /\ Tabs.initAttempts s' = (Z.of_nat j + 1)%Z
    /\ exists c' : Container.Container,
         Tabs.container s' = Some c'
         /\ Container.config c' = Some (Tabs._config s').
Proof.
  intros Hs Ha Hj Hfuel Hatt Hnone Hfound.
  destruct (initFrames_container_appears between j Hatt Hnone Hfound j 0%nat fuel s)
    as [s' [Hrun [A [B [C D]]]]]; try assumption; try lia.
  exists s'. split; [exact Hrun|]. split; [exact A|]. split; [exact B|].
  split; [rewrite C, Ha; lia | exact D].
Qed.

Lemma late_container_attempts (k : nat) (t : Tabs.SuperTabs) :
  Tabs.initAttempts (SampleRoot.late_container k t) = Tabs.initAttempts t.
Proof.
  unfold SampleRoot.late_container. destruct (Nat.eqb k 2); [|reflexivity].
  unfold Tabs.indexChildren, Tabs.propagateConfig. reflexivity.
Qed.

Lemma late_container_before (k : nat) (t : Tabs.SuperTabs) :
  (k < 2)%nat ->
  Tabs.container t = None -> Tabs.container (SampleRoot.late_container k t) = None.
Proof.
  intros Hk Ht. unfold SampleRoot.late_container.
  destruct (Nat.eqb_spec k 2); [lia | exact Ht].
Qed.

Lemma late_container_found (t : Tabs.SuperTabs) :
  Tabs.container (SampleRoot.late_container 2 t) <> None.
Proof.
  unfold SampleRoot.late_container. cbn [Nat.eqb].
  unfold Tabs.indexChildren, Tabs.propagateConfig. cbn. discriminate.
Qed.

Lemma init_completes_when_container_appears_witness :
  Tabs.container Tabs.initial = None
  /\ Tabs.initAttempts Tabs.initial = 0%Z
  /\ (Z.of_nat 2 < Tabs.maxInitRetries)%Z
  /\ (2 + 1 < 10)%nat
  /\ (forall k t, Tabs.initAttempts (SampleRoot.late_container k t)
                  = Tabs.initAttempts t)
  /\ (forall k t, (k < 2)%nat ->
        Tabs.container t = None ->
        Tabs.container (SampleRoot.late_container k t) = None)
  /\ (forall t, Tabs.container (SampleRoot.late_container 2 t) <> None)
  /\ exists s' : Tabs.SuperTabs,
       Tabs.initFrames SampleRoot.late_container 10 0 Tabs.initial = Some (s', 3%nat)
       /\ Tabs.initResolved s' = true
       /\ Tabs.listensContainer s' = true
       /\ Tabs.initAttempts s' = (Z.of_nat 2 + 1)%Z
       /\ exists c' : Container.Container,
            Tabs.container s' = Some c'
            /\ Container.config c' = Some (Tabs._config s').
Proof.
  split; [reflexivity|]. split; [reflexivity|].
  split; [unfold Tabs.maxInitRetries; lia|]. split; [lia|].
  split; [exact late_container_attempts|].
  split; [exact late_container_before|].
  split; [exact late_container_found|].
  apply (init_completes_when_container_appears SampleRoot.late_container 2 10
           Tabs.initial).
  - reflexivity.
  - reflexivity.
  - unfold Tabs.maxInitRetries; lia.
  - lia.
  - exact late_container_attempts.
  - exact late_container_before.
  - exact late_container_found.
Defined.

(** ** The root's handlers, one after the other *)

(** [selectTab] with a configured container (or none): it completes; the
    container, if there is one, ends on the index and keeps its
    configuration; the root's own index is back to what it was; and nothing
    is emitted unless asked for. *)
Lemma selectTab_step (index : jsnum) (animate emit : bool) (s : Tabs.SuperTabs) :
  container_configured s ->
  exists s' : Tabs.SuperTabs,
    Tabs.selectTab index animate emit s = Some s'
    /\ Tabs.activeTabIndex s' = Tabs.activeTabIndex s
    /\ Tabs.tabChange s'
       = Tabs.tabChange
           (if emit
            then Tabs.emitTabChangeEvent index (Some (Tabs.activeTabIndex s)) s
            else s)
    /\ (forall c : Container.Container,
          Tabs.container s = Some c ->
          exists c' : Container.Container,
            Tabs.container s' = Some c'
            /\ Container.config c' = Container.config c
            /\ (jeq index index = true ->
                Container.strict_eq index (Container._activeTabIndex c') = true))
    /\ (Tabs.container s = None -> Tabs.container s' = None)
    /\ Tabs.toolbar s'
       = option_map (Toolbar.setActiveTab index true animate) (Tabs.toolbar s).
Proof.
  intros Hconf. unfold Tabs.selectTab.
  cbn [Tabs.container Tabs.activeTabIndex Tabs.debug].
  destruct (Tabs.container s) as [c|] eqn:Ec.
  - destruct (Container.config c) as [cfg|] eqn:Ecfg;
      [|exfalso; apply (Hconf c Ec); exact Ecfg].
    destruct (setActiveTabIndex_sets index true animate c cfg Ecfg)
      as [c' [o [Hrun [Hcfg' [Hq Hset]]]]].
    rewrite Hrun.
    set (s0 := Tabs.set_container (Some c') (Tabs.debug "selectTab" s)).
    destruct (deliver_quiet o s0 Hq) as [Dt [Da [Dtb Dc]]].
    eexists. split; [reflexivity|].
    split; [reflexivity|].
    split.
    { destruct emit; cbn [Tabs.tabChange Tabs.set_activeTabIndex].
      - unfold Tabs.emitTabChangeEvent.
        cbn [Tabs.activeTabIndex Tabs.set_toolbar].
        rewrite Da. cbn [Tabs.activeTabIndex Tabs.set_container Tabs.debug s0].
        destruct (jlt index (Fin 0));
          [|destruct (jlt (Tabs.activeTabIndex s) (Fin 0))];
          cbn [Tabs.tabChange Tabs.set_toolbar Tabs.emit_tabChange];
          rewrite Dt; reflexivity.
      - cbn [Tabs.tabChange Tabs.set_toolbar]. rewrite Dt. reflexivity. }
    split.
    { intros c0 H0. injection H0 as <-. exists c'.
      split.
      - destruct emit; cbn [Tabs.container Tabs.set_activeTabIndex];
          [destruct (emitTabChangeEvent_keeps index (Some (Tabs.activeTabIndex s))
                       (Tabs.set_toolbar
                          (option_map (Toolbar.setActiveTab index true animate)
                             (Tabs.toolbar (Tabs.deliver o s0)))
                          (Tabs.deliver o s0))) as [K _]; rewrite K|];
          cbn [Tabs.container Tabs.set_toolbar]; rewrite Dc; reflexivity.
      - split; [rewrite Hcfg', Ecfg; reflexivity | exact Hset]. }
    split; [intros H; discriminate H|].
    destruct emit; cbn [Tabs.toolbar Tabs.set_activeTabIndex];
      [destruct (emitTabChangeEvent_keeps index (Some (Tabs.activeTabIndex s))
                   (Tabs.set_toolbar
                      (option_map (Toolbar.setActiveTab index true animate)
                         (Tabs.toolbar (Tabs.deliver o s0)))
                      (Tabs.deliver o s0))) as [_ [K _]]; rewrite K|];
      cbn [Tabs.toolbar Tabs.set_toolbar]; rewrite Dtb; reflexivity.
  - eexists. split; [reflexivity|].
    split; [reflexivity|].
    split.
    { destruct emit; cbn [Tabs.tabChange Tabs.set_activeTabIndex];
        [|reflexivity].
      unfold Tabs.emitTabChangeEvent. cbn [Tabs.activeTabIndex Tabs.set_toolbar Tabs.debug].
      destruct (jlt index (Fin 0));
        [|destruct (jlt (Tabs.activeTabIndex s) (Fin 0))]; reflexivity. }
    split; [intros c0 H0; discriminate H0|].
    split.
    { intros _. destruct emit; cbn [Tabs.container Tabs.set_activeTabIndex];
        [|cbn; exact Ec].
      unfold Tabs.emitTabChangeEvent. cbn [Tabs.activeTabIndex Tabs.set_toolbar Tabs.debug].
      destruct (jlt index (Fin 0));
        [|destruct (jlt (Tabs.activeTabIndex s) (Fin 0))]; cbn; exact Ec. }
    destruct emit; cbn [Tabs.toolbar Tabs.set_activeTabIndex]; [|reflexivity].
    unfold Tabs.emitTabChangeEvent. cbn [Tabs.activeTabIndex Tabs.set_toolbar Tabs.debug].
    destruct (jlt index (Fin 0));
      [|destruct (jlt (Tabs.activeTabIndex s) (Fin 0))]; reflexivity.
Qed.

Lemma indexChildren_keeps
    (foundContainer : option Container.Container)
    (foundToolbar : option Toolbar.Toolbar) (s : Tabs.SuperTabs) :
  let s1 := Tabs.indexChildren foundContainer foundToolbar s in
  Tabs.tabChange s1 = Tabs.tabChange s
  /\ Tabs.activeTabIndex s1 = Tabs.activeTabIndex s
  /\ Tabs.initResolved s1 = Tabs.initResolved s
  /\ Tabs.container s1
     = option_map (Container.set_config (Some (Tabs._config s)))
         (match foundContainer with Some c => Some c | None => Tabs.container s end)
  /\ Tabs.toolbar s1
     = option_map (Toolbar.set_config (Some (Tabs._config s)))
         (match foundToolbar with Some t => Some t | None => Tabs.toolbar s end).
Proof.
  unfold Tabs.indexChildren, Tabs.propagateConfig.
  destruct foundContainer, foundToolbar; cbn; repeat split; reflexivity.
Qed.

Lemma selectTab_initResolved
    (index : jsnum) (animate emit : bool) (s s' : Tabs.SuperTabs) :
  Tabs.selectTab index animate emit s = Some s' ->
  Tabs.initResolved s' = Tabs.initResolved s.
Proof.
  unfold Tabs.selectTab. cbn [Tabs.container Tabs.activeTabIndex Tabs.debug].
  destruct (Tabs.container s) as [c|].
  - destruct (Container.setActiveTabIndex index true animate c) as [[[u c'] o]|];
      [|discriminate].
    intros H. injection H as <-.
    destruct (deliver_keeps o (Tabs.set_container (Some c') (Tabs.debug "selectTab" s)))
      as [_ [_ [_ [_ [R _]]]]].
    destruct emit; cbn [Tabs.initResolved Tabs.set_activeTabIndex];
      [match goal with
       | |- Tabs.initResolved (Tabs.emitTabChangeEvent ?i ?o ?x) = _ =>
           destruct (emitTabChangeEvent_keeps i o x) as [_ [_ [_ [_ [_ [_ K]]]]]];
           rewrite K
       end|];
      cbn [Tabs.initResolved Tabs.set_toolbar]; rewrite R; reflexivity.
  - intros H. injection H as <-.
    destruct emit; cbn [Tabs.initResolved Tabs.set_activeTabIndex];
      [match goal with
       | |- Tabs.initResolved (Tabs.emitTabChangeEvent ?i ?o ?x) = _ =>
           destruct (emitTabChangeEvent_keeps i o x) as [_ [_ [_ [_ [_ [_ K]]]]]];
           rewrite K
       end|]; reflexivity.
Qed.

Lemma onToolbarButtonClick_step (index : jsnum) (s : Tabs.SuperTabs) :
  container_configured s ->
  tabChange_indices_ok s ->
  exists s' : Tabs.SuperTabs,
    TabsHandlers.onToolbarButtonClick index s = Some s'
    /\ container_configured s'
    /\ tabChange_indices_ok s'
    /\ Tabs.initResolved s' = Tabs.initResolved s.
Proof.
  intros Hconf Hok. unfold TabsHandlers.onToolbarButtonClick.
  cbn [Tabs.container Tabs.debug].
  destruct (Tabs.container s) as [c|] eqn:Ec.
  - destruct (Container.config c) as [cfg|] eqn:Ecfg;
      [|exfalso; apply (Hconf c Ec); exact Ecfg].
    destruct (setActiveTabIndex_sets index true true c cfg Ecfg)
      as [c' [o [Hrun [Hcfg' _]]]].
    rewrite Hrun.
    set (s0 := Tabs.set_container (Some c') (Tabs.debug "onToolbarButtonClick" s)).
    destruct (deliver_keeps o s0) as [Dc [_ [_ [_ [Dr _]]]]].
    destruct (emitTabChangeEvent_keeps index None (Tabs.deliver o s0))
      as [Kc [_ [_ [_ [_ [_ Kr]]]]]].
    eexists. split; [reflexivity|]. split; [|split].
    + intros c0. cbn [Tabs.container Tabs.set_activeTabIndex].
      rewrite Kc, Dc. cbn. intros H0. injection H0 as <-.
      rewrite Hcfg'. discriminate.
    + apply (emitTabChangeEvent_ok index None). apply deliver_ok. exact Hok.
    + cbn [Tabs.initResolved Tabs.set_activeTabIndex]. rewrite Kr, Dr. reflexivity.
  - destruct (emitTabChangeEvent_keeps index None (Tabs.debug "onToolbarButtonClick" s))
      as [Kc [_ [_ [_ [_ [_ Kr]]]]]].
    eexists. split; [reflexivity|]. split; [|split].
    + intros c0. cbn [Tabs.container Tabs.set_activeTabIndex].
      rewrite Kc. cbn. rewrite Ec. discriminate.
    + apply (emitTabChangeEvent_ok index None). exact Hok.
    + cbn [Tabs.initResolved Tabs.set_activeTabIndex]. rewrite Kr. reflexivity.
Qed.

Lemma dispatch_step (e : TabsHandlers.RootEvent) (s : Tabs.SuperTabs) :
  Tabs.initResolved s = true ->
  container_configured s ->
  tabChange_indices_ok s ->
  exists s' : Tabs.SuperTabs,
    TabsHandlers.dispatch e s = Some s'
    /\ Tabs.initResolved s' = true
    /\ container_configured s'
    /\ tabChange_indices_ok s'.
Proof.
  intros Hres Hconf Hok.
  assert (forall index animate emit s0,
             Tabs.initResolved s0 = true ->
             container_configured s0 -> tabChange_indices_ok s0 ->
             exists s' : Tabs.SuperTabs,
               Tabs.selectTab index animate emit s0 = Some s'
               /\ Tabs.initResolved s' = true
               /\ container_configured s' /\ tabChange_indices_ok s') as Hselect.
  { intros index animate emit s0 Hres0 Hconf0 Hok0.
    destruct (selectTab_step index animate emit s0 Hconf0)
      as [s' [Hrun [_ [Htc [Hsome [Hnone _]]]]]].
    exists s'. split; [exact Hrun|].
    split; [rewrite (selectTab_initResolved _ _ _ _ _ Hrun); exact Hres0|].
    split.
    - intros c' Hc'. destruct (Tabs.container s0) as [c|] eqn:Ec.
      + destruct (Hsome c eq_refl) as [c1 [H1 [H2 _]]].
        rewrite H1 in Hc'. injection Hc' as <-. rewrite H2.
        apply (Hconf0 c Ec).
      + rewrite (Hnone eq_refl) in Hc'. discriminate.
    - unfold tabChange_indices_ok. rewrite Htc.
      destruct emit; [apply emitTabChangeEvent_ok|]; exact Hok0. }
  destruct e as [i | i | i | i animate emit | fc ft]; cbn [TabsHandlers.dispatch].
  - destruct (deliver_one_keeps s (Container.ActiveTabIndexChange i))
      as [K [_ [_ [_ [R _]]]]].
    eexists. split; [reflexivity|]. split; [rewrite R; exact Hres|].
    split; [|apply deliver_one_ok; exact Hok].
    intros c. rewrite K. apply Hconf.
  - destruct (deliver_one_keeps s (Container.SelectedTabIndexChange i))
      as [K [_ [_ [_ [R _]]]]].
    eexists. split; [reflexivity|]. split; [rewrite R; exact Hres|].
    split; [|apply deliver_one_ok; exact Hok].
    intros c. rewrite K. apply Hconf.
  - destruct (Tabs.listensToolbar s).
    + destruct (onToolbarButtonClick_step i s Hconf Hok) as [s' [Hrun [A [B C]]]].
      exists s'. split; [exact Hrun|]. split; [rewrite C; exact Hres|].
      split; assumption.
    + exists s. repeat split; assumption.
  - rewrite Hres. apply Hselect; assumption.
  - unfold TabsHandlers.onSlotchange.
    destruct (indexChildren_keeps fc ft s) as [Kt [_ [Kr _]]].
    assert (tabChange_indices_ok (Tabs.indexChildren fc ft s)) as Hok1
      by (unfold tabChange_indices_ok; rewrite Kt; exact Hok).
    pose proof (indexChildren_configured fc ft s) as Hconf1.
    rewrite Kr, Hres. apply Hselect; [rewrite Kr; exact Hres | assumption..].
Qed.

(** X21.  Once it is initialised and the container it knows is
    configured, the root's handlers never throw and never emit a [tabChange]
    for a negative index: any sequence of container events, toolbar clicks,
    [selectTab] calls and slot changes (whatever they find) runs to its end,
    the container stays configured throughout, and every payload emitted has
    an index that is not below zero. *)
Theorem root_handlers_never_throw
    (events : list TabsHandlers.RootEvent) (s : Tabs.SuperTabs) :
  Tabs.initResolved s = true ->
  container_configured s ->
  tabChange_indices_ok s ->
  exists s' : Tabs.SuperTabs,
    TabsHandlers.dispatch_all events s = Some s'
    /\ Tabs.initResolved s' = true
    /\ container_configured s'
    /\ tabChange_indices_ok s'.
Proof.
  revert s. induction events as [|e rest IH]; intros s Hres Hconf Hok.
  - exists s. repeat split; assumption.
  - destruct (dispatch_step e s Hres Hconf Hok) as [s1 [Hrun [Hres1 [Hconf1 Hok1]]]].
    destruct (IH s1 Hres1 Hconf1 Hok1) as [s' [Hrest [Hres' [Hconf' Hok']]]].
    exists s'. cbn [TabsHandlers.dispatch_all]. rewrite Hrun.
    repeat split; assumption.
Qed.

Lemma root_configured : container_configured Sample.root.
Proof.
  intros c H. vm_compute in H. injection H as <-. discriminate.
Qed.

Lemma root_tabChange_ok : tabChange_indices_ok Sample.root.
Proof. constructor. Qed.

Lemma root_handlers_never_throw_witness :
  Tabs.initResolved Sample.root = true
  /\ container_configured Sample.root
  /\ tabChange_indices_ok Sample.root
  /\ exists s' : Tabs.SuperTabs,
       TabsHandlers.dispatch_all
         [TabsHandlers.ButtonClick (Fin 2);
          TabsHandlers.ActiveTabIndexChange (Fin (-1));
          TabsHandlers.SelectTab (Fin 1) true true;
          TabsHandlers.Slotchange (Some Sample.resting) None]
         Sample.root = Some s'
       /\ Tabs.initResolved s' = true
       /\ container_configured s'
       /\ tabChange_indices_ok s'.
Proof.
  split; [reflexivity|].
  split; [exact root_configured|]. split; [exact root_tabChange_ok|].
  exact (root_handlers_never_throw
           [TabsHandlers.ButtonClick (Fin 2);
            TabsHandlers.ActiveTabIndexChange (Fin (-1));
            TabsHandlers.SelectTab (Fin 1) true true;
            TabsHandlers.Slotchange (Some Sample.resting) None]
           Sample.root eq_refl root_configured root_tabChange_ok).
Defined.

(** X22.  A slot change re-selects the current tab in silence.  On an
    initialised root whose index is a number, [onSlotchange] completes; the
    root's [activeTabIndex] and the [tabChange] events already emitted are as
    before, the container in use (the one just found, else the one already
    known) has the root's configuration and is on the root's tab, and the
    toolbar in use has been sent [setActiveTab] with that tab. *)
Theorem onSlotchange_reselects
    (foundContainer : option Container.Container)
    (foundToolbar : option Toolbar.Toolbar) (s : Tabs.SuperTabs) :
  Tabs.initResolved s = true ->
  jeq (Tabs.activeTabIndex s) (Tabs.activeTabIndex s) = true ->
  exists s' : Tabs.SuperTabs,
    TabsHandlers.onSlotchange foundContainer foundToolbar s = Some s'
    /\ Tabs.activeTabIndex s' = Tabs.activeTabIndex s
    /\ Tabs.tabChange s' = Tabs.tabChange s
    /\ (forall c : Container.Container,
          match foundContainer with Some c0 => Some c0 | None => Tabs.container s end
          = Some c ->
          exists c' : Container.Container,
            Tabs.container s' = Some c'
            /\ Container.config c' = Some (Tabs._config s)
            /\ Container.strict_eq (Tabs.activeTabIndex s)
                 (Container._activeTabIndex c') = true)
    /\ Tabs.toolbar s'
       = option_map
           (fun t => Toolbar.setActiveTab (Tabs.activeTabIndex s) true true
                       (Toolbar.set_config (Some (Tabs._config s)) t))
           (match foundToolbar with Some t0 => Some t0 | None => Tabs.toolbar s end).
Proof.
  intros Hres Hnum. unfold TabsHandlers.onSlotchange.
  destruct (indexChildren_keeps foundContainer foundToolbar s)
    as [Kt [Ka [Kr [Kc Ktb]]]].
  set (s1 := Tabs.indexChildren foundContainer foundToolbar s) in *.
  rewrite Kr, Hres.
  destruct (selectTab_step (Tabs.activeTabIndex s1) true false s1
              (indexChildren_configured foundContainer foundToolbar s))
    as [s' [Hrun [Ha [Htc [Hsome [_ Htb]]]]]].
  exists s'. split; [exact Hrun|].
  split; [rewrite Ha; exact Ka|].
  split; [rewrite Htc; exact Kt|].
  split.
  - intros c Hc. rewrite Hc in Kc. cbn [option_map] in Kc.
    destruct (Hsome _ Kc) as [c' [H1 [H2 H3]]].
    exists c'. split; [exact H1|]. split; [rewrite H2; reflexivity|].
    rewrite <- Ka. apply H3. rewrite Ka. exact Hnum.
  - rewrite Htb, Ktb, Ka.
    destruct (match foundToolbar with Some t0 => Some t0 | None => Tabs.toolbar s end);
      reflexivity.
Qed.

Lemma onSlotchange_reselects_witness :
  Tabs.initResolved Sample.root = true
  /\ jeq (Tabs.activeTabIndex Sample.root) (Tabs.activeTabIndex Sample.root) = true
  /\ exists s' : Tabs.SuperTabs,
       TabsHandlers.onSlotchange (Some (Sample.dragging 900 3)) None Sample.root
       = Some s'
       /\ Tabs.activeTabIndex s' = Tabs.activeTabIndex Sample.root
       /\ Tabs.tabChange s' = Tabs.tabChange Sample.root
       /\ (forall c : Container.Container,
             Some (Sample.dragging 900 3) = Some c ->
             exists c' : Container.Container,
               Tabs.container s' = Some c'
               /\ Container.config c' = Some (Tabs._config Sample.root)
               /\ Container.strict_eq (Tabs.activeTabIndex Sample.root)
                    (Container._activeTabIndex c') = true)
       /\ Tabs.toolbar s'
          = option_map
              (fun t => Toolbar.setActiveTab (Tabs.activeTabIndex Sample.root) true true
                          (Toolbar.set_config (Some (Tabs._config Sample.root)) t))
              (Tabs.toolbar Sample.root).
Proof.
  split; [reflexivity|]. split; [reflexivity|].
  apply (onSlotchange_reselects (Some (Sample.dragging 900 3)) None Sample.root);
    reflexivity.
Defined.

(** ** The toolbar's indicator *)

Lemma Qceiling_cases (q : Q) :
  (q == inject_Z (Qfloor q) /\ Qceiling q = Qfloor q)
  \/ (inject_Z (Qfloor q) < q /\ Qceiling q = (Qfloor q + 1)%Z).
Proof.
  pose proof (Qfloor_le q) as Hf. pose proof (Qlt_floor q) as Hf'.
  pose proof (Qle_ceiling q) as Hc. pose proof (Qceiling_lt q) as Hc'.
  destruct (Qeq_dec q (inject_Z (Qfloor q))) as [E|E].
  - left. split; [exact E|].
    assert (Qceiling q - 1 < Qfloor q)%Z
      by (rewrite Zlt_Qlt; rewrite <- E; exact Hc').
    assert (Qfloor q <= Qceiling q)%Z
      by (rewrite Zle_Qle; eapply Qle_trans; eassumption).
    lia.
  - right. assert (inject_Z (Qfloor q) < q) as Hlt.
    { apply Qle_lteq in Hf. destruct Hf as [Hf|Hf]; [exact Hf|].
      exfalso. apply E. symmetry. exact Hf. }
    split; [exact Hlt|].
    assert (Qfloor q < Qceiling q)%Z
      by (rewrite Zlt_Qlt; eapply Qlt_le_trans; eassumption).
    assert (Qceiling q - 1 < Qfloor q + 1)%Z
      by (rewrite Zlt_Qlt; eapply Qlt_trans; eassumption).
    lia.
Qed.

(** [this.buttons[k]] for a whole number [k]. *)
Lemma indicator_button_at (s : Indicator.State) (k : Z) :
  (0 <= k)%Z ->
  Indicator.button_at s (Fin (inject_Z k))
  = nth_error (Indicator.buttons s) (Z.to_nat k).
Proof.
  intros Hk. unfold Indicator.button_at. rewrite Qfloor_Z.
  rewrite (Qeq_bool_true _ _ (Qeq_refl (inject_Z k))).
  assert ((0 <=? k)%Z = true) as -> by (apply Z.leb_le; exact Hk).
  reflexivity.
Qed.

(** A point a fraction [r] of the way from [a] to [b] lies between them. *)
Lemma between_ends (a b r : Q) :
  0 <= r -> r <= 1 ->
  Qmin a b <= a + r * (b - a) /\ a + r * (b - a) <= Qmax a b.
Proof.
  intros H0 H1.
  destruct (Q.min_spec a b) as [[Hab Hmin]|[Hab Hmin]];
    destruct (Q.max_spec a b) as [[Hab' Hmax]|[Hab' Hmax]];
    rewrite Hmin, Hmax; split; nra.
Qed.

(** X23.  Where [alignIndicator] puts the indicator.  With the indicator
    shown and an index within the buttons ([0 <= index <= buttons - 1]), the
    two neighbouring buttons [floor(index)] and [ceil(index)] exist and a
    frame is requested; the position and the width it carries are those of
    the first button moved towards the second by the fractional part of the
    index, so both lie between the two buttons' values (and are exactly the
    button's own at a whole index); [isDragging] becomes true exactly when
    the index has a fractional part. *)
Theorem indicator_between_buttons
    (s : Indicator.State) (q : Q) (animate : bool) :
  Indicator.showIndicator s = true ->
  Indicator.indicatorEl s = true ->
  0 <= q ->
  q <= inject_Z (Z.of_nat (List.length (Indicator.buttons s))) - 1 ->
  exists (A B : Indicator.El) (p w : Q) (s' : Indicator.State) (f : Indicator.Frame),
    nth_error (Indicator.buttons s) (Z.to_nat (Qfloor q)) = Some A
    /\ nth_error (Indicator.buttons s) (Z.to_nat (Qceiling q)) = Some B
    /\ Indicator.alignIndicator (Fin q) animate s = (s', Some f)
    /\ Indicator.isDragging s' = negb (Qeq_bool q (inject_Z (Qfloor q)))
    /\ Indicator.position f = Fin p
    /\ Indicator.width f = Fin w
    /\ p == Indicator.offsetLeft A
            + (q - inject_Z (Qfloor q))
              * (Indicator.offsetLeft B - Indicator.offsetLeft A)
    /\ w == Indicator.clientWidth A
            + (q - inject_Z (Qfloor q))
              * (Indicator.clientWidth B - Indicator.clientWidth A)
    /\ Qmin (Indicator.offsetLeft A) (Indicator.offsetLeft B) <= p
    /\ p <= Qmax (Indicator.offsetLeft A) (Indicator.offsetLeft B)
    /\ Qmin (Indicator.clientWidth A) (Indicator.clientWidth B) <= w
    /\ w <= Qmax (Indicator.clientWidth A) (Indicator.clientWidth B).
Proof.
  intros Hshow Hel H0 Hn.
  set (n := List.length (Indicator.buttons s)) in *.
  pose proof (Qfloor_le q) as Hfl. pose proof (Qlt_floor q) as Hfl'.
  assert (0 <= Qfloor q)%Z as Hk0.
  { assert (0 < Qfloor q + 1)%Z
      by (rewrite Zlt_Qlt; eapply Qle_lt_trans; [exact H0 | exact Hfl']).
    lia. }
  assert (inject_Z (Z.of_nat n) - 1 == inject_Z (Z.of_nat n - 1)) as Hlast.
  { unfold Z.sub, Qminus. rewrite inject_Z_plus. reflexivity. }
  assert (Qfloor q <= Z.of_nat n - 1)%Z as Hkn.
  { rewrite Zle_Qle. rewrite <- Hlast. eapply Qle_trans; eassumption. }
  assert (Qceiling q <= Z.of_nat n - 1)%Z as Hcn.
  { pose proof (Qceiling_lt q) as Hc.
    assert (Qceiling q - 1 < Z.of_nat n - 1)%Z; [|lia].
    rewrite Zlt_Qlt. rewrite <- Hlast. eapply Qlt_le_trans; eassumption. }
  assert (Qtrunc q = Qfloor q) as Htr.
  { unfold Qtrunc. assert (Qle_bool 0 q = true) as -> by (apply Qle_bool_iff; exact H0).
    reflexivity. }
  destruct (nth_error (Indicator.buttons s) (Z.to_nat (Qfloor q))) as [A|] eqn:EA;
    [|apply nth_error_None in EA; fold n in EA; lia].
  destruct (nth_error (Indicator.buttons s) (Z.to_nat (Qceiling q))) as [B|] eqn:EB.
  2:{ apply nth_error_None in EB. fold n in EB.
      destruct (Qceiling_cases q) as [[_ Hc]|[_ Hc]]; lia. }
  unfold Indicator.alignIndicator. rewrite Hshow, Hel. cbn [negb orb].
  cbn [jrem1 jfloor jceil]. rewrite Htr.
  rewrite indicator_button_at by exact Hk0.
  cbn [Indicator.buttons Indicator.set_isDragging]. rewrite EA.
  destruct (Qceiling_cases q) as [[Hint Hc]|[Hfrac Hc]].
  - assert (jgt (Fin (q - inject_Z (Qfloor q))) (Fin 0) = false) as ->.
    { unfold jgt. apply jlt_fin_false. rewrite Hint at 1. lra. }
    cbn [andb].
    exists A, B, (Indicator.offsetLeft A), (Indicator.clientWidth A).
    eexists. eexists.
    split; [reflexivity|]. split; [reflexivity|]. split; [reflexivity|].
    assert (B = A) as -> by (rewrite Hc, EA in EB; congruence).
    assert (q - inject_Z (Qfloor q) == 0) as Hr by (rewrite Hint at 1; ring).
    split; [cbn; rewrite (Qeq_bool_true _ _ Hint); reflexivity|].
    split; [reflexivity|]. split; [reflexivity|].
    split; [rewrite Hr; ring|]. split; [rewrite Hr; ring|].
    split; [apply Q.le_min_l|]. split; [apply Q.le_max_l|].
    split; [apply Q.le_min_l | apply Q.le_max_l].
  - assert (jgt (Fin (q - inject_Z (Qfloor q))) (Fin 0) = true) as ->.
    { unfold jgt. apply jlt_fin. lra. }
    assert (jeq (Fin (inject_Z (Qfloor q))) (Fin (inject_Z (Qceiling q))) = false)
      as ->.
    { destruct (jeq (Fin (inject_Z (Qfloor q))) (Fin (inject_Z (Qceiling q)))) eqn:E;
        [|reflexivity].
      apply jeq_fin in E. unfold Qeq in E. simpl in E. lia. }
    cbn [andb negb].
    rewrite indicator_button_at by lia.
    cbn [Indicator.buttons Indicator.set_isDragging]. rewrite EB.
    assert (0 <= q - inject_Z (Qfloor q)) as Hr0 by lra.
    assert (q - inject_Z (Qfloor q) <= 1) as Hr1.
    { rewrite inject_Z_plus in Hfl'. change (inject_Z 1) with 1 in Hfl'. lra. }
    destruct (between_ends (Indicator.offsetLeft A) (Indicator.offsetLeft B)
                (q - inject_Z (Qfloor q)) Hr0 Hr1) as [P1 P2].
    destruct (between_ends (Indicator.clientWidth A) (Indicator.clientWidth B)
                (q - inject_Z (Qfloor q)) Hr0 Hr1) as [W1 W2].
    exists A, B,
      (Indicator.offsetLeft A
       + (q - inject_Z (Qfloor q)) * (Indicator.offsetLeft B - Indicator.offsetLeft A)),
      (Indicator.clientWidth A
       + (q - inject_Z (Qfloor q))
         * (Indicator.clientWidth B - Indicator.clientWidth A)).
    eexists. eexists.
    split; [reflexivity|]. split; [reflexivity|]. split; [reflexivity|].
    split.
    { cbn. rewrite Qeq_bool_false; [reflexivity|]. intros E. rewrite E in Hfrac at 2.
      lra. }
    split; [reflexivity|]. split; [reflexivity|].
    split; [reflexivity|]. split; [reflexivity|].
    split; [exact P1|]. split; [exact P2|]. split; [exact W1 | exact W2].
Qed.

Lemma indicator_between_buttons_witness :
  Indicator.showIndicator SampleIndicator.bar = true
  /\ Indicator.indicatorEl SampleIndicator.bar = true
  /\ 0 <= (3 # 2)
  /\ (3 # 2)
     <= inject_Z (Z.of_nat (List.length (Indicator.buttons SampleIndicator.bar))) - 1
  /\ exists (A B : Indicator.El) (p w : Q) (s' : Indicator.State)
            (f : Indicator.Frame),
       nth_error (Indicator.buttons SampleIndicator.bar) (Z.to_nat (Qfloor (3 # 2)))
       = Some A
       /\ nth_error (Indicator.buttons SampleIndicator.bar)
            (Z.to_nat (Qceiling (3 # 2))) = Some B
       /\ Indicator.alignIndicator (Fin (3 # 2)) false SampleIndicator.bar
          = (s', Some f)
       /\ Indicator.isDragging s'
          = negb (Qeq_bool (3 # 2) (inject_Z (Qfloor (3 # 2))))
       /\ Indicator.position f = Fin p
       /\ Indicator.width f = Fin w
       /\ p == Indicator.offsetLeft A
               + ((3 # 2) - inject_Z (Qfloor (3 # 2)))
                 * (Indicator.offsetLeft B - Indicator.offsetLeft A)
       /\ w == Indicator.clientWidth A
               + ((3 # 2) - inject_Z (Qfloor (3 # 2)))
                 * (Indicator.clientWidth B - Indicator.clientWidth A)
       /\ Qmin (Indicator.offsetLeft A) (Indicator.offsetLeft B) <= p
       /\ p <= Qmax (Indicator.offsetLeft A) (Indicator.offsetLeft B)
       /\ Qmin (Indicator.clientWidth A) (Indicator.clientWidth B) <= w
       /\ w <= Qmax (Indicator.clientWidth A) (Indicator.clientWidth B).
Proof.
  split; [reflexivity|]. split; [reflexivity|].
  split; [compute; discriminate|]. split; [compute; discriminate|].
  apply (indicator_between_buttons SampleIndicator.bar (3 # 2) false).
  - reflexivity.
  - reflexivity.
  - compute; discriminate.
  - compute; discriminate.
Defined.

(** The same call, run: half way between buttons 1 and 2 the indicator is
    at 170 pixels and 110 pixels wide. *)
Example alignIndicator_run :
  match snd (Indicator.alignIndicator (Fin (3 # 2)) false SampleIndicator.bar) with
  | Some f =>
      equiv (Indicator.position f) (Fin 170) /\ equiv (Indicator.width f) (Fin 110)
  | None => False
  end.
Proof. vm_compute. split; reflexivity. Qed.

(** A floor strictly above another separates the numbers; a floor not
    above another keeps them less than one apart. *)
Lemma floor_gt (u v : Q) : (Qfloor v < Qfloor u)%Z -> v < u.
Proof.
  intros H. pose proof (Qfloor_le u) as Hu. pose proof (Qlt_floor v) as Hv.
  assert (inject_Z (Qfloor v + 1) <= inject_Z (Qfloor u)) as Hz
    by (rewrite <- Zle_Qle; lia).
  lra.
Qed.

Lemma floor_le (u v : Q) : (Qfloor u <= Qfloor v)%Z -> u < v + 1.
Proof.
  intros H. pose proof (Qfloor_le v) as Hv. pose proof (Qlt_floor u) as Hu.
  assert (inject_Z (Qfloor u + 1) <= inject_Z (Qfloor v + 1)) as Hz
    by (rewrite <- Zle_Qle; lia).
  rewrite inject_Z_plus in Hz. rewrite inject_Z_plus in Hz.
  change (inject_Z 1) with 1 in Hz. rewrite inject_Z_plus in Hu.
  change (inject_Z 1) with 1 in Hu. lra.
Qed.

Lemma scrollTarget_centres (ip iw mw sp : Q) :
  0 <= ip -> 0 <= sp -> iw <= mw ->
  match Indicator.scrollTarget (Fin ip) (Fin iw) (Fin mw) (Fin sp) with
  | None =>
      sp + mw * (1 # 2) <= ip + iw * (1 # 2)
      /\ ip + iw * (1 # 2) < sp + mw * (1 # 2) + 1
  | Some v =>
      exists pos : Q,
        v = Fin pos
        /\ 0 <= pos
        /\ (pos == ip + iw * (1 # 2) - mw * (1 # 2)
            \/ (pos == 0 /\ ip + iw * (1 # 2) <= mw * (1 # 2)))
  end.
Proof.
  intros Hip Hsp Hw. unfold Indicator.scrollTarget.
  cbn [jdiv jsub jadd jneg jfloor].
  change (Qeq_bool 2 0) with false. cbn iota. cbn [jsub jadd jneg jfloor].
  unfold Qdiv. change (/ 2) with (1 # 2).
  set (X := ip + iw + (mw * (1 # 2) + - (iw * (1 # 2)))).
  set (Y := ip + - (mw * (1 # 2) + - (iw * (1 # 2)))).
  set (V := mw + sp).
  destruct (jgt (Fin (inject_Z (Qfloor X))) (Fin (inject_Z (Qfloor V)))) eqn:E1.
  - unfold jgt in E1. apply jlt_fin in E1. rewrite <- Zlt_Qlt in E1.
    apply floor_gt in E1. unfold X, V in E1.
    eexists. split; [reflexivity|]. fold X. unfold X.
    split; [lra|]. left. ring.
  - assert (Qfloor X <= Qfloor V)%Z as Hxv.
    { destruct (Z_lt_le_dec (Qfloor V) (Qfloor X)) as [L|L]; [|exact L].
      exfalso. rewrite Zlt_Qlt in L. apply jlt_fin in L. unfold jgt in E1.
      rewrite L in E1. discriminate. }
    apply floor_le in Hxv. unfold X, V in Hxv.
    destruct (jlt (Fin (inject_Z (Qfloor Y))) (Fin sp)) eqn:E2.
    + unfold jmax, jcmp.
      destruct (Qcompare_spec Y 0) as [Hy|Hy|Hy].
      * assert (jgt (Fin Y) (Fin ip) = false) as ->.
        { unfold jgt. apply jlt_fin_false. rewrite Hy. exact Hip. }
        eexists. split; [reflexivity|]. split; [rewrite Hy; lra|].
        left. unfold Y. ring.
      * assert (jgt (Fin 0) (Fin ip) = false) as ->.
        { unfold jgt. apply jlt_fin_false. exact Hip. }
        eexists. split; [reflexivity|]. split; [lra|].
        right. split; [reflexivity|]. unfold Y in Hy. lra.
      * assert (jgt (Fin Y) (Fin ip) = false) as ->.
        { unfold jgt. apply jlt_fin_false. unfold Y. lra. }
        eexists. split; [reflexivity|]. split; [lra|].
        left. unfold Y. ring.
    + assert (sp <= inject_Z (Qfloor Y)) as Hb.
      { destruct (Qlt_le_dec (inject_Z (Qfloor Y)) sp) as [L|L]; [|exact L].
        exfalso. apply jlt_fin in L. rewrite L in E2. discriminate. }
      pose proof (Qfloor_le Y) as Hy. unfold Y in Hb, Hy. unfold Y in *.
      split; lra.
Qed.

(** X24.  [adjustContainerScroll] keeps the indicator in the middle of a
    scrollable toolbar.  With an indicator no wider than the buttons
    container and nothing negative among the readings, either nothing is
    scrolled, and then the middle of the indicator is less than a pixel to
    the right of the middle of the visible part; or one scroll is asked for,
    to a position that is not negative and puts the middle of the indicator
    in the middle of the visible part, or to 0 when the indicator is too far
    left for that.  The scroll takes 50 ms without native smooth scrolling
    when not animated, and follows the configuration otherwise. *)
Theorem adjustContainerScroll_centres
    (s : Indicator.State) (el : Indicator.El) (cfg : SuperTabsConfig)
    (ip iw : Q) (animate : bool) :
  Indicator.buttonsContainerEl s = Some el ->
  Indicator.config s = Some cfg ->
  Indicator.indicatorPosition s = Some (Fin ip) ->
  Indicator.indicatorWidth s = Some (Fin iw) ->
  0 <= ip ->
  0 <= Indicator.scrollLeft el ->
  iw <= Indicator.clientWidth el ->
  (Indicator.adjustContainerScroll animate s = Some []
   /\ Indicator.scrollLeft el + Indicator.clientWidth el * (1 # 2)
      <= ip + iw * (1 # 2)
   /\ ip + iw * (1 # 2)
      < Indicator.scrollLeft el + Indicator.clientWidth el * (1 # 2) + 1)
  \/ exists pos : Q,
       Indicator.adjustContainerScroll animate s
       = Some [Indicator.ScrollButtons (Fin pos)
                 (if animate then nativeSmoothScroll cfg else Some false)
                 (if animate then transitionDuration cfg else 50)]
       /\ 0 <= pos
       /\ (pos == ip + iw * (1 # 2) - Indicator.clientWidth el * (1 # 2)
           \/ (pos == 0 /\ ip + iw * (1 # 2) <= Indicator.clientWidth el * (1 # 2))).
Proof.
  intros Hel Hcfg Hip Hiw H0 Hsp Hw.
  pose proof (scrollTarget_centres ip iw (Indicator.clientWidth el)
                (Indicator.scrollLeft el) H0 Hsp Hw) as Ht.
  unfold Indicator.adjustContainerScroll. rewrite Hel, Hip, Hiw.
  destruct (Indicator.scrollTarget (Fin ip) (Fin iw) (Fin (Indicator.clientWidth el))
              (Fin (Indicator.scrollLeft el))) as [v|].
  - right. destruct Ht as [pos [-> [Hpos Hwhere]]]. exists pos.
    split; [|split; [exact Hpos | exact Hwhere]].
    destruct animate; cbn [negb]; [|reflexivity].
    unfold Indicator.moveContainer. rewrite Hel, Hcfg. reflexivity.
  - left. split; [reflexivity | exact Ht].
Qed.

Lemma adjustContainerScroll_centres_witness :
  let s := Indicator.set_indicator (Fin 240) (Fin 80) SampleIndicator.bar in
  let el := {| Indicator.offsetLeft := 0; Indicator.clientWidth := 200;
               Indicator.scrollLeft := 0 |} in
  Indicator.buttonsContainerEl s = Some el
  /\ Indicator.config s = Some DEFAULT_CONFIG
  /\ Indicator.indicatorPosition s = Some (Fin 240)
  /\ Indicator.indicatorWidth s = Some (Fin 80)
  /\ 0 <= 240
  /\ 0 <= Indicator.scrollLeft el
  /\ 80 <= Indicator.clientWidth el
  /\ ((Indicator.adjustContainerScroll true s = Some []
       /\ Indicator.scrollLeft el + Indicator.clientWidth el * (1 # 2)
          <= 240 + 80 * (1 # 2)
       /\ 240 + 80 * (1 # 2)
          < Indicator.scrollLeft el + Indicator.clientWidth el * (1 # 2) + 1)
      \/ exists pos : Q,
           Indicator.adjustContainerScroll true s
           = Some [Indicator.ScrollButtons (Fin pos)
                     (if true then nativeSmoothScroll DEFAULT_CONFIG else Some false)
                     (if true then transitionDuration DEFAULT_CONFIG else 50)]
           /\ 0 <= pos
           /\ (pos == 240 + 80 * (1 # 2) - Indicator.clientWidth el * (1 # 2)
               \/ (pos == 0
                   /\ 240 + 80 * (1 # 2) <= Indicator.clientWidth el * (1 # 2)))).
Proof.
  intros s el.
  split; [reflexivity|]. split; [reflexivity|]. split; [reflexivity|].
  split; [reflexivity|]. split; [compute; discriminate|].
  split; [compute; discriminate|]. split; [compute; discriminate|].
  apply (adjustContainerScroll_centres s el DEFAULT_CONFIG 240 80 true).
  - reflexivity.
  - reflexivity.
  - reflexivity.
  - reflexivity.
  - compute; discriminate.
  - compute; discriminate.
  - compute; discriminate.
Defined.

(** The frame that follows a tap on button 2 of the sample toolbar: the
    buttons are scrolled to 180 pixels, which centres the button, then the
    indicator is put on it. *)
Example indicatorFrame_run :
  match Indicator.alignIndicator (Fin 2) true SampleIndicator.bar with
  | (s1, Some f) =>
      match option_map snd (Indicator.indicatorFrame f s1) with
      | Some [Indicator.ScrollButtons x None duration;
              Indicator.SetIndicator position scale (Some transition)] =>
          equiv x (Fin 180) /\ duration == 150
          /\ equiv position (Fin 240) /\ equiv scale (Fin (8 # 10))
          /\ transition == 150
      | _ => False
      end
  | _ => False
  end.
Proof. vm_compute. repeat split; reflexivity. Qed.

(** ** Loading on a tab other than the first *)

(** [setActiveTab] on a toolbar that has buttons: where the index ends. *)
Lemma setActiveTab_index
    (t : Toolbar.Toolbar) (q : Q) (align animate : bool) :
  Toolbar.buttons t <> [] ->
  let k := Z.to_nat (Z.max 0 (Z.min (Qround q)
                                (Z.of_nat (List.length (Toolbar.buttons t)) - 1))) in
  let t' := Toolbar.setActiveTab (Fin q) align animate t in
  List.length (Toolbar.buttons t') = List.length (Toolbar.buttons t)
  /\ equiv (Toolbar.activeTabIndex t') (of_Z (Z.of_nat k))
  /\ Toolbar.activeButton t' = Some k
  /\ Toolbar.config t' = Toolbar.config t.
Proof.
  intros Hne k t'.
  assert (0 < List.length (Toolbar.buttons t))%nat as Hlen
    by (destruct (Toolbar.buttons t); [congruence | cbn; lia]).
  destruct (toolbar_clamp q (List.length (Toolbar.buttons t)) Hlen) as [r [Hidx Hr]].
  set (z := Z.max 0 (Z.min (Qround q) (Z.of_nat (List.length (Toolbar.buttons t)) - 1)))
    in *.
  assert (0 <= z < Z.of_nat (List.length (Toolbar.buttons t)))%Z as Hz by (unfold z; lia).
  unfold t', Toolbar.setActiveTab. rewrite Hidx.
  rewrite (button_at_position _ r z Hr) by exact Hz.
  fold k. unfold Toolbar.markButtonActive.
  cbn [Toolbar.buttons Toolbar.activeButton Toolbar.activeTabIndex Toolbar.config].
  split; [|split; [|split]].
  - rewrite set_nth_length. destruct (Toolbar.activeButton t);
      [apply set_nth_length | reflexivity].
  - cbn [equiv of_Z]. rewrite Hr. unfold k. rewrite Z2Nat.id by lia. reflexivity.
  - reflexivity.
  - reflexivity.
Qed.

(** [initComponent]'s last part on a root that has a configured container
    and sits on a tab other than the first. *)
Lemma finishInit_on_tab (s : Tabs.SuperTabs) (c : Container.Container) :
  Tabs.container s = Some c ->
  Container.config c <> None ->
  jgt (Tabs.activeTabIndex s) (Fin 0) = true ->
  Tabs.tabChange (Tabs.finishInit s) = Tabs.tabChange s
  /\ Tabs.activeTabIndex (Tabs.finishInit s) = Tabs.activeTabIndex s
  /\ Tabs.container (Tabs.finishInit s)
     = Some (Container.set_config (Some (Tabs._config s)) c)
  /\ Tabs.toolbar (Tabs.finishInit s)
     = option_map
         (fun t => Toolbar.set_config (Some (Tabs._config s))
                     (Toolbar.setActiveTab (Tabs.activeTabIndex s) true false t))
         (Tabs.toolbar s).
Proof.
  intros Hc Hcfg Hpos. unfold Tabs.finishInit. rewrite Hpos, Hc.
  destruct (moveContainerByIndex_run (Tabs.activeTabIndex s) false c Hcfg) as [o Hrun].
  rewrite Hrun.
  pose proof (moveContainerByIndex_quiet _ _ _ _ _ _ Hrun) as Hq.
  set (s0 := Tabs.set_container (Some c) s).
  destruct (deliver_quiet o s0 Hq) as [Dt [Da [Dtb Dc]]].
  destruct (deliver_keeps o s0) as [_ [Dcfg _]].
  unfold Tabs.setupEventListeners, Tabs.propagateConfig.
  cbn [Tabs.container Tabs.toolbar Tabs.set_container Tabs.set_toolbar Tabs._config
       Tabs.activeTabIndex Tabs.tabChange].
  rewrite Dc, Dtb, Da, Dcfg.
  cbn [Tabs.container Tabs.toolbar Tabs.set_container Tabs._config Tabs.activeTabIndex
       s0 option_map Tabs.set_listens].
  destruct (Tabs.toolbar s) as [t|];
    cbn [option_map Tabs.container Tabs.toolbar Tabs.tabChange Tabs.activeTabIndex
         Tabs.set_listens Tabs.set_initResolved Tabs.debug Tabs.set_toolbar
         Tabs.set_container Tabs.listensContainer Tabs.listensToolbar];
    rewrite ?Dt, ?Da; repeat split; reflexivity.
Qed.

(** X25.  Loading on a tab other than the first.  When the root is loaded
    with a positive [activeTabIndex] and finds its container and a toolbar
    with buttons, [componentDidLoad] and the first run of [initComponent]
    complete without a retry; the container ends configured and on that
    index, the toolbar on the button nearest to it, the root keeps its index
    and listens to the container, the init promise is resolved, and no
    [tabChange] is emitted on the way. *)
Theorem loads_on_active_tab
    (s : Tabs.SuperTabs) (c : Container.Container) (t : Toolbar.Toolbar) (q : Q) :
  Tabs.activeTabIndex s = Fin q ->
  0 < q ->
  Toolbar.buttons t <> [] ->
  let k := Z.to_nat (Z.max 0 (Z.min (Qround q)
                                (Z.of_nat (List.length (Toolbar.buttons t)) - 1))) in
  exists (s1 s2 : Tabs.SuperTabs) (c2 : Container.Container) (t2 : Toolbar.Toolbar),
    TabsLifecycle.componentDidLoad (Some c) (Some t) s = Some s1
    /\ Tabs.initComponent s1 = (s2, false)
    /\ Tabs.container s2 = Some c2
    /\ Container.config c2 = Some (Tabs._config s)
    /\ Container.strict_eq (Fin q) (Container._activeTabIndex c2) = true
    /\ Tabs.toolbar s2 = Some t2
    /\ equiv (Toolbar.activeTabIndex t2) (of_Z (Z.of_nat k))
    /\ Toolbar.activeButton t2 = Some k
    /\ Tabs.activeTabIndex s2 = Fin q
    /\ Tabs.tabChange s2 = Tabs.tabChange s
    /\ Tabs.initResolved s2 = true
    /\ Tabs.listensContainer s2 = true.
Proof.
  intros Ha Hq Hne k.
  set (cfg := Tabs._config s).
  set (c0 := Container.set_config (Some cfg) c).
  set (t0 := Toolbar.set_config (Some cfg) t).
  set (s0 := Tabs.indexChildren (Some c) (Some t) (Tabs.debug "componentDidLoad" s)).
  assert (Tabs.activeTabIndex s0 = Fin q) as Ha0 by exact Ha.
  assert (Tabs.container s0 = Some c0) as Hc0 by reflexivity.
  assert (Tabs.toolbar s0 = Some t0) as Ht0 by reflexivity.
  assert (jgt (Fin q) (Fin 0) = true) as Hpos by (unfold jgt; apply jlt_fin; exact Hq).
  destruct (setActiveTabIndex_sets (Fin q) true false c0 cfg eq_refl)
    as [c' [o [Hrun [Hcfg' [Hquiet Hset]]]]].
  set (s1' := Tabs.deliver o (Tabs.set_container (Some c') s0)).
  destruct (deliver_quiet o (Tabs.set_container (Some c') s0) Hquiet)
    as [Dt [Da [Dtb Dc]]].
  destruct (deliver_keeps o (Tabs.set_container (Some c') s0)) as [_ [Dcfg _]].
  fold s1' in Dt, Da, Dtb, Dc, Dcfg.
  set (t1 := Toolbar.setActiveTab (Fin q) true false t0).
  set (s1 := Tabs.set_toolbar (Some t1) s1').
  assert (TabsLifecycle.componentDidLoad (Some c) (Some t) s = Some s1) as Hload.
  { unfold TabsLifecycle.componentDidLoad. fold s0. rewrite Ha0, Hpos, Hc0, Hrun.
    fold s1'. rewrite Da, Dtb.
    cbn [Tabs.activeTabIndex Tabs.toolbar Tabs.set_container]. rewrite Ha0, Ht0.
    reflexivity. }
  assert (Tabs.container s1 = Some c') as Hc1
    by (unfold s1; cbn [Tabs.container Tabs.set_toolbar]; rewrite Dc; reflexivity).
  assert (Tabs.activeTabIndex s1 = Fin q) as Ha1
    by (unfold s1; cbn [Tabs.activeTabIndex Tabs.set_toolbar]; rewrite Da; exact Ha0).
  assert (Tabs._config s1 = cfg) as Hcfg1
    by (unfold s1; cbn [Tabs._config Tabs.set_toolbar]; rewrite Dcfg; reflexivity).
  assert (Tabs.tabChange s1 = Tabs.tabChange s) as Htc1
    by (unfold s1; cbn [Tabs.tabChange Tabs.set_toolbar]; rewrite Dt; reflexivity).
  assert (Container.config c' <> None) as Hcfgne by (rewrite Hcfg'; discriminate).
  destruct (finishInit_on_tab s1 c' Hc1 Hcfgne) as [Ft [Fa [Fc Ftb]]];
    [rewrite Ha1; exact Hpos|].
  destruct (finishInit_with_container s1 c' Hc1) as [Fr [Fl _]].
  destruct (setActiveTab_index t0 q true false Hne) as [L1 [_ [_ _]]].
  fold t1 in L1.
  assert (Toolbar.buttons t1 <> []) as Hne1.
  { intros E. rewrite E in L1. cbn in L1. destruct (Toolbar.buttons t); [congruence|].
    cbn in L1. discriminate. }
  destruct (setActiveTab_index t1 q true false Hne1) as [_ [I2 [B2 _]]].
  rewrite L1 in I2, B2. cbn [Toolbar.buttons Toolbar.set_config t0] in I2, B2.
  fold k in I2, B2.
  exists s1, (Tabs.finishInit s1),
    (Container.set_config (Some cfg) c'),
    (Toolbar.set_config (Some cfg) (Toolbar.setActiveTab (Fin q) true false t1)).
  split; [exact Hload|].
  split; [unfold Tabs.initComponent; rewrite Hc1; reflexivity|].
  split; [rewrite Fc, Hcfg1; reflexivity|].
  split; [reflexivity|].
  split; [cbn [Container._activeTabIndex Container.set_config]; apply Hset;
          apply jeq_fin; reflexivity|].
  split.
  { rewrite Ftb, Ha1, Hcfg1. unfold s1. cbn [Tabs.toolbar Tabs.set_toolbar option_map].
    reflexivity. }
  split; [exact I2|]. split; [exact B2|].
  split; [rewrite Fa; exact Ha1|].
  split; [rewrite Ft; exact Htc1|].
  split; [exact Fr | exact Fl].
Qed.

Lemma loads_on_active_tab_witness :
  Tabs.activeTabIndex (Tabs.set_activeTabIndex (Fin 2) Tabs.initial) = Fin 2
  /\ 0 < 2
  /\ Toolbar.buttons Sample.four_buttons <> []
  /\ let k := Z.to_nat (Z.max 0 (Z.min (Qround 2)
                (Z.of_nat (List.length (Toolbar.buttons Sample.four_buttons)) - 1))) in
     exists (s1 s2 : Tabs.SuperTabs) (c2 : Container.Container) (t2 : Toolbar.Toolbar),
       TabsLifecycle.componentDidLoad (Some Sample.resting) (Some Sample.four_buttons)
         (Tabs.set_activeTabIndex (Fin 2) Tabs.initial) = Some s1
       /\ Tabs.initComponent s1 = (s2, false)
       /\ Tabs.container s2 = Some c2
       /\ Container.config c2
          = Some (Tabs._config (Tabs.set_activeTabIndex (Fin 2) Tabs.initial))
       /\ Container.strict_eq (Fin 2) (Container._activeTabIndex c2) = true
       /\ Tabs.toolbar s2 = Some t2
       /\ equiv (Toolbar.activeTabIndex t2) (of_Z (Z.of_nat k))
       /\ Toolbar.activeButton t2 = Some k
       /\ Tabs.activeTabIndex s2 = Fin 2
       /\ Tabs.tabChange s2
          = Tabs.tabChange (Tabs.set_activeTabIndex (Fin 2) Tabs.initial)
       /\ Tabs.initResolved s2 = true
       /\ Tabs.listensContainer s2 = true.
Proof.
  assert (Toolbar.buttons Sample.four_buttons <> []) as Hne by (cbn; discriminate).
  split; [reflexivity|]. split; [reflexivity|]. split; [exact Hne|].
  apply (loads_on_active_tab (Tabs.set_activeTabIndex (Fin 2) Tabs.initial)
           Sample.resting Sample.four_buttons 2).
  - reflexivity.
  - reflexivity.
  - exact Hne.
Defined.

(** ** Taps on the toolbar *)

Lemma jle_fin_bool (p q : Q) : jle (Fin p) (Fin q) = Qle_bool p q.
Proof.
  destruct (Qle_bool p q) eqn:E.
  - apply jle_fin. apply Qle_bool_iff. exact E.
  - destruct (jle (Fin p) (Fin q)) eqn:E'; [|reflexivity].
    apply jle_fin in E'. apply Qle_bool_iff in E'. congruence.
Qed.

(** X26.  A quick tap on a scrollable toolbar, and the click that follows
    it.  The touch starts inside the side-menu thresholds after the last
    click, ends within 150 ms less than [dragThreshold] away, on a button:
    the touch end gives out [buttonClick] for that button.  The click event
    that the browser sends afterwards is ignored when it comes within 150 ms
    of the touch start, and gives out a second [buttonClick] for the same
    tap when it comes later. *)
Theorem quick_tap_then_click
    (checkGesture : STCoord -> STCoord -> SuperTabsConfig -> bool)
    (s : ToolbarTouch.State) (cfg : SuperTabsConfig) (c0 c1 : STCoord)
    (t0 t1 t2 : Q) (tg : ToolbarTouch.Target) (b : nat) :
  ToolbarTouch.scrollable s = true ->
  ToolbarTouch.leftThreshold s <= x c0 ->
  x c0 <= ToolbarTouch.width s - ToolbarTouch.rightThreshold s ->
  ToolbarTouch.lastClickTs s < t0 ->
  t1 - t0 <= 150 ->
  Toolbar.config (ToolbarTouch.bar s) = Some cfg ->
  Qabs (x c1 - x c0) < dragThreshold cfg ->
  ToolbarTouch.getButtonFromEv tg = Some b ->
  exists (s' : ToolbarTouch.State) (o : list ToolbarTouch.Output),
    ToolbarTouch.handle_all checkGesture
      [ToolbarTouch.TouchStart c0 t0; ToolbarTouch.TouchEnd tg c1 t1;
       ToolbarTouch.Click (Some tg) t2] s = Some (s', o)
    /\ (t2 - t0 <= 150 -> ToolbarTouch.buttonClicks o = [b])
    /\ (150 < t2 - t0 -> ToolbarTouch.buttonClicks o = [b; b])
    /\ ToolbarTouch.isDragging s' = false
    /\ ToolbarTouch.initialCoords s' = None.
Proof.
  intros Hscroll Hleft Hright Hlast Hquick Hcfg Hnear Htg.
  cbn [ToolbarTouch.handle_all ToolbarTouch.handle].
  unfold ToolbarTouch.onTouchStart. rewrite Hscroll. cbn [negb].
  rewrite (jlt_fin_false _ _ Hleft).
  change (jsub (Fin (ToolbarTouch.width s)) (Fin (ToolbarTouch.rightThreshold s)))
    with (Fin (ToolbarTouch.width s + - ToolbarTouch.rightThreshold s)).
  unfold Qminus in Hright, Hquick, Hnear.
  unfold jgt at 1. rewrite (jlt_fin_false _ _ Hright). cbn [orb].
  unfold ToolbarTouch.onTouchEnd.
  cbn [ToolbarTouch.lastClickTs ToolbarTouch.touchStartTs ToolbarTouch.initialCoords
       ToolbarTouch.bar ToolbarTouch.set_touchStart option_map Container.num_of].
  rewrite Hcfg. cbn [option_map Container.num_of].
  assert (jlt (Fin (ToolbarTouch.lastClickTs s)) (Fin t0) = true) as ->
    by (apply jlt_fin; exact Hlast).
  change (jsub (Fin t1) (Fin t0)) with (Fin (t1 + - t0)).
  assert (jle (Fin (t1 + - t0)) (Fin 150) = true) as ->
    by (apply jle_fin; exact Hquick).
  cbn [andb].
  change (jabs (jsub (Fin (x c1)) (Fin (x c0)))) with (Fin (Qabs (x c1 + - x c0))).
  assert (jlt (Fin (Qabs (x c1 + - x c0))) (Fin (dragThreshold cfg)) = true) as ->
    by (apply jlt_fin; exact Hnear).
  rewrite Htg.
  unfold ToolbarTouch.onButtonClick at 1, ToolbarHandlers.onButtonClick.
  cbn [fst snd].
  unfold ToolbarTouch.onClick.
  cbn [ToolbarTouch.touchStartTs ToolbarTouch.set_gesture ToolbarTouch.set_click
       ToolbarTouch.set_touchStart].
  change (jsub (Fin t2) (Fin t0)) with (Fin (t2 + - t0)).
  rewrite jle_fin_bool.
  destruct (Qle_bool (t2 + - t0) 150) eqn:Elate.
  - apply Qle_bool_iff in Elate.
    eexists. eexists. split; [reflexivity|].
    split; [intros _; reflexivity|].
    split; [intros H; exfalso; unfold Qminus in H; lra|].
    split; reflexivity.
  - assert (150 < t2 - t0) as Hlate.
    { destruct (Qlt_le_dec 150 (t2 - t0)) as [L|L]; [exact L|].
      apply Qle_bool_iff in L. unfold Qminus in L. congruence. }
    rewrite Htg.
    unfold ToolbarTouch.onButtonClick, ToolbarHandlers.onButtonClick.
    eexists. eexists. split; [reflexivity|].
    split; [intros H; exfalso; lra|].
    split; [intros _; reflexivity|].
    split; [|reflexivity].
    cbn [ToolbarTouch.isDragging ToolbarTouch.set_click ToolbarTouch.set_gesture
         ToolbarTouch.showIndicator ToolbarTouch.indicatorEl
         ToolbarTouch.set_touchStart].
    destruct (ToolbarTouch.showIndicator s && ToolbarTouch.indicatorEl s);
      reflexivity.
Qed.

Lemma quick_tap_then_click_witness :
  ToolbarTouch.scrollable SampleToolbar.scrolling = true
  /\ ToolbarTouch.leftThreshold SampleToolbar.scrolling <= x {| x := 120; y := 10 |}
  /\ x {| x := 120; y := 10 |}
     <= ToolbarTouch.width SampleToolbar.scrolling
        - ToolbarTouch.rightThreshold SampleToolbar.scrolling
  /\ ToolbarTouch.lastClickTs SampleToolbar.scrolling < 1000
  /\ 1080 - 1000 <= 150
  /\ Toolbar.config (ToolbarTouch.bar SampleToolbar.scrolling) = Some DEFAULT_CONFIG
  /\ Qabs (x {| x := 122; y := 10 |} - x {| x := 120; y := 10 |})
     < dragThreshold DEFAULT_CONFIG
  /\ ToolbarTouch.getButtonFromEv (ToolbarTouch.OnButton 1) = Some 1%nat
  /\ exists (s' : ToolbarTouch.State) (o : list ToolbarTouch.Output),
       ToolbarTouch.handle_all SampleTouch.reject
         [ToolbarTouch.TouchStart {| x := 120; y := 10 |} 1000;
          ToolbarTouch.TouchEnd (ToolbarTouch.OnButton 1) {| x := 122; y := 10 |} 1080;
          ToolbarTouch.Click (Some (ToolbarTouch.OnButton 1)) 1400]
         SampleToolbar.scrolling = Some (s', o)
       /\ (1400 - 1000 <= 150 -> ToolbarTouch.buttonClicks o = [1%nat])
       /\ (150 < 1400 - 1000 -> ToolbarTouch.buttonClicks o = [1%nat; 1%nat])
       /\ ToolbarTouch.isDragging s' = false
       /\ ToolbarTouch.initialCoords s' = None.
Proof.
  split; [reflexivity|]. split; [compute; discriminate|].
  split; [compute; discriminate|]. split; [reflexivity|].
  split; [compute; discriminate|]. split; [reflexivity|].
  split; [reflexivity|]. split; [reflexivity|].
  apply (quick_tap_then_click SampleTouch.reject SampleToolbar.scrolling DEFAULT_CONFIG
           {| x := 120; y := 10 |} {| x := 122; y := 10 |} 1000 1080 1400
           (ToolbarTouch.OnButton 1) 1).
  - reflexivity.
  - compute; discriminate.
  - compute; discriminate.
  - reflexivity.
  - compute; discriminate.
  - reflexivity.
  - reflexivity.
  - reflexivity.
Defined.

(** A toolbar that is not scrollable and whose last click is not older than
    its last touch start: one event. *)
Lemma fixed_toolbar_step
    (checkGesture : STCoord -> STCoord -> SuperTabsConfig -> bool)
    (e : ToolbarTouch.Event) (s : ToolbarTouch.State) :
  ToolbarTouch.scrollable s = false ->
  ToolbarTouch.touchStartTs s <= ToolbarTouch.lastClickTs s ->
  exists (s' : ToolbarTouch.State) (o : list ToolbarTouch.Output),
    ToolbarTouch.handle checkGesture e s = Some (s', o)
    /\ ToolbarTouch.scrollable s' = false
    /\ ToolbarTouch.touchStartTs s' = ToolbarTouch.touchStartTs s
    /\ ToolbarTouch.touchStartTs s' <= ToolbarTouch.lastClickTs s'
    /\ ToolbarTouch.buttonClicks o
       = ToolbarTouch.clickedButtons (late_clicks (ToolbarTouch.touchStartTs s) [e])
    /\ (forall d : Q, ~ In (ToolbarTouch.RequestFrame d) o).
Proof.
  intros Hfix Hinv.
  destruct e as [coords now | coords | deltaX | target coords now | target now];
    cbn [ToolbarTouch.handle late_clicks filter ToolbarTouch.clickedButtons flat_map].
  - unfold ToolbarTouch.onTouchStart. rewrite Hfix. cbn [negb].
    exists s, []. repeat split; try assumption. intros d [].
  - unfold ToolbarTouch.onTouchMove. rewrite Hfix.
    exists s, [].
    split; [destruct (ToolbarTouch.buttonsContainerEl s); reflexivity|].
    repeat split; try assumption. intros d [].
  - eexists. eexists. split; [reflexivity|].
    split; [exact Hfix|]. split; [reflexivity|]. split; [exact Hinv|].
    split.
    + unfold ToolbarTouch.touchMoveFrame.
      destruct (ToolbarTouch.isDragging s); cbn [negb]; [|reflexivity].
      destruct (ToolbarTouch.buttonsContainerEl s) as [bc|]; [|reflexivity].
      destruct (jeq _ _); reflexivity.
    + intros d. unfold ToolbarTouch.touchMoveFrame.
      destruct (ToolbarTouch.isDragging s); cbn [negb]; [|intros []].
      destruct (ToolbarTouch.buttonsContainerEl s) as [bc|]; [|intros []].
      destruct (jeq _ _); [intros []|].
      intros [H|[]]. discriminate H.
  - unfold ToolbarTouch.onTouchEnd.
    rewrite (jlt_fin_false _ _ Hinv). cbn [andb fst snd].
    eexists. eexists. split; [reflexivity|].
    repeat split; try assumption. intros d [].
  - unfold ToolbarTouch.onClick.
    change (now - ToolbarTouch.touchStartTs s)
      with (now + - ToolbarTouch.touchStartTs s).
    destruct target as [tg|].
    2:{ exists s, [].
        split; [reflexivity|]. split; [exact Hfix|]. split; [reflexivity|].
        split; [exact Hinv|].
        split; [destruct (Qle_bool (now + - ToolbarTouch.touchStartTs s) 150);
                reflexivity|].
        intros d []. }
    change (jsub (Fin now) (Fin (ToolbarTouch.touchStartTs s)))
      with (Fin (now + - ToolbarTouch.touchStartTs s)).
    rewrite jle_fin_bool.
    destruct (Qle_bool (now + - ToolbarTouch.touchStartTs s) 150) eqn:Elate;
      cbn [negb app].
    + exists s, []. repeat split; try assumption. intros d [].
    + destruct (ToolbarTouch.getButtonFromEv tg) as [b|] eqn:Eb.
      * unfold ToolbarTouch.onButtonClick, ToolbarHandlers.onButtonClick.
        eexists. eexists. split; [reflexivity|].
        split; [exact Hfix|]. split; [reflexivity|].
        split.
        { cbn [ToolbarTouch.touchStartTs ToolbarTouch.lastClickTs
               ToolbarTouch.set_click].
          destruct (Qlt_le_dec 150 (now + - ToolbarTouch.touchStartTs s)) as [L|L].
          - lra.
          - apply Qle_bool_iff in L. congruence. }
        split; [cbn [flat_map]; rewrite Eb; reflexivity|].
        intros d [H|[]]. discriminate H.
      * exists s, [].
        split; [reflexivity|]. split; [exact Hfix|]. split; [reflexivity|].
        split; [exact Hinv|].
        split; [cbn [flat_map]; rewrite Eb; reflexivity|].
        intros d [].
Qed.

(** X27.  On a toolbar that is not scrollable, only click events select
    buttons.  Whatever touch events, frames and clicks arrive (the last
    click not being older than the last touch start at the outset), every
    handler completes, the touch handlers give out nothing and never ask for
    a scroll frame, [touchStartTs] never moves, and the [buttonClick] events
    given out are exactly those of the click events that land on a button
    more than 150 ms after [touchStartTs], in order. *)
Theorem fixed_toolbar_clicks_only
    (checkGesture : STCoord -> STCoord -> SuperTabsConfig -> bool)
    (events : list ToolbarTouch.Event) (s : ToolbarTouch.State) :
  ToolbarTouch.scrollable s = false ->
  ToolbarTouch.touchStartTs s <= ToolbarTouch.lastClickTs s ->
  exists (s' : ToolbarTouch.State) (o : list ToolbarTouch.Output),
    ToolbarTouch.handle_all checkGesture events s = Some (s', o)
    /\ ToolbarTouch.buttonClicks o
       = ToolbarTouch.clickedButtons (late_clicks (ToolbarTouch.touchStartTs s) events)
    /\ (forall d : Q, ~ In (ToolbarTouch.RequestFrame d) o)
    /\ ToolbarTouch.touchStartTs s' = ToolbarTouch.touchStartTs s
    /\ ToolbarTouch.scrollable s' = false.
Proof.
  revert s. induction events as [|e rest IH]; intros s Hfix Hinv.
  - exists s, []. repeat split; try assumption. intros d [].
  - destruct (fixed_toolbar_step checkGesture e s Hfix Hinv)
      as [s1 [o1 [Hrun [Hfix1 [Hts1 [Hinv1 [Hclicks1 Hframe1]]]]]]].
    destruct (IH s1 Hfix1 Hinv1) as [s' [o2 [Hrest [Hclicks2 [Hframe2 [Hts' Hfix']]]]]].
    exists s', (o1 ++ o2).
    cbn [ToolbarTouch.handle_all]. rewrite Hrun, Hrest.
    split; [reflexivity|].
    split.
    + unfold ToolbarTouch.buttonClicks in *. rewrite flat_map_app.
      rewrite Hclicks1, Hclicks2, Hts1.
      change (e :: rest) with ([e] ++ rest).
      unfold late_clicks, ToolbarTouch.clickedButtons.
      rewrite filter_app, flat_map_app. reflexivity.
    + split.
      * intros d Hin. apply in_app_or in Hin. destruct Hin as [H|H].
        -- exact (Hframe1 d H).
        -- exact (Hframe2 d H).
      * split; [rewrite Hts', Hts1; reflexivity | exact Hfix'].
Qed.

Lemma fixed_toolbar_clicks_only_witness :
  ToolbarTouch.scrollable SampleToolbar.fixed = false
  /\ ToolbarTouch.touchStartTs SampleToolbar.fixed
     <= ToolbarTouch.lastClickTs SampleToolbar.fixed
  /\ exists (s' : ToolbarTouch.State) (o : list ToolbarTouch.Output),
       ToolbarTouch.handle_all SampleTouch.accept
         [ToolbarTouch.TouchStart {| x := 120; y := 10 |} 1000;
          ToolbarTouch.TouchMove {| x := 60; y := 10 |};
          ToolbarTouch.TouchEnd (ToolbarTouch.OnButton 1) {| x := 60; y := 10 |} 1080;
          ToolbarTouch.Click (Some (ToolbarTouch.OnButton 1)) 1090]
         SampleToolbar.fixed = Some (s', o)
       /\ ToolbarTouch.buttonClicks o
          = ToolbarTouch.clickedButtons
              (late_clicks (ToolbarTouch.touchStartTs SampleToolbar.fixed)
                 [ToolbarTouch.TouchStart {| x := 120; y := 10 |} 1000;
                  ToolbarTouch.TouchMove {| x := 60; y := 10 |};
                  ToolbarTouch.TouchEnd (ToolbarTouch.OnButton 1)
                    {| x := 60; y := 10 |} 1080;
                  ToolbarTouch.Click (Some (ToolbarTouch.OnButton 1)) 1090])
       /\ (forall d : Q, ~ In (ToolbarTouch.RequestFrame d) o)
       /\ ToolbarTouch.touchStartTs s' = ToolbarTouch.touchStartTs SampleToolbar.fixed
       /\ ToolbarTouch.scrollable s' = false.
Proof.
  split; [reflexivity|]. split; [compute; discriminate|].
  apply (fixed_toolbar_clicks_only SampleTouch.accept
           [ToolbarTouch.TouchStart {| x := 120; y := 10 |} 1000;
            ToolbarTouch.TouchMove {| x := 60; y := 10 |};
            ToolbarTouch.TouchEnd (ToolbarTouch.OnButton 1) {| x := 60; y := 10 |} 1080;
            ToolbarTouch.Click (Some (ToolbarTouch.OnButton 1)) 1090]
           SampleToolbar.fixed).
  - reflexivity.
  - compute; discriminate.
Defined.

(** The same events, run: the click lands on button 1 and selects it. *)
Example fixed_toolbar_run :
  option_map (fun r => ToolbarTouch.buttonClicks (snd r))
    (ToolbarTouch.handle_all SampleTouch.accept
       [ToolbarTouch.TouchStart {| x := 120; y := 10 |} 1000;
        ToolbarTouch.TouchMove {| x := 60; y := 10 |};
        ToolbarTouch.TouchEnd (ToolbarTouch.OnButton 1) {| x := 60; y := 10 |} 1080;
        ToolbarTouch.Click (Some (ToolbarTouch.OnButton 1)) 1090]
       SampleToolbar.fixed)
  = Some [1%nat].
Proof. reflexivity. Qed.

(** ** Touches that start in the side-menu zone *)

(** Without an origin and without a drag, nothing but a touch start gets
    the container to do anything. *)
Lemma idle_step
    (checkGesture : STCoord -> STCoord -> SuperTabsConfig -> bool)
    (e : Gestures.TouchEvent) (c : Container.Container) (cfg : SuperTabsConfig) :
  is_touchStart e = false ->
  Container.config c = Some cfg ->
  Container.isDragging c = false ->
  Container.initialCoords c = None ->
  exists c' : Container.Container,
    Gestures.handle checkGesture e c = Some (tt, c', [])
    /\ Container.config c' = Some cfg
    /\ Container.isDragging c' = false
    /\ Container.initialCoords c' = None
    /\ Container._activeTabIndex c' = Container._activeTabIndex c
    /\ Container._selectedTabIndex c' = Container._selectedTabIndex c.
Proof.
  intros He Hcfg Hd Hic.
  destruct e as [attrs coords bw now | coords | coords now | v | bw];
    try discriminate He; cbn [Gestures.handle].
  - exists c. unfold Gestures.onTouchMove, Container.bind, Container.get, Container.ret.
    rewrite Hic. destruct (Container.swipeEnabled c); repeat split; assumption.
  - assert (drag_has_origin c) as Hinv
      by (intros H; rewrite Hd in H; discriminate H).
    destruct (onTouchEnd_step coords now c cfg Hcfg Hinv) as [c' [o [Hrun [_ [_ E]]]]].
    destruct (E Hd) as [-> ->].
    exists c. split; [exact Hrun|]. repeat split; assumption.
  - eexists. split; [reflexivity|]. repeat split; assumption.
  - eexists. split; [reflexivity|]. repeat split; assumption.
Qed.

Lemma idle_run
    (checkGesture : STCoord -> STCoord -> SuperTabsConfig -> bool)
    (events : list Gestures.TouchEvent) :
  forall (c : Container.Container) (cfg : SuperTabsConfig),
    forallb (fun e => negb (is_touchStart e)) events = true ->
    Container.config c = Some cfg ->
    Container.isDragging c = false ->
    Container.initialCoords c = None ->
    exists c' : Container.Container,
      Gestures.handle_all checkGesture events c = Some (tt, c', [])
      /\ Container.isDragging c' = false
      /\ Container.initialCoords c' = None
      /\ Container._activeTabIndex c' = Container._activeTabIndex c
      /\ Container._selectedTabIndex c' = Container._selectedTabIndex c.
Proof.
  induction events as [|e rest IH]; intros c cfg Hev Hcfg Hd Hic.
  - exists c. repeat split; assumption.
  - cbn [forallb] in Hev. apply andb_true_iff in Hev. destruct Hev as [He Hrest].
    apply negb_true_iff in He.
    destruct (idle_step checkGesture e c cfg He Hcfg Hd Hic)
      as [c1 [Hrun [Hcfg1 [Hd1 [Hic1 [Ha1 Hs1]]]]]].
    destruct (IH c1 cfg Hrest Hcfg1 Hd1 Hic1) as [c' [Hrun' [Hd' [Hic' [Ha' Hs']]]]].
    exists c'. cbn [Gestures.handle_all]. unfold Container.bind.
    rewrite Hrun, Hrun'.
    split; [reflexivity|]. split; [exact Hd'|]. split; [exact Hic'|].
    split; congruence.
Qed.

(** X28.  A touch that starts in a side-menu zone is left to the side
    menu.  On a configured container that is at rest (no drag, no origin kept
    from an earlier touch), a touch start left of [leftThreshold] or right of
    [width - rightThreshold] records nothing, so the moves and the touch end
    that follow do nothing at all, whatever the gesture test would say of
    them: no event, no scroll, no drag, and the active and selected indices
    stay as they were. *)
Theorem side_menu_touch_is_ignored
    (checkGesture : STCoord -> STCoord -> SuperTabsConfig -> bool)
    (attrs : list (option string)) (coords : STCoord) (boundingWidth now : Q)
    (rest : list Gestures.TouchEvent)
    (c : Container.Container) (cfg : SuperTabsConfig) :
  Container.config c = Some cfg ->
  Container.isDragging c = false ->
  Container.initialCoords c = None ->
  x coords < Container.leftThreshold c
  \/ Container.width (Container.updateWidth boundingWidth c)
     - Container.rightThreshold c < x coords ->
  forallb (fun e => negb (is_touchStart e)) rest = true ->
  exists c' : Container.Container,
    Gestures.handle_all checkGesture
      (Gestures.TouchStart attrs coords boundingWidth now :: rest) c
    = Some (tt, c', [])
    /\ Container.isDragging c' = false
    /\ Container.initialCoords c' = None
    /\ Container._activeTabIndex c' = Container._activeTabIndex c
    /\ Container._selectedTabIndex c' = Container._selectedTabIndex c.
Proof.
  intros Hcfg Hd Hic Hzone Hrest.
  assert (exists c1 : Container.Container,
             Gestures.onTouchStart attrs coords boundingWidth now c = Some (tt, c1, [])
             /\ Container.config c1 = Some cfg
             /\ Container.isDragging c1 = false
             /\ Container.initialCoords c1 = None
             /\ Container._activeTabIndex c1 = Container._activeTabIndex c
             /\ Container._selectedTabIndex c1 = Container._selectedTabIndex c)
    as [c1 [Hrun [Hcfg1 [Hd1 [Hic1 [Ha1 Hs1]]]]]].
  { unfold Gestures.onTouchStart, Container.bind, Container.get, Container.theConfig,
      Container.modify, Container.ret.
    destruct (Container.swipeEnabled c); cbn [negb];
      [|exists c; repeat split; assumption].
    rewrite Hcfg.
    destruct (avoidElements cfg && existsb truthy attrs);
      [exists c; repeat split; assumption|].
    cbn [Container.config Container.updateWidth Container.set_width
         Container.leftThreshold Container.rightThreshold Container.width].
    match goal with
    | |- context [if ?b then _ else _] =>
        assert (b = true) as ->
    end.
    { apply orb_true_iff. destruct Hzone as [Hl|Hr].
      - left. apply jlt_fin. exact Hl.
      - right. unfold jgt. apply jlt_fin.
        cbn [Container.updateWidth Container.set_width Container.width
             Container.rightThreshold] in Hr.
        exact Hr. }
    eexists. split; [reflexivity|]. repeat split; assumption. }
  destruct (idle_run checkGesture rest c1 cfg Hrest Hcfg1 Hd1 Hic1)
    as [c' [Hrun' [Hd' [Hic' [Ha' Hs']]]]].
  exists c'. cbn [Gestures.handle_all Gestures.handle]. unfold Container.bind.
  rewrite Hrun, Hrun'.
  split; [reflexivity|]. split; [exact Hd'|]. split; [exact Hic'|].
  split; congruence.
Qed.

Lemma side_menu_touch_is_ignored_witness :
  Container.config SampleSideMenu.with_side_menu = Some SampleSideMenu.side_config
  /\ Container.isDragging SampleSideMenu.with_side_menu = false
  /\ Container.initialCoords SampleSideMenu.with_side_menu = None
  /\ (x {| x := 30; y := 10 |} < Container.leftThreshold SampleSideMenu.with_side_menu
      \/ Container.width (Container.updateWidth 300 SampleSideMenu.with_side_menu)
         - Container.rightThreshold SampleSideMenu.with_side_menu
         < x {| x := 30; y := 10 |})
  /\ forallb (fun e => negb (is_touchStart e)) SampleSideMenu.edge_swipe = true
  /\ exists c' : Container.Container,
       Gestures.handle_all SampleTouch.accept
         (Gestures.TouchStart [] {| x := 30; y := 10 |} 300 1000
            :: SampleSideMenu.edge_swipe)
         SampleSideMenu.with_side_menu
       = Some (tt, c', [])
       /\ Container.isDragging c' = false
       /\ Container.initialCoords c' = None
       /\ Container._activeTabIndex c'
          = Container._activeTabIndex SampleSideMenu.with_side_menu
       /\ Container._selectedTabIndex c'
          = Container._selectedTabIndex SampleSideMenu.with_side_menu.
Proof.
  assert (x {| x := 30; y := 10 |}
          < Container.leftThreshold SampleSideMenu.with_side_menu
          \/ Container.width (Container.updateWidth 300 SampleSideMenu.with_side_menu)
             - Container.rightThreshold SampleSideMenu.with_side_menu
             < x {| x := 30; y := 10 |}) as Hzone by (left; reflexivity).
  split; [reflexivity|]. split; [reflexivity|]. split; [reflexivity|].
  split; [exact Hzone|]. split; [reflexivity|].
  apply (side_menu_touch_is_ignored SampleTouch.accept [] {| x := 30; y := 10 |}
           300 1000 SampleSideMenu.edge_swipe SampleSideMenu.with_side_menu
           SampleSideMenu.side_config).
  - reflexivity.
  - reflexivity.
  - reflexivity.
  - exact Hzone.
  - reflexivity.
Defined.
